(** * LoadBalancerManager: a shallow embedding of
    [src/user/system/LoadBalancerManager.ts] and the properties of its
    reload coordinator, configuration swap, server list and status parser. *)

From Stdlib Require Import ZArith Ascii String.
From stdpp Require Import gmap strings list.

Open Scope string_scope.
Open Scope list_scope.

(** ** The JavaScript string operations the code relies on *)

Module Js.

(** [s.split(sep)] for a separator of one character: the pieces between
    the separators, the empty string giving one empty piece. *)
Fixpoint split (sep : ascii) (s : string) : list string :=
  match s with
  | EmptyString => [EmptyString]
  | String c rest =>
      if Ascii.eqb c sep then EmptyString :: split sep rest
      else match split sep rest with
           | [] => [String c EmptyString]
           | piece :: pieces => String c piece :: pieces
           end
  end.

(** White space of the ASCII range: TAB, LF, VT, FF, CR and SPACE. *)
Definition isWhiteSpace (c : ascii) : bool :=
  let n := nat_of_ascii c in
  Nat.eqb n 32 || (Nat.leb 9 n && Nat.leb n 13).

Fixpoint trimStart (s : string) : string :=
  match s with
  | EmptyString => EmptyString
  | String c rest => if isWhiteSpace c then trimStart rest else s
  end.

Fixpoint trimEnd (s : string) : string :=
  match s with
  | EmptyString => EmptyString
  | String c rest =>
      match trimEnd rest with
      | EmptyString => if isWhiteSpace c then EmptyString else String c EmptyString
      | kept => String c kept
      end
  end.

(** [s.trim()] *)
Definition trim (s : string) : string := trimEnd (trimStart s).

(** A JavaScript number as far as this development reads one: an integer
    that a double holds exactly, or the value of a literal that is left
    uninterpreted (a sign, a fraction, an exponent, a hexadecimal literal,
    text that converts to NaN).  [Number] never throws. *)
Inductive number :=
| JsInt (n : N)
| JsUninterpreted (literal : string).

Definition digit (c : ascii) : option N :=
  let n := N_of_ascii c in
  if (48 <=? n)%N && (n <=? 57)%N then Some (n - 48)%N else None.

Fixpoint digits (acc : N) (s : string) : option N :=
  match s with
  | EmptyString => Some acc
  | String c rest =>
      match digit c with
      | Some d => digits (10 * acc + d)%N rest
      | None => None
      end
  end.

(** [Number(s)]: white space around the literal is dropped, the empty
    literal is 0, decimal digits give their value. *)
Definition Number (s : string) : number :=
  let t := trim s in
  match digits 0 t with
  | Some n => if (n <=? 2 ^ 53)%N then JsInt n else JsUninterpreted t
  | None => JsUninterpreted t
  end.

(** Truthiness of an optional string: defined and not empty. *)
Definition truthy (o : option string) : bool :=
  match o with
  | Some (String _ _) => true
  | _ => false
  end.

(** [a || b] on strings, [a] possibly undefined. *)
Definition or_else (a : option string) (b : string) : string :=
  match a with
  | Some (String c rest) => String c rest
  | _ => b
  end.

(** A string operand of [+], [undefined] printing as its name. *)
Definition toString (o : option string) : string := default "undefined" o.

(** [arr.pop()]: the last element and the array without it. *)
Fixpoint pop {A} (arr : list A) : option (A * list A) :=
  match arr with
  | [] => None
  | x :: rest =>
      match pop rest with
      | None => Some (x, [])
      | Some (y, rest') => Some (y, x :: rest')
      end
  end.

End Js.

(** ** The proxy's status: [getInfo] *)

(** Modelled from the spec: [LoadBalancerInfo], the seven counters. *)
Record LoadBalancerInfo := {
  activeConnections : Js.number;
  accepted : Js.number;
  handled : Js.number;
  total : Js.number;
  reading : Js.number;
  writing : Js.number;
  waiting : Js.number;
}.

Inductive ApiStatusCode := STATUS_ERROR_GENERIC.

(** [ApiStatusCodes.createError(code, message)] *)
Record ApiError := createError { apiStatus : ApiStatusCode; apiMessage : string }.

Inductive Settled (A : Type) :=
| Resolve (value : A)
| Reject (error : ApiError).
Arguments Resolve {A} value.
Arguments Reject {A} error.

(** [lines[i].split(' ')[j].trim()] then [Number]: [None] stands for the
    TypeError of calling a method on [undefined]. *)
Definition field (lines : list string) (i j : nat) : option Js.number :=
  line ← lines !! i;
  token ← Js.split " " line !! j;
  Some (Js.Number (Js.trim token)).

(** The body of the [try] block of [getInfo]. *)
Definition parseStatus (body : string) : option LoadBalancerInfo :=
  let lines := Js.split "010" body in
  activeConnections ← field lines 0 2;
  accepted ← field lines 2 1;
  handled ← field lines 2 2;
  total ← field lines 2 3;
  reading ← field lines 3 1;
  writing ← field lines 3 3;
  waiting ← field lines 3 5;
  Some {| activeConnections := activeConnections; accepted := accepted;
          handled := handled; total := total; reading := reading;
          writing := writing; waiting := waiting |}.

(** [getInfo()]: the callback of [request(url, ...)] on the transport's
    [error] and [body]. *)
Definition getInfo (error : option string) (body : option string)
  : Settled LoadBalancerInfo :=
  if bool_decide (is_Some error) || negb (Js.truthy body) then
    Reject (createError STATUS_ERROR_GENERIC "Request to nginx Failed.")
  else
    match parseStatus (default "" body) with
    | Some data => Resolve data
    | None => Reject (createError STATUS_ERROR_GENERIC "Parser Failed. See internal logs...")
    end.

Definition nl : string := String "010" EmptyString.

(** The body as the specification prints it, and as nginx's stub_status
    module prints it (the counters' line starts with a space). *)
Definition specBody : string :=
  "Active connections: 3" +:+ nl +:+ "server accepts handled requests" +:+ nl +:+
  "10 10 15" +:+ nl +:+ "Reading: 1 Writing: 2 Waiting: 0".

Definition nginxBody : string :=
  "Active connections: 3" +:+ nl +:+ "server accepts handled requests" +:+ nl +:+
  " 10 10 15" +:+ nl +:+ "Reading: 1 Writing: 2 Waiting: 0".

(** The positions [getInfo] reads: line and token, counted from 0. *)
Definition statusPositions : list (nat * nat) :=
  [(0, 2); (2, 1); (2, 2); (2, 3); (3, 1); (3, 3); (3, 5)].

(** ** Application definitions and server blocks *)

(** The fields of [CaptainConstants] that this file reads; their values
    live in [utils/CaptainConstants] and are taken as given. *)
Record CaptainConstants := {
  perAppNginxConfigPathBase : string;
  rootNginxConfigPath : string;
  baseNginxConfigPath : string;
  nginxStaticRootDir : string;
  nginxDomainSpecificHtmlDir : string;
  nginxDefaultHtmlDir : string;
  letsEncryptEtcPathOnNginx : string;
  letsEncryptEtcPath : string;
  nginxSharedPathOnNginx : string;
  nginxSharedPathOnHost : string;
  captainStaticFilesDir : string;
  captainConfirmationPath : string;
  captainRootDirectoryGenerated : string;
  captainSubDomain : string;
  registrySubDomain : string;
  captainServiceName : string;
  captainServiceExposedPort : Z;
  captainNetworkName : string;
  nginxServiceName : string;
  nginxImageName : string;
  nginxPortNumber : Z;
}.

Module App.

(** Modelled from the spec: [webApp.httpAuth], as far as the code reads
    it. *)
Record HttpAuth := {
  user : option string;
  passwordHashed : option string;
}.

(** Modelled from the spec: an entry of [webApp.customDomain]. *)
Record CustomDomain := {
  publicDomain : string;
  hasSsl : bool;
}.

(** Modelled from the spec: the declaration of an application definition
    is not in this file; these are the fields [getAppsServerConfig] reads,
    [None] being JavaScript's [undefined]. *)
Record IAppDef := {
  hasDefaultSubDomainSsl : bool;
  notExposeAsWebApp : bool;
  forceSsl : option bool;
  websocketSupport : option bool;
  containerHttpPort : option Z;
  customNginxConfig : option string;
  customDomain : option (list CustomDomain);
  httpAuth : option HttpAuth;
}.

End App.

(** Modelled from the spec: [IServerBlockDetails], one server block handed
    to the template, with the fields this file assigns; its declaration is
    not in this file. *)
Record IServerBlockDetails := {
  hasSsl : bool;
  forceSsl : bool;
  websocketSupport : bool;
  publicDomain : string;
  localDomain : string;
  nginxConfigTemplate : string;
  containerHttpPort : Z;
  httpBasicAuth : string;
  staticWebRoot : option string;
  customErrorPagesDirectory : option string;
  crtPath : option string;
  keyPath : option string;
  httpBasicAuthPath : option string;
}.

(** Modelled from the spec: a template of the store's nginx configuration,
    [customValue] possibly unset. *)
Record ConfigTemplate := {
  byDefault : string;
  customValue : option string;
}.

Record NginxConfig := {
  baseConfig : ConfigTemplate;
  captainConfig : ConfigTemplate;
}.

(** Modelled from the spec: what the code reads from a [DataStore]. The
    store is a collaborator whose code is not in this file, taken here as
    the values its accessors return. [getAppDefinitions] lists the
    applications in the order [Object.keys] enumerates them. *)
Record DataStore := {
  getNameSpace : string;
  getHasRootSsl : bool;
  getHasRegistrySsl : bool;
  getRootDomain : string;
  getDefaultAppNginxConfig : string;
  getNginxConfig : NginxConfig;
  getAppDefinitions : list (string * App.IAppDef);
  getServiceName : string -> string;
}.

(** [!!b] on an optional flag. *)
Definition notnot (b : option bool) : bool := default false b.

(** [port || 80] *)
Definition portOr80 (port : option Z) : Z :=
  match port with
  | Some p => if Z.eqb p 0 then 80%Z else p
  | None => 80%Z
  end.

(** The conditional expression of lines 242-247. *)
Definition httpBasicAuthOf (webApp : App.IAppDef) : string :=
  match App.httpAuth webApp with
  | Some auth =>
      if Js.truthy (App.passwordHashed auth)
      then Js.toString (App.user auth) +:+ ":" +:+ Js.toString (App.passwordHashed auth)
      else ""
  | None => ""
  end.

(** The object built at lines 261-272 for the application's own
    subdomain. *)
Definition serverWithSubDomain (dataStore : DataStore) (defaultAppNginxConfig : string)
    (hasRootSsl : bool) (rootDomain : string) (appName : string) (webApp : App.IAppDef)
  : IServerBlockDetails :=
  {| hasSsl := hasRootSsl && App.hasDefaultSubDomainSsl webApp;
     publicDomain := appName +:+ "." +:+ rootDomain;
     localDomain := getServiceName dataStore appName;
     forceSsl := notnot (App.forceSsl webApp);
     websocketSupport := notnot (App.websocketSupport webApp);
     containerHttpPort := portOr80 (App.containerHttpPort webApp);
     nginxConfigTemplate :=
       Js.or_else (App.customNginxConfig webApp) defaultAppNginxConfig;
     httpBasicAuth := httpBasicAuthOf webApp;
     staticWebRoot := None;
     customErrorPagesDirectory := None;
     crtPath := None; keyPath := None; httpBasicAuthPath := None |}.

(** The object literal of lines 285-296 for the custom domain [d]. *)
Definition customDomainServer (dataStore : DataStore) (defaultAppNginxConfig : string)
    (appName : string) (webApp : App.IAppDef) (d : App.CustomDomain)
  : IServerBlockDetails :=
  {| containerHttpPort := portOr80 (App.containerHttpPort webApp);
     hasSsl := App.hasSsl d;
     forceSsl := notnot (App.forceSsl webApp);
     websocketSupport := notnot (App.websocketSupport webApp);
     publicDomain := App.publicDomain d;
     localDomain := getServiceName dataStore appName;
     nginxConfigTemplate :=
       Js.or_else (App.customNginxConfig webApp) defaultAppNginxConfig;
     staticWebRoot := Some "";
     customErrorPagesDirectory := Some "";
     httpBasicAuth := httpBasicAuthOf webApp;
     crtPath := None; keyPath := None; httpBasicAuthPath := None |}.

(** The body of the [forEach] callback of [getAppsServerConfig]: what one
    application pushes onto [servers]. *)
Definition pushApp (dataStore : DataStore) (defaultAppNginxConfig : string)
    (hasRootSsl : bool) (rootDomain : string)
    (servers : list IServerBlockDetails) (entry : string * App.IAppDef)
  : list IServerBlockDetails :=
  let '(appName, webApp) := entry in
  if App.notExposeAsWebApp webApp then servers
  else
    let servers :=
      servers ++
      [serverWithSubDomain dataStore defaultAppNginxConfig hasRootSsl rootDomain
         appName webApp] in
    match App.customDomain webApp with
    | Some customDomainArray =>
        fold_left
          (fun servers d =>
             servers ++
             [customDomainServer dataStore defaultAppNginxConfig appName webApp d])
          customDomainArray servers
    | None => servers
    end.

Definition getAppsServerConfig (dataStore : DataStore) (defaultAppNginxConfig : string)
    (hasRootSsl : bool) (rootDomain : string) : list IServerBlockDetails :=
  fold_left (pushApp dataStore defaultAppNginxConfig hasRootSsl rootDomain)
            (getAppDefinitions dataStore) [].

Definition getServerList (dataStore : DataStore) : list IServerBlockDetails :=
  let hasRootSsl := getHasRootSsl dataStore in
  let rootDomain := getRootDomain dataStore in
  let defaultAppNginxConfig := getDefaultAppNginxConfig dataStore in
  getAppsServerConfig dataStore defaultAppNginxConfig hasRootSsl rootDomain.

(** What one application contributes to the list. *)
Definition serversOfApp (dataStore : DataStore) (defaultAppNginxConfig : string)
    (hasRootSsl : bool) (rootDomain : string) (entry : string * App.IAppDef)
  : list IServerBlockDetails :=
  if App.notExposeAsWebApp entry.2 then []
  else
    serverWithSubDomain dataStore defaultAppNginxConfig hasRootSsl rootDomain
      entry.1 entry.2 ::
    map (customDomainServer dataStore defaultAppNginxConfig entry.1 entry.2)
        (default [] (App.customDomain entry.2)).

(** ** The world the manager acts on: files, services, failures *)

Inductive FsOp :=
| OutputFile (path content : string)
| Remove (path : string)
| EnsureFile (path : string)
| EnsureDir (path : string)
| RenameSync (oldPath newPath : string)
| Copy (src dest : string).

Record PortMapping := {
  protocol : string;
  publishMode : string;
  containerPort : Z;
  hostPort : Z;
}.

Record Mount := {
  containerPath : string;
  hostPath : string;
}.

Inductive DockerOp :=
| CreateServiceOnNodeId (image name : string) (ports : list PortMapping)
    (nodeId : string) (reservedMemoryBytes : Z)
| IsServiceRunningByName (name : string)
| GetNodeIdByServiceName (name : string) (retryCount : Z)
| RemoveServiceByName (name : string)
| UpdateService (name image : string) (mounts : list Mount) (networks : list string)
| SendSingleContainerKillHUP (name : string).

Inductive Error :=
| FileSystemError (op : FsOp)
| TemplateRenderError (template : string)
| SchedulerClientError (op : DockerOp).

Inductive Result (A : Type) :=
| Ok (value : A)
| Err (error : Error).
Arguments Ok {A} value.
Arguments Err {A} error.

(** [files]: the regular files, each under the path that names it once
    resolved; the operations below look a path up as it is written, which
    is the file it names when the path has no [.], [..] or empty piece, as
    the paths of the manager have for a namespace and public domains
    without a slash. [services]: the node each running service is on, by
    service name. [faults]: for each coming call to the
    file system or to the scheduler, whether the environment refuses it
    (none left: every call goes through). [fsLog], [dockerLog]: the calls
    that went through, oldest first. *)
Record World := {
  files : gmap string string;
  services : gmap string string;
  faults : list bool;
  fsLog : list FsOp;
  dockerLog : list DockerOp;
}.

Definition M (A : Type) : Type := World -> Result A * World.

Definition ret {A} (a : A) : M A := fun w => (Ok a, w).

Definition bind {A B} (c : M A) (k : A -> M B) : M B :=
  fun w =>
    match c w with
    | (Ok a, w') => k a w'
    | (Err e, w') => (Err e, w')
    end.

Notation "'do' x <- c ; k" := (bind c (fun x => k))
  (at level 10, x name, c at level 100, k at level 200).
Notation "c ;; k" := (bind c (fun _ => k))
  (at level 100, k at level 200, right associativity).

Definition throw {A} (e : Error) : M A := fun w => (Err e, w).

Definition withFaults (fs : list bool) (w : World) : World :=
  {| files := files w; services := services w; faults := fs;
     fsLog := fsLog w; dockerLog := dockerLog w |}.

Definition withFiles (m : gmap string string) (op : FsOp) (w : World) : World :=
  {| files := m; services := services w; faults := faults w;
     fsLog := fsLog w ++ [op]; dockerLog := dockerLog w |}.

Definition withServices (m : gmap string string) (op : DockerOp) (w : World) : World :=
  {| files := files w; services := m; faults := faults w;
     fsLog := fsLog w; dockerLog := dockerLog w ++ [op] |}.

(** The environment's verdict on the next call. *)
Definition refused : M bool :=
  fun w =>
    match faults w with
    | [] => (Ok false, w)
    | b :: rest => (Ok b, withFaults rest w)
    end.

Module fs.

Definition perform (op : FsOp) (update : gmap string string -> option (gmap string string))
  : M unit :=
  do no <- refused;
  if (no : bool) then throw (FileSystemError op)
  else fun w =>
    match update (files w) with
    | Some m => (Ok tt, withFiles m op w)
    | None => (Err (FileSystemError op), w)
    end.

(** [fs.outputFile(path, content)]: the file holds [content] afterwards. *)
Definition outputFile (path content : string) : M unit :=
  perform (OutputFile path content) (fun m => Some (<[path := content]> m)).

(** [fs.remove(path)]: no error when nothing is there. *)
Definition remove (path : string) : M unit :=
  perform (Remove path) (fun m => Some (delete path m)).

(** [fs.ensureFile(path)]: an existing file is left as it is, a missing
    one is created empty. *)
Definition ensureFile (path : string) : M unit :=
  perform (EnsureFile path)
    (fun m => Some (match m !! path with Some _ => m | None => <[path := ""]> m end)).

(** [fs.renameSync(oldPath, newPath)]: throws when [oldPath] is missing,
    replaces [newPath] otherwise. *)
Definition renameSync (oldPath newPath : string) : M unit :=
  perform (RenameSync oldPath newPath)
    (fun m => match m !! oldPath with
              | Some content => Some (<[newPath := content]> (delete oldPath m))
              | None => None
              end).

(** Directories are not part of [files]: these two calls are only logged. *)
Definition ensureDir (path : string) : M unit :=
  perform (EnsureDir path) Some.

Definition copy (src dest : string) : M unit :=
  perform (Copy src dest) Some.

End fs.

Module dockerApi.

(** Modelled from the spec: [DockerApi] is the scheduler client, whose code
    is not in this file. A call is refused by the environment, or refused
    by [act] on the services as they are, or goes through and is logged. *)
Definition perform {A} (op : DockerOp)
    (act : gmap string string -> option (A * gmap string string)) : M A :=
  do no <- refused;
  if (no : bool) then throw (SchedulerClientError op)
  else fun w =>
    match act (services w) with
    | Some (a, m) => (Ok a, withServices m op w)
    | None => (Err (SchedulerClientError op), w)
    end.

(** Modelled from the spec: create service (image, published ports, node
    affinity, resource reservation); a service of that name must not
    exist. *)
Definition createServiceOnNodeId (image name : string) (ports : list PortMapping)
    (nodeId : string) (reservedMemoryBytes : Z) : M unit :=
  perform (CreateServiceOnNodeId image name ports nodeId reservedMemoryBytes)
    (fun m => match m !! name with
              | Some _ => None
              | None => Some (tt, <[name := nodeId]> m)
              end).

(** Modelled from the spec: check running-by-name. *)
Definition isServiceRunningByName (name : string) : M bool :=
  perform (IsServiceRunningByName name)
    (fun m => Some (bool_decide (is_Some (m !! name)), m)).

(** Modelled from the spec: get the hosting node by service name. *)
Definition getNodeIdByServiceName (name : string) (retryCount : Z) : M string :=
  perform (GetNodeIdByServiceName name retryCount)
    (fun m => match m !! name with
              | Some nodeId => Some (nodeId, m)
              | None => None
              end).

(** Modelled from the spec: remove service by name. *)
Definition removeServiceByName (name : string) : M unit :=
  perform (RemoveServiceByName name)
    (fun m => match m !! name with
              | Some _ => Some (tt, delete name m)
              | None => None
              end).

(** Modelled from the spec: update service (image, mount list, networks);
    the placement of the service is not changed. *)
Definition updateService (name image : string) (mounts : list Mount)
    (networks : list string) : M unit :=
  perform (UpdateService name image mounts networks)
    (fun m => match m !! name with
              | Some _ => Some (tt, m)
              | None => None
              end).

(** Modelled from the spec: send the hang-up signal to the running
    service. *)
Definition sendSingleContainerKillHUP (name : string) : M unit :=
  perform (SendSingleContainerKillHUP name)
    (fun m => match m !! name with
              | Some _ => Some (tt, m)
              | None => None
              end).

End dockerApi.

(** ** Collaborators: templates and certificate paths *)

#[warnings="-register-all"]
Inductive EjsValue :=
| EStr (s : string)
| EBool (b : bool)
| ENum (z : Z)
| EObj (fields : list (string * EjsValue)).

(** The second argument of [ejs.render]: [{ s: s }] for a server block, an
    object literal otherwise. *)
Inductive EjsData :=
| DataServer (s : IServerBlockDetails)
| DataObject (fields : list (string * EjsValue)).

(** [ejs_render] is [ejs.render], [None] when it throws; the two relative
    paths are [CertbotManager]'s; [dirname] is [__dirname]. [settleOrder]
    is the file system's choice of the order in which the credentials
    writes of one reload end, given the writes in the order they were
    issued, each with its result: some rearrangement of them. *)
Class Env := {
  constants : CaptainConstants;
  ejs_render : string -> EjsData -> option string;
  getCertRelativePathForDomain : string -> string;
  getKeyRelativePathForDomain : string -> string;
  defaultPageTemplate : string;
  dirname : string;
  settleOrder :
    list (IServerBlockDetails * Result unit) -> list (IServerBlockDetails * Result unit);
  settleOrder_perm : forall written, settleOrder written ≡ₚ written;
}.

Definition CONTAINER_PATH_OF_CONFIG : string := "/etc/nginx/conf.d".
Definition NGINX_CONTAINER_PATH_OF_FAKE_CERTS : string := "/etc/nginx/fake-certs".

Definition CAPROVER_CONTAINER_PATH_OF_FAKE_CERTS {E : Env} : string :=
  dirname +:+ "/../../../template/fake-certs-src".

Definition HOST_PATH_OF_FAKE_CERTS {E : Env} : string :=
  captainRootDirectoryGenerated constants +:+ "/nginx/fake-certs-self-signed".

Module path.

(** [path.basename(p)]: the last piece of [p] between slashes that is not
    empty. *)
Definition basename (p : string) : string :=
  List.last (List.filter (fun piece => negb (String.eqb piece "")) (Js.split "/" p)) "".

(** [path.join(a, b)] for the paths joined here, which need no
    normalisation. *)
Definition join (a b : string) : string := a +:+ "/" +:+ b.

End path.

Definition render {E : Env} (template : string) (data : EjsData) : M string :=
  match ejs_render template data with
  | Some text => ret text
  | None => throw (TemplateRenderError template)
  end.

Definition getSslCertPath {E : Env} (domainName : string) : string :=
  letsEncryptEtcPathOnNginx constants +:+ getCertRelativePathForDomain domainName.

Definition getSslKeyPath {E : Env} (domainName : string) : string :=
  letsEncryptEtcPathOnNginx constants +:+ getKeyRelativePathForDomain domainName.

(** ** The reload chain of [consumeQueueIfAnyInNginxReloadQueue] *)

Definition FUTURE (configFilePathBase : string) : string := configFilePathBase +:+ ".fut".
Definition BACKUP (configFilePathBase : string) : string := configFilePathBase +:+ ".bak".
Definition CONFIG (configFilePathBase : string) : string := configFilePathBase +:+ ".conf".

Definition pathOfAuthInHost (configFilePathBase : string) (s : IServerBlockDetails) : string :=
  configFilePathBase +:+ "-" +:+ publicDomain s +:+ ".auth".

Definition hasBasicAuth (s : IServerBlockDetails) : bool :=
  negb (String.eqb (httpBasicAuth s) "").

(** Lines 115-129, the assignments the loop makes to [s] before it starts
    the server's promise chain. *)
Definition assignPaths {E : Env} (s : IServerBlockDetails) : IServerBlockDetails :=
  {| hasSsl := hasSsl s;
     forceSsl := forceSsl s;
     websocketSupport := websocketSupport s;
     publicDomain := publicDomain s;
     localDomain := localDomain s;
     nginxConfigTemplate := nginxConfigTemplate s;
     containerHttpPort := containerHttpPort s;
     httpBasicAuth := httpBasicAuth s;
     crtPath := if hasSsl s then Some (getSslCertPath (publicDomain s)) else crtPath s;
     keyPath := if hasSsl s then Some (getSslKeyPath (publicDomain s)) else keyPath s;
     staticWebRoot :=
       Some (nginxStaticRootDir constants +:+ nginxDomainSpecificHtmlDir constants +:+
             "/" +:+ publicDomain s);
     customErrorPagesDirectory :=
       Some (nginxStaticRootDir constants +:+ nginxDefaultHtmlDir constants);
     httpBasicAuthPath := httpBasicAuthPath s |}.

(** Lines 137-141, the assignment of the chain's first callback. *)
Definition assignAuthPath (configFilePathBase : string) (s : IServerBlockDetails)
  : IServerBlockDetails :=
  if hasBasicAuth s then
    {| hasSsl := hasSsl s; forceSsl := forceSsl s;
       websocketSupport := websocketSupport s; publicDomain := publicDomain s;
       localDomain := localDomain s; nginxConfigTemplate := nginxConfigTemplate s;
       containerHttpPort := containerHttpPort s; httpBasicAuth := httpBasicAuth s;
       crtPath := crtPath s; keyPath := keyPath s;
       staticWebRoot := staticWebRoot s;
       customErrorPagesDirectory := customErrorPagesDirectory s;
       httpBasicAuthPath :=
         Some (path.join CONTAINER_PATH_OF_CONFIG
                 (path.basename (pathOfAuthInHost configFilePathBase s))) |}
  else s.

(** The object [s] as [ejs.render] receives it at line 149. *)
Definition rendererInput {E : Env} (configFilePathBase : string) (s : IServerBlockDetails)
  : IServerBlockDetails :=
  assignAuthPath configFilePathBase (assignPaths s).

(** The first callbacks of the chains run in the servers' order, before any
    other callback: every server with credentials has its
    [fs.outputFile(pathOfAuthInHost, s.httpBasicAuth)] issued, and a write
    that fails stops none of the others. *)
Fixpoint writeAuthFiles (configFilePathBase : string) (ss : list IServerBlockDetails)
    (w : World) : list (IServerBlockDetails * Result unit) * World :=
  match ss with
  | [] => ([], w)
  | s :: rest =>
      let '(written, w1) :=
        fs.outputFile (pathOfAuthInHost configFilePathBase s) (httpBasicAuth s) w in
      let '(others, w2) := writeAuthFiles configFilePathBase rest w1 in
      ((s, written) :: others, w2)
  end.

(** The rest of one server's chain, lines 148-152, after its first
    callback's promise has settled with [written]. *)
Definition renderServer {E : Env} (s : IServerBlockDetails) (written : Result unit)
  : Result string :=
  match written with
  | Err e => Err e
  | Ok _ =>
      match ejs_render (nginxConfigTemplate s) (DataServer s) with
      | Some rendered => Ok rendered
      | None => Err (TemplateRenderError (nginxConfigTemplate s))
      end
  end.

(** [Promise.all] over chains listed in the order they settle, each
    fulfilled one appending to [nginxConfigContent] (line 154): the first
    rejection, or the content. *)
Fixpoint promiseAll (chains : list (Result string)) (nginxConfigContent : string)
  : Result string :=
  match chains with
  | [] => Ok nginxConfigContent
  | Ok rendered :: rest => promiseAll rest (nginxConfigContent +:+ rendered)
  | Err e :: _ => Err e
  end.

(** Lines 110-161. The chains of the servers without credentials settle
    first, in the servers' order (their callbacks never wait for the file
    system); the chain of a server with credentials goes on when its own
    write has ended, so these chains settle in the order [settleOrder]
    gives. The world returned is the one in which every write issued has
    ended, also when the phase fails before the last of them has. *)
Definition renderServers {E : Env} (configFilePathBase : string)
    (servers : list IServerBlockDetails) : M string :=
  fun w =>
    let ss := map (rendererInput configFilePathBase) servers in
    let plain := List.filter (fun s => negb (hasBasicAuth s)) ss in
    let withAuth := List.filter hasBasicAuth ss in
    let '(written, w') := writeAuthFiles configFilePathBase withAuth w in
    (promiseAll (map (fun s => renderServer s (Ok tt)) plain ++
                 map (fun sw => renderServer (fst sw) (snd sw)) (settleOrder written)) "",
     w').

(** Lines 162-176, and again lines 451-465: the five file operations that
    put [content] in place of the configuration file. *)
Definition swapConfigFile (configFilePathBase content : string) : M unit :=
  fs.outputFile (FUTURE configFilePathBase) content ;;
  fs.remove (BACKUP configFilePathBase) ;;
  fs.ensureFile (CONFIG configFilePathBase) ;;
  fs.renameSync (CONFIG configFilePathBase) (BACKUP configFilePathBase) ;;
  fs.renameSync (FUTURE configFilePathBase) (CONFIG configFilePathBase).

(** The five steps of a configuration swap, as the specification lists
    them: write the sidecar, delete the old backup, make sure the target
    exists, move the target to the backup, move the sidecar to the target. *)
Definition swapSteps (configFilePathBase content : string) : list FsOp :=
  [ OutputFile (FUTURE configFilePathBase) content;
    Remove (BACKUP configFilePathBase);
    EnsureFile (CONFIG configFilePathBase);
    RenameSync (CONFIG configFilePathBase) (BACKUP configFilePathBase);
    RenameSync (FUTURE configFilePathBase) (CONFIG configFilePathBase) ].

(** The data of the root template, lines 410-449. *)
Definition rootData {E : Env} (dataStore : DataStore) : EjsData :=
  let captainDomain := captainSubDomain constants +:+ "." +:+ getRootDomain dataStore in
  let registryDomain := registrySubDomain constants +:+ "." +:+ getRootDomain dataStore in
  DataObject
    [ ("fake", EObj
        [ ("crtPath", EStr (path.join NGINX_CONTAINER_PATH_OF_FAKE_CERTS "nginx.crt"));
          ("keyPath", EStr (path.join NGINX_CONTAINER_PATH_OF_FAKE_CERTS "nginx.key")) ]);
      ("captain", EObj
        [ ("crtPath", EStr (getSslCertPath captainDomain));
          ("keyPath", EStr (getSslKeyPath captainDomain));
          ("hasRootSsl", EBool (getHasRootSsl dataStore));
          ("serviceName", EStr (captainServiceName constants));
          ("domain", EStr captainDomain);
          ("serviceExposedPort", ENum (captainServiceExposedPort constants));
          ("defaultHtmlDir",
             EStr (nginxStaticRootDir constants +:+ nginxDefaultHtmlDir constants));
          ("staticWebRoot",
             EStr (nginxStaticRootDir constants +:+ nginxDomainSpecificHtmlDir constants +:+
                   "/" +:+ captainDomain)) ]);
      ("registry", EObj
        [ ("crtPath", EStr (getSslCertPath registryDomain));
          ("keyPath", EStr (getSslKeyPath registryDomain));
          ("hasRootSsl", EBool (getHasRegistrySsl dataStore));
          ("domain", EStr registryDomain);
          ("staticWebRoot",
             EStr (nginxStaticRootDir constants +:+ nginxDomainSpecificHtmlDir constants +:+
                   "/" +:+ registryDomain)) ]) ].

Definition createRootConfFile {E : Env} (dataStore : DataStore) : M unit :=
  let rootNginxTemplate :=
    Js.or_else (customValue (captainConfig (getNginxConfig dataStore)))
               (byDefault (captainConfig (getNginxConfig dataStore))) in
  do rootNginxConfContent <- render rootNginxTemplate (rootData dataStore);
  swapConfigFile (rootNginxConfigPath constants) rootNginxConfContent.

Definition configFilePathBase {E : Env} (dataStore : DataStore) : string :=
  perAppNginxConfigPathBase constants +:+ "/" +:+ getNameSpace dataStore.

(** The promise chain of lines 103-179, up to the two handlers that settle
    the request. *)
Definition reloadChain {E : Env} (dataStore : DataStore) : M unit :=
  fs.remove (FUTURE (configFilePathBase dataStore)) ;;
  do nginxConfigContent <-
    renderServers (configFilePathBase dataStore) (getServerList dataStore);
  swapConfigFile (configFilePathBase dataStore) nginxConfigContent ;;
  createRootConfFile dataStore.

Definition sendReloadSignal {E : Env} : M unit :=
  dockerApi.sendSingleContainerKillHUP (nginxServiceName constants).

(** ** The manager: reload requests and their promises *)

(** An entry of [requestedReloadPromises]; [promise] names the promise whose
    [resolve] and [reject] the entry holds. *)
Record ReloadRequest := {
  dataStore : DataStore;
  promise : nat;
}.

Inductive Outcome :=
| Resolved
| Rejected (error : Error).

(** [ownDataStore] is the private field [dataStore] the constructor sets
    (line 45); [dataStore] names the field of a request here. [chains]: the
    requests whose promise chain has been started and has not reached its
    last handler, oldest first. [started], [settled]: the promises whose
    chain was started, and those resolved or rejected, in order.
    [promisesMade] numbers the promises [rePopulateNginxConfigFile]
    returns. *)
Record Manager := {
  reloadInProcess : bool;
  requestedReloadPromises : list ReloadRequest;
  captainPublicRandomKey : string;
  ownDataStore : DataStore;
  chains : list ReloadRequest;
  started : list nat;
  settled : list (nat * Outcome);
  promisesMade : nat;
  world : World;
}.

(** The constructor, given its [dataStore] argument and the key [uuid()]
    draws. *)
Definition newManager (dataStore : DataStore) (key : string) (w : World) : Manager :=
  {| reloadInProcess := false; requestedReloadPromises := [];
     captainPublicRandomKey := key; ownDataStore := dataStore;
     chains := []; started := []; settled := [];
     promisesMade := 0; world := w |}.

Definition getCaptainPublicRandomKey (self : Manager) : string :=
  captainPublicRandomKey self.

(** [ensureBaseNginxConf()] reads the manager's own store (line 472), not
    one it is given. *)
Definition ensureBaseNginxConf {E : Env} (self : Manager) : M unit :=
  let baseConfigTemplate :=
    Js.or_else (customValue (baseConfig (getNginxConfig (ownDataStore self))))
               (byDefault (baseConfig (getNginxConfig (ownDataStore self)))) in
  do baseNginxConfFileContent <- render baseConfigTemplate (DataObject []);
  fs.outputFile (baseNginxConfigPath constants) baseNginxConfFileContent.

Definition consumeQueueIfAnyInNginxReloadQueue (self : Manager) : Manager :=
  match Js.pop (requestedReloadPromises self) with
  | None => self
  | Some (q, rest) =>
      if reloadInProcess self then
        (* Bouncing off: [q] has left the array and is held by nothing. *)
        {| reloadInProcess := reloadInProcess self; requestedReloadPromises := rest;
           captainPublicRandomKey := captainPublicRandomKey self;
           ownDataStore := ownDataStore self;
           chains := chains self; started := started self; settled := settled self;
           promisesMade := promisesMade self; world := world self |}
      else
        {| reloadInProcess := true; requestedReloadPromises := rest;
           captainPublicRandomKey := captainPublicRandomKey self;
           ownDataStore := ownDataStore self;
           chains := chains self ++ [q]; started := started self ++ [promise q];
           settled := settled self;
           promisesMade := promisesMade self; world := world self |}
  end.

(** [rePopulateNginxConfigFile(dataStoreToQueue)]: the promise it returns
    and the manager after the executor has run. *)
Definition rePopulateNginxConfigFile (dataStoreToQueue : DataStore) (self : Manager)
  : nat * Manager :=
  let res := promisesMade self in
  (res,
   consumeQueueIfAnyInNginxReloadQueue
     {| reloadInProcess := reloadInProcess self;
        requestedReloadPromises :=
          requestedReloadPromises self ++
          [ {| dataStore := dataStoreToQueue; promise := res |} ];
        captainPublicRandomKey := captainPublicRandomKey self;
        ownDataStore := ownDataStore self;
        chains := chains self; started := started self; settled := settled self;
        promisesMade := S res; world := world self |}).

(** The last handler of the oldest chain under way: lines 180-185 when the
    chain succeeded, lines 186-192 when it failed. The chain's file
    operations touch no field of the manager, so they are run here, at the
    point where their result is used. *)
Definition settleChain {E : Env} (self : Manager) : Manager :=
  match chains self with
  | [] => self
  | q :: others =>
      match reloadChain (dataStore q) (world self) with
      | (Ok _, w) =>
          consumeQueueIfAnyInNginxReloadQueue
            {| reloadInProcess := false;
               requestedReloadPromises := requestedReloadPromises self;
               captainPublicRandomKey := captainPublicRandomKey self;
               ownDataStore := ownDataStore self;
               chains := others; started := started self;
               settled := settled self ++ [(promise q, Resolved)];
               promisesMade := promisesMade self; world := w |}
      | (Err error, w) =>
          consumeQueueIfAnyInNginxReloadQueue
            {| reloadInProcess := false;
               requestedReloadPromises := requestedReloadPromises self;
               captainPublicRandomKey := captainPublicRandomKey self;
               ownDataStore := ownDataStore self;
               chains := others; started := started self;
               settled := settled self ++ [(promise q, Rejected error)];
               promisesMade := promisesMade self; world := w |}
      end
  end.

(** What happens to a manager: a caller asks for a reload, or the chain
    under way reaches its last handler. *)
Inductive Event :=
| Call (dataStoreToQueue : DataStore)
| Settle.

Definition step {E : Env} (self : Manager) (ev : Event) : Manager :=
  match ev with
  | Call ds => snd (rePopulateNginxConfigFile ds self)
  | Settle => settleChain self
  end.

Definition run {E : Env} (evs : list Event) (self : Manager) : Manager :=
  fold_left step evs self.

(** The outcome of a promise, once it has one. *)
Definition outcomeOf (p : nat) (self : Manager) : option Outcome :=
  snd <$> List.find (fun entry => Nat.eqb (fst entry) p) (settled self).

(** ** [init] *)

Definition lift {A} (c : M A) (self : Manager) : Result A * Manager :=
  match c (world self) with
  | (r, w) =>
      (r, {| reloadInProcess := reloadInProcess self;
             requestedReloadPromises := requestedReloadPromises self;
             captainPublicRandomKey := captainPublicRandomKey self;
             ownDataStore := ownDataStore self;
             chains := chains self; started := started self;
             settled := settled self;
             promisesMade := promisesMade self; world := w |})
  end.

Definition pageData (title body link linkTitle : string) : EjsData :=
  DataObject [ ("message_title", EStr title); ("message_body", EStr body);
               ("message_link", EStr link); ("message_link_title", EStr linkTitle) ].

(** [createNginxServiceOnNode(nodeId)]; the wait that follows the creation
    changes nothing. *)
Definition createNginxServiceOnNode {E : Env} (nodeId : string) : M unit :=
  dockerApi.createServiceOnNodeId
    (nginxImageName constants) (nginxServiceName constants)
    [ {| protocol := "tcp"; publishMode := "host"; containerPort := 80;
         hostPort := nginxPortNumber constants |};
      {| protocol := "tcp"; publishMode := "host"; containerPort := 443;
         hostPort := 443 |} ]
    nodeId (30 * 1024 * 1024).

(** Lines 540-609: the confirmation file, the static pages, the fake
    certificates and the base configuration. Nothing here reads the
    [dataStore] argument of [init]. *)
Definition initFiles {E : Env} (self : Manager) : M unit :=
  let htmlDir := captainStaticFilesDir constants +:+ nginxDefaultHtmlDir constants in
  fs.outputFile (htmlDir +:+ captainConfirmationPath constants)
    (getCaptainPublicRandomKey self) ;;
  do staticPageContent <-
    render defaultPageTemplate
      (pageData "Nothing here yet :/" "" "https://caprover.com/" "Read Docs");
  fs.outputFile (htmlDir +:+ "/index.html") staticPageContent ;;
  do errorGenericPageContent <-
    render defaultPageTemplate
      (pageData "An Error Occurred :/" "" "https://caprover.com/" "Read Docs");
  fs.outputFile (htmlDir +:+ "/error_generic_catch_all.html") errorGenericPageContent ;;
  do error502PageContent <-
    render defaultPageTemplate
      (pageData "NGINX 502 Error :/"
         "If you are the developer, check your application's logs. See the link below for details"
         "https://caprover.com/docs/troubleshooting.html#successful-deploy-but-502-bad-gateway-error"
         "Docs - 502 Troubleshooting");
  fs.outputFile (htmlDir +:+ "/captain_502_custom_error_page.html") error502PageContent ;;
  fs.copy CAPROVER_CONTAINER_PATH_OF_FAKE_CERTS HOST_PATH_OF_FAKE_CERTS ;;
  ensureBaseNginxConf self.

(** The mounts of the [updateService] call, lines 663-691. *)
Definition nginxMounts {E : Env} : list Mount :=
  [ {| containerPath := nginxStaticRootDir constants;
       hostPath := captainStaticFilesDir constants |};
    {| containerPath := NGINX_CONTAINER_PATH_OF_FAKE_CERTS;
       hostPath := HOST_PATH_OF_FAKE_CERTS |};
    {| containerPath := "/etc/nginx/nginx.conf";
       hostPath := baseNginxConfigPath constants |};
    {| containerPath := CONTAINER_PATH_OF_CONFIG;
       hostPath := perAppNginxConfigPathBase constants |};
    {| containerPath := letsEncryptEtcPathOnNginx constants;
       hostPath := letsEncryptEtcPath constants |};
    {| containerPath := nginxSharedPathOnNginx constants;
       hostPath := nginxSharedPathOnHost constants |} ].

(** Lines 613-718: the two directories, then the service. The final wait
    changes nothing. *)
Definition initService {E : Env} (myNodeId : string) : M unit :=
  fs.ensureDir (letsEncryptEtcPath constants) ;;
  fs.ensureDir (nginxSharedPathOnHost constants) ;;
  do isRunning <- dockerApi.isServiceRunningByName (nginxServiceName constants);
  do nodeId <-
    (if (isRunning : bool) then
       dockerApi.getNodeIdByServiceName (nginxServiceName constants) 0
     else
       createNginxServiceOnNode myNodeId ;; ret myNodeId);
  (if negb (String.eqb nodeId myNodeId) then
     dockerApi.removeServiceByName (nginxServiceName constants) ;;
     createNginxServiceOnNode myNodeId
   else ret tt) ;;
  dockerApi.updateService (nginxServiceName constants) (nginxImageName constants)
    nginxMounts [captainNetworkName constants].

Inductive PromiseState :=
| Pending
| Fulfilled
| Failed (error : Error).

(** [init(myNodeId, dataStore)]: the state of the promise it returns once
    nothing more can happen to it, and the manager then. The reload it asks
    for at line 611 is awaited: the chain under way runs to its last
    handler, and [init] goes on when that settled its request. *)
Definition init {E : Env} (myNodeId : string) (dataStore : DataStore) (self : Manager)
  : PromiseState * Manager :=
  match lift (initFiles self) self with
  | (Err e, self1) => (Failed e, self1)
  | (Ok _, self1) =>
      let '(p, self2) := rePopulateNginxConfigFile dataStore self1 in
      let self3 := settleChain self2 in
      match outcomeOf p self3 with
      | None => (Pending, self3)
      | Some (Rejected e) => (Failed e, self3)
      | Some Resolved =>
          match lift (initService myNodeId) self3 with
          | (Err e, self4) => (Failed e, self4)
          | (Ok _, self4) => (Fulfilled, self4)
          end
      end
  end.

(** ** Sample data, for the examples *)

Definition sampleConstants : CaptainConstants :=
  {| perAppNginxConfigPathBase := "/captain/generated/nginx/conf.d";
     rootNginxConfigPath := "/captain/generated/nginx/conf.d/captain-root";
     baseNginxConfigPath := "/captain/generated/nginx/nginx.conf";
     nginxStaticRootDir := "/usr/share/nginx";
     nginxDomainSpecificHtmlDir := "/domains";
     nginxDefaultHtmlDir := "/default";
     letsEncryptEtcPathOnNginx := "/letencrypt/etc";
     letsEncryptEtcPath := "/captain/data/letencrypt/etc";
     nginxSharedPathOnNginx := "/nginx-shared";
     nginxSharedPathOnHost := "/captain/data/nginx-shared";
     captainStaticFilesDir := "/captain/generated/static";
     captainConfirmationPath := "/.well-known/captain-identifier";
     captainRootDirectoryGenerated := "/captain/generated";
     captainSubDomain := "captain";
     registrySubDomain := "registry";
     captainServiceName := "captain-captain";
     captainServiceExposedPort := 3000;
     captainNetworkName := "captain-overlay-network";
     nginxServiceName := "captain-nginx";
     nginxImageName := "nginx:1";
     nginxPortNumber := 80 |}.

(** A renderer that refuses the template ["<%"] and otherwise prints the
    template, followed for a server block by its public domain; a file
    system that ends the credentials writes of a reload last issued
    first. *)
Definition sampleRender (template : string) (data : EjsData) : option string :=
  if String.eqb template "<%" then None
  else match data with
       | DataServer s => Some (template +:+ publicDomain s +:+ ";")
       | DataObject _ => Some template
       end.

Definition sampleEnv : Env :=
  {| constants := sampleConstants;
     ejs_render := sampleRender;
     getCertRelativePathForDomain := fun d => "/live/" +:+ d +:+ "/fullchain.pem";
     getKeyRelativePathForDomain := fun d => "/live/" +:+ d +:+ "/privkey.pem";
     defaultPageTemplate := "page";
     dirname := "/usr/src/app/built/user/system";
     settleOrder := @rev _;
     settleOrder_perm := fun written => Permutation_sym (Permutation_rev written) |}.

Definition sampleApp (auth : option App.HttpAuth) (template : option string)
    (domains : list App.CustomDomain) : App.IAppDef :=
  {| App.hasDefaultSubDomainSsl := true; App.notExposeAsWebApp := false;
     App.forceSsl := None; App.websocketSupport := None;
     App.containerHttpPort := None; App.customNginxConfig := template;
     App.customDomain := Some domains; App.httpAuth := auth |}.

Definition sampleStore (apps : list (string * App.IAppDef)) : DataStore :=
  {| getNameSpace := "captain"; getHasRootSsl := true; getHasRegistrySsl := false;
     getRootDomain := "example.com"; getDefaultAppNginxConfig := "server ";
     getNginxConfig :=
       {| baseConfig := {| byDefault := "base"; customValue := None |};
          captainConfig := {| byDefault := "root"; customValue := None |} |};
     getAppDefinitions := apps;
     getServiceName := fun appName => "srv-captain--" +:+ appName |}.

Definition emptyWorld : World :=
  {| files := ∅; services := ∅; faults := []; fsLog := []; dockerLog := [] |}.

Definition c7Store : DataStore :=
  sampleStore
    [("foo", sampleApp (Some {| App.user := Some "admin"; App.passwordHashed := Some "$1$abc" |})
               None [])].

Definition c2Store : DataStore :=
  sampleStore
    [("foo", sampleApp None None [ {| App.publicDomain := "foo.org"; App.hasSsl := false |} ])].

(** A world in which the namespace [captain] has a configuration and a
    backup, the [n]-th coming call to the file system being refused. *)
Definition worldRefusing (n : nat) : World :=
  {| files := <["/captain/generated/nginx/conf.d/captain.conf" := "old"]>
                (<["/captain/generated/nginx/conf.d/captain.bak" := "older"]> ∅);
     services := ∅; faults := replicate n false ++ [true];
     fsLog := []; dockerLog := [] |}.

(** The scheduler's side of the world is as it was. *)
Definition sameServices (w w' : World) : Prop :=
  services w' = services w /\ dockerLog w' = dockerLog w.


(** [createNginxServiceOnNode]'s call, as it is logged. *)
Definition createCall {E : Env} (nodeId : string) : DockerOp :=
  CreateServiceOnNodeId (nginxImageName constants) (nginxServiceName constants)
    [ {| protocol := "tcp"; publishMode := "host"; containerPort := 80;
         hostPort := nginxPortNumber constants |};
      {| protocol := "tcp"; publishMode := "host"; containerPort := 443;
         hostPort := 443 |} ]
    nodeId (30 * 1024 * 1024).

(** The [updateService] call with the six mounts. *)
Definition updateCall {E : Env} : DockerOp :=
  UpdateService (nginxServiceName constants) (nginxImageName constants)
    [ {| containerPath := nginxStaticRootDir constants;
         hostPath := captainStaticFilesDir constants |};
      {| containerPath := "/etc/nginx/fake-certs";
         hostPath := captainRootDirectoryGenerated constants +:+
                     "/nginx/fake-certs-self-signed" |};
      {| containerPath := "/etc/nginx/nginx.conf";
         hostPath := baseNginxConfigPath constants |};
      {| containerPath := "/etc/nginx/conf.d";
         hostPath := perAppNginxConfigPathBase constants |};
      {| containerPath := letsEncryptEtcPathOnNginx constants;
         hostPath := letsEncryptEtcPath constants |};
      {| containerPath := nginxSharedPathOnNginx constants;
         hostPath := nginxSharedPathOnHost constants |} ]
    [captainNetworkName constants].

(** The scheduler calls of [init], as the specification lists them, for a
    service that is absent, on the expected node, or on another node; the
    update comes last in each case. *)
Definition reconcileCalls {E : Env} (myNodeId : string) (runningOn : option string)
  : list DockerOp :=
  match runningOn with
  | None => [IsServiceRunningByName (nginxServiceName constants); createCall myNodeId]
  | Some nodeId =>
      if String.eqb nodeId myNodeId then
        [ IsServiceRunningByName (nginxServiceName constants);
          GetNodeIdByServiceName (nginxServiceName constants) 0 ]
      else
        [ IsServiceRunningByName (nginxServiceName constants);
          GetNodeIdByServiceName (nginxServiceName constants) 0;
          RemoveServiceByName (nginxServiceName constants);
          createCall myNodeId ]
  end ++ [updateCall].

(** A computation that leaves the scheduler's side of the world alone. *)
Definition fsOnly {A} (c : M A) : Prop :=
  forall w r w', c w = (r, w') -> sameServices w w'.

(** A world in which the proxy runs on node [nodeA]. *)
Definition worldOnNodeA : World :=
  {| files := ∅; services := <["captain-nginx" := "nodeA"]> ∅; faults := [];
     fsLog := []; dockerLog := [] |}.

(** How the chain of [q], run in the world [w], settles [q]'s promise. *)
Definition chainOutcome {E : Env} (q : ReloadRequest) (w : World) : Outcome :=
  match (reloadChain (dataStore q) w).1 with
  | Ok _ => Resolved
  | Err e => Rejected e
  end.

(** Every promise the manager holds or will make has a number in [P]. *)
Definition onlyIds (P : nat -> Prop) (self : Manager) : Prop :=
  (forall k, promisesMade self <= k -> P k) /\
  Forall (fun q => P (promise q)) (requestedReloadPromises self) /\
  Forall (fun q => P (promise q)) (chains self).

(** A manager with no chain under way and three requests in its array,
    pushed in the order 0, 1, 2; the template of request 1 is refused. *)
Definition threePending : Manager :=
  {| reloadInProcess := false;
     requestedReloadPromises :=
       [ {| dataStore := sampleStore []; promise := 0 |};
         {| dataStore := sampleStore [("blog", sampleApp None (Some "<%") [])];
            promise := 1 |};
         {| dataStore := sampleStore []; promise := 2 |} ];
     captainPublicRandomKey := "key"; ownDataStore := sampleStore [];
     chains := []; started := []; settled := [];
     promisesMade := 3; world := emptyWorld |}.

(** A world in which the namespace [captain] has a configuration and a
    backup, and no call is refused. *)
Definition worldWithConfig : World :=
  {| files := <["/captain/generated/nginx/conf.d/captain.conf" := "old"]>
                (<["/captain/generated/nginx/conf.d/captain.bak" := "older"]> ∅);
     services := ∅; faults := []; fsLog := []; dockerLog := [] |}.

(** An application with two custom domains, [shop.org] served with SSL. *)
Definition shopStore : DataStore :=
  sampleStore
    [("shop", sampleApp (Some {| App.user := Some "admin"; App.passwordHashed := Some "$1$abc" |})
                None
                [ {| App.publicDomain := "shop.org"; App.hasSsl := true |};
                  {| App.publicDomain := "shop.net"; App.hasSsl := false |} ])].

(** [s.includes(c)] for one character. *)
Fixpoint includes (c : ascii) (s : string) : bool :=
  match s with
  | EmptyString => false
  | String c' rest => Ascii.eqb c' c || includes c rest
  end.

(** The page of nginx's stub_status module for seven printed counters:
    four lines, each ended by a line feed, the third starting with a space
    and the first, third and fourth ending with one. *)
Definition connectionsLine (active : string) : string :=
  "Active connections: " +:+ active +:+ " ".

Definition countersLine (accepts handled requests : string) : string :=
  " " +:+ accepts +:+ " " +:+ handled +:+ " " +:+ requests +:+ " ".

Definition stateLine (reading writing waiting : string) : string :=
  "Reading: " +:+ reading +:+ " Writing: " +:+ writing +:+ " Waiting: " +:+ waiting +:+ " ".

Definition statusPage (active accepts handled requests reading writing waiting : string)
  : string :=
  connectionsLine active +:+ nl +:+ "server accepts handled requests" +:+ nl +:+
  countersLine accepts handled requests +:+ nl +:+
  stateLine reading writing waiting +:+ nl.

(** The last character of a string. *)
Fixpoint lastChar (s : string) : option ascii :=
  match s with
  | EmptyString => None
  | String c EmptyString => Some c
  | String _ rest => lastChar rest
  end.

(** A computation that changes no file outside [paths], whatever its
    outcome. *)
Definition touchesOnly {A} (paths : string -> Prop) (c : M A) : Prop :=
  forall w r w' p, c w = (r, w') -> ~ paths p -> files w' !! p = files w !! p.

(** The files a reload of [dataStore] may change: the three files of the
    namespace, the three files of the root configuration, and the
    credentials files of the server blocks that have credentials. *)
Definition reloadPaths {E : Env} (dataStore : DataStore) (p : string) : Prop :=
  p ∈ [ FUTURE (configFilePathBase dataStore); BACKUP (configFilePathBase dataStore);
        CONFIG (configFilePathBase dataStore);
        FUTURE (rootNginxConfigPath constants); BACKUP (rootNginxConfigPath constants);
        CONFIG (rootNginxConfigPath constants) ] \/
  exists s, s ∈ getServerList dataStore /\ httpBasicAuth s <> "" /\
            p = pathOfAuthInHost (configFilePathBase dataStore) s.

(** A world with a base configuration file and no other file. *)
Definition worldWithBaseConf : World :=
  {| files := <["/captain/generated/nginx/nginx.conf" := "base"]> ∅;
     services := ∅; faults := []; fsLog := []; dockerLog := [] |}.


(** A store whose root template is refused by the renderer. *)
Definition badRootStore : DataStore :=
  {| getNameSpace := "captain"; getHasRootSsl := true; getHasRegistrySsl := false;
     getRootDomain := "example.com"; getDefaultAppNginxConfig := "server ";
     getNginxConfig :=
       {| baseConfig := {| byDefault := "base"; customValue := None |};
          captainConfig := {| byDefault := "<%"; customValue := None |} |};
     getAppDefinitions := [];
     getServiceName := fun appName => "srv-captain--" +:+ appName |}.

(** The root template [createRootConfFile] renders. *)
Definition rootNginxTemplate (dataStore : DataStore) : string :=
  Js.or_else (customValue (captainConfig (getNginxConfig dataStore)))
             (byDefault (captainConfig (getNginxConfig dataStore))).

(** * Properties *)

(** ** The server list *)

Lemma fold_push {A B} (f : A -> B) (l : list A) (acc : list B) :
  fold_left (fun acc x => acc ++ [f x]) l acc = acc ++ map f l.
Proof.
  revert acc. induction l as [|x l IH]; intros acc; simpl.
  - by rewrite app_nil_r.
  - by rewrite IH, <- app_assoc.
Qed.

Lemma pushApp_app ds dflt ssl root servers entry :
  pushApp ds dflt ssl root servers entry = servers ++ serversOfApp ds dflt ssl root entry.
Proof.
  destruct entry as [appName webApp]. unfold pushApp, serversOfApp. simpl.
  destruct (App.notExposeAsWebApp webApp).
  - by rewrite app_nil_r.
  - destruct (App.customDomain webApp) as [arr|]; simpl.
    + by rewrite fold_push, <- app_assoc.
    + done.
Qed.

Lemma fold_pushApp ds dflt ssl root apps servers :
  fold_left (pushApp ds dflt ssl root) apps servers =
  servers ++ mjoin (map (serversOfApp ds dflt ssl root) apps).
Proof.
  revert servers. induction apps as [|entry apps IH]; intros servers; simpl.
  - by rewrite app_nil_r.
  - by rewrite IH, pushApp_app, <- app_assoc.
Qed.

Lemma getAppsServerConfig_concat ds dflt ssl root :
  getAppsServerConfig ds dflt ssl root =
  mjoin (map (serversOfApp ds dflt ssl root) (getAppDefinitions ds)).
Proof. unfold getAppsServerConfig. by rewrite fold_pushApp. Qed.

Lemma elem_of_getAppsServerConfig ds dflt ssl root s :
  s ∈ getAppsServerConfig ds dflt ssl root <->
  exists appName webApp,
    (appName, webApp) ∈ getAppDefinitions ds /\
    App.notExposeAsWebApp webApp = false /\
    (s = serverWithSubDomain ds dflt ssl root appName webApp \/
     exists d, d ∈ default [] (App.customDomain webApp) /\
               s = customDomainServer ds dflt appName webApp d).
Proof.
  rewrite getAppsServerConfig_concat, list_elem_of_join. split.
  - intros (l & Hs & Hl). apply list_elem_of_fmap in Hl as ([appName webApp] & -> & Hin).
    exists appName, webApp. unfold serversOfApp in Hs. simpl in Hs.
    destruct (App.notExposeAsWebApp webApp) eqn:Hexp; [by apply elem_of_nil in Hs|].
    split; [done|]. split; [done|].
    apply elem_of_cons in Hs as [->|Hs]; [by left|right].
    apply list_elem_of_fmap in Hs as (d & -> & Hd). eauto.
  - intros (appName & webApp & Hin & Hexp & Hs).
    exists (serversOfApp ds dflt ssl root (appName, webApp)). split.
    + unfold serversOfApp. simpl. rewrite Hexp.
      destruct Hs as [->|(d & Hd & ->)]; [left|right].
      apply list_elem_of_fmap. eauto.
    + apply list_elem_of_fmap. by exists (appName, webApp).
Qed.

(** C8: the number of server blocks is the sum, over the applications that
    are exposed as web apps, of one plus the number of their custom domains;
    an application flagged [notExposeAsWebApp] contributes none. *)
Theorem C8_descriptor_count ds dflt ssl root :
  length (getAppsServerConfig ds dflt ssl root) =
  sum_list_with
    (fun entry : string * App.IAppDef =>
       if App.notExposeAsWebApp entry.2 then 0
       else 1 + length (default [] (App.customDomain entry.2)))
    (getAppDefinitions ds).
Proof.
  rewrite getAppsServerConfig_concat.
  induction (getAppDefinitions ds) as [|entry apps IH]; simpl; [done|].
  rewrite length_app, IH. f_equal.
  unfold serversOfApp. destruct (App.notExposeAsWebApp entry.2); simpl; [done|].
  by rewrite length_map.
Qed.

(** C7, as the code has it: for every application of the store that is
    exposed as a web app, each of its server blocks (the block of its own
    subdomain and the block of each of its custom domains) is in the list
    and carries [user + ":" + passwordHashed] of that application exactly
    when the application has an [httpAuth] whose [passwordHashed] is not
    empty, whatever its user is, and the empty string otherwise; and every
    block of the list is such a block of an application of the store. *)
Theorem C7_httpBasicAuth ds dflt ssl root appName webApp s :
  (appName, webApp) ∈ getAppDefinitions ds ->
  App.notExposeAsWebApp webApp = false ->
  (s = serverWithSubDomain ds dflt ssl root appName webApp \/
   exists d, d ∈ default [] (App.customDomain webApp) /\
             s = customDomainServer ds dflt appName webApp d) ->
  s ∈ getAppsServerConfig ds dflt ssl root /\
  (forall auth h,
      App.httpAuth webApp = Some auth -> App.passwordHashed auth = Some h -> h <> "" ->
      httpBasicAuth s = Js.toString (App.user auth) +:+ ":" +:+ h) /\
  ((App.httpAuth webApp = None \/
    exists auth, App.httpAuth webApp = Some auth /\
                 (App.passwordHashed auth = None \/ App.passwordHashed auth = Some "")) ->
   httpBasicAuth s = "") /\
  (httpBasicAuth s <> "" <->
   exists auth h, App.httpAuth webApp = Some auth /\
                  App.passwordHashed auth = Some h /\ h <> "") /\
  (forall s',
      s' ∈ getAppsServerConfig ds dflt ssl root ->
      exists appName' webApp',
        (appName', webApp') ∈ getAppDefinitions ds /\
        App.notExposeAsWebApp webApp' = false /\
        (s' = serverWithSubDomain ds dflt ssl root appName' webApp' \/
         exists d, d ∈ default [] (App.customDomain webApp') /\
                   s' = customDomainServer ds dflt appName' webApp' d)).
Proof.
  intros Hin Hexp Hs.
  split. { apply elem_of_getAppsServerConfig. exists appName, webApp. auto. }
  assert (httpBasicAuth s = httpBasicAuthOf webApp) as ->.
  { by destruct Hs as [->|(d & _ & ->)]. }
  unfold httpBasicAuthOf. split; [|split; [|split]].
  - intros auth h -> -> Hh. destruct h; [done|]. done.
  - intros [->|(auth & -> & [-> | ->])]; done.
  - destruct (App.httpAuth webApp) as [auth|]; [|split; [done|by intros (? & ? & [=] & _)]].
    destruct (App.passwordHashed auth) as [h|] eqn:Hp; simpl.
    + destruct h as [|c h]; simpl.
      * split; [done|]. intros (a & h' & [= <-] & Hh & Hne). congruence.
      * split; [|by destruct (Js.toString (App.user auth))].
        intros _. exists auth, (String c h). done.
    + split; [done|]. intros (a & h' & [= <-] & Hh & _). congruence.
  - intros s' Hs'. by apply elem_of_getAppsServerConfig in Hs'.
Qed.

(** The theorem at an application with a user and a hashed password. *)
Lemma C7_httpBasicAuth_witness :
  httpBasicAuth
    (serverWithSubDomain c7Store "server " true "example.com" "foo"
       (sampleApp (Some {| App.user := Some "admin"; App.passwordHashed := Some "$1$abc" |})
          None [])) =
  "admin:$1$abc".
Proof.
  refine (proj1 (proj2 (C7_httpBasicAuth c7Store "server " true "example.com" "foo"
            (sampleApp (Some {| App.user := Some "admin";
                                App.passwordHashed := Some "$1$abc" |}) None [])
            _ _ _ _))
          {| App.user := Some "admin"; App.passwordHashed := Some "$1$abc" |} "$1$abc"
          _ _ _).
  - vm_compute. apply list_elem_of_here.
  - reflexivity.
  - by left.
  - reflexivity.
  - reflexivity.
  - discriminate.
Defined.

(** C7 fails as stated: with a hashed password and no user, or an empty
    user, the field is not empty. *)
Lemma C7_user_not_tested :
  map httpBasicAuth
    (getServerList
       (sampleStore
          [("foo", sampleApp (Some {| App.user := None; App.passwordHashed := Some "$1$abc" |})
                     None []);
           ("bar", sampleApp (Some {| App.user := Some ""; App.passwordHashed := Some "$1$abc" |})
                     None [])])) =
  ["undefined:$1$abc"; ":$1$abc"].
Proof. reflexivity. Qed.

(** C2, as the code has it: a custom domain's server block takes the
    upstream, credentials, template and port of the application's own block
    and the custom domain's [hasSsl]; [getAppsServerConfig] gives it empty
    [staticWebRoot] and [customErrorPagesDirectory] and leaves both unset
    on the application's own block, and the reload chain overwrites both on
    every block before rendering, so that the renderer sees, on each block,
    the static root of the block's own public domain and the default error
    pages directory. *)
Theorem C2_custom_domain_block {E : Env} ds dflt ssl root base appName webApp arr idx d :
  (appName, webApp) ∈ getAppDefinitions ds ->
  App.notExposeAsWebApp webApp = false ->
  App.customDomain webApp = Some arr ->
  arr !! idx = Some d ->
  let primary := serverWithSubDomain ds dflt ssl root appName webApp in
  let custom := customDomainServer ds dflt appName webApp d in
  let seen := rendererInput base custom in
  primary ∈ getAppsServerConfig ds dflt ssl root /\
  custom ∈ getAppsServerConfig ds dflt ssl root /\
  (staticWebRoot primary = None /\
   customErrorPagesDirectory primary = None /\
   staticWebRoot (rendererInput base primary) =
     Some (nginxStaticRootDir constants +:+ nginxDomainSpecificHtmlDir constants +:+
           "/" +:+ appName +:+ "." +:+ root) /\
   customErrorPagesDirectory (rendererInput base primary) =
     Some (nginxStaticRootDir constants +:+ nginxDefaultHtmlDir constants)) /\
  (localDomain custom = localDomain primary /\
   httpBasicAuth custom = httpBasicAuth primary /\
   nginxConfigTemplate custom = nginxConfigTemplate primary /\
   containerHttpPort custom = containerHttpPort primary /\
   hasSsl custom = App.hasSsl d /\
   staticWebRoot custom = Some "" /\
   customErrorPagesDirectory custom = Some "") /\
  (localDomain seen = localDomain primary /\
   httpBasicAuth seen = httpBasicAuth primary /\
   nginxConfigTemplate seen = nginxConfigTemplate primary /\
   containerHttpPort seen = containerHttpPort primary /\
   hasSsl seen = App.hasSsl d /\
   staticWebRoot seen =
     Some (nginxStaticRootDir constants +:+ nginxDomainSpecificHtmlDir constants +:+
           "/" +:+ App.publicDomain d) /\
   customErrorPagesDirectory seen =
     Some (nginxStaticRootDir constants +:+ nginxDefaultHtmlDir constants)).
Proof.
  intros Hin Hexp Harr Hd primary custom seen. split; [|split; [|split; [|split]]].
  - apply elem_of_getAppsServerConfig. exists appName, webApp. auto.
  - apply elem_of_getAppsServerConfig. exists appName, webApp.
    split; [done|]. split; [done|]. right. exists d. split; [|done].
    rewrite Harr. simpl. by eapply list_elem_of_lookup_2.
  - unfold rendererInput, assignAuthPath.
    destruct (hasBasicAuth (assignPaths primary)); done.
  - done.
  - unfold seen, rendererInput, assignAuthPath.
    destruct (hasBasicAuth (assignPaths custom)); done.
Qed.

(** The theorem at the custom domain [foo.org] of the application [foo]. *)
Lemma C2_custom_domain_block_witness :
  staticWebRoot
    (rendererInput (E := sampleEnv) "/captain/generated/nginx/conf.d/captain"
       (customDomainServer c2Store "server " "foo"
          (sampleApp None None [ {| App.publicDomain := "foo.org"; App.hasSsl := false |} ])
          {| App.publicDomain := "foo.org"; App.hasSsl := false |})) =
  Some "/usr/share/nginx/domains/foo.org".
Proof.
  destruct (C2_custom_domain_block (E := sampleEnv) c2Store "server " true "example.com"
              "/captain/generated/nginx/conf.d/captain" "foo"
              (sampleApp None None [ {| App.publicDomain := "foo.org"; App.hasSsl := false |} ])
              [ {| App.publicDomain := "foo.org"; App.hasSsl := false |} ] 0
              {| App.publicDomain := "foo.org"; App.hasSsl := false |})
    as (_ & _ & _ & _ & _ & _ & _ & _ & _ & Hroot & _).
  - vm_compute. apply list_elem_of_here.
  - reflexivity.
  - reflexivity.
  - reflexivity.
  - exact Hroot.
Defined.

(** C2 fails as stated: the block of the custom domain [foo.org] reaches
    the renderer with a static root and an error pages directory that are
    not empty. *)
Lemma C2_custom_block_paths_not_empty :
  map (fun s => (publicDomain s, staticWebRoot s, customErrorPagesDirectory s))
    (map (rendererInput (E := sampleEnv) (configFilePathBase (E := sampleEnv) c2Store))
         (getServerList c2Store)) =
  [ ("foo.example.com", Some "/usr/share/nginx/domains/foo.example.com",
     Some "/usr/share/nginx/default");
    ("foo.org", Some "/usr/share/nginx/domains/foo.org", Some "/usr/share/nginx/default") ].
Proof. reflexivity. Qed.

(** ** The status parser *)

Lemma getInfo_resolve_inv error body data :
  getInfo error body = Resolve data ->
  error = None /\ exists b, body = Some b /\ b <> "" /\ parseStatus b = Some data.
Proof.
  unfold getInfo. destruct error as [e|].
  - rewrite bool_decide_true by eauto. done.
  - rewrite bool_decide_false by (intros [? ?]; done). simpl.
    destruct body as [[|c b]|]; simpl; try done.
    destruct (parseStatus (String c b)) as [data'|] eqn:Hp; [|done].
    intros [= ->]. split; [done|]. exists (String c b). done.
Qed.

Lemma parseStatus_fields body data :
  parseStatus body = Some data <->
  field (Js.split "010" body) 0 2 = Some (activeConnections data) /\
  field (Js.split "010" body) 2 1 = Some (accepted data) /\
  field (Js.split "010" body) 2 2 = Some (handled data) /\
  field (Js.split "010" body) 2 3 = Some (total data) /\
  field (Js.split "010" body) 3 1 = Some (reading data) /\
  field (Js.split "010" body) 3 3 = Some (writing data) /\
  field (Js.split "010" body) 3 5 = Some (waiting data).
Proof.
  unfold parseStatus. cbv zeta. split.
  - intros H.
    repeat match type of H with
           | context [field ?l ?i ?j] =>
               destruct (field l i j) eqn:?; simpl in H; [|discriminate H]
           end.
    injection H as <-. simpl. tauto.
  - intros (-> & -> & -> & -> & -> & -> & ->). simpl. by destruct data.
Qed.

(** C3, as the code has it: the body whose third line starts with a space,
    as nginx prints it, resolves to the seven counters; a transport error,
    a missing or empty body, and a body that lacks one of the tokens read
    are rejected; and a result is delivered only with all seven fields read
    from the body. *)
Theorem C3_getInfo :
  getInfo None (Some nginxBody) =
    Resolve {| activeConnections := Js.JsInt 3; accepted := Js.JsInt 10;
               handled := Js.JsInt 10; total := Js.JsInt 15;
               reading := Js.JsInt 1; writing := Js.JsInt 2; waiting := Js.JsInt 0 |} /\
  (forall error body,
      is_Some error \/ body = None \/ body = Some "" ->
      getInfo error body =
        Reject (createError STATUS_ERROR_GENERIC "Request to nginx Failed.")) /\
  (forall body i j,
      body <> "" -> (i, j) ∈ statusPositions ->
      field (Js.split "010" body) i j = None ->
      getInfo None (Some body) =
        Reject (createError STATUS_ERROR_GENERIC "Parser Failed. See internal logs...")) /\
  (forall error body data,
      getInfo error body = Resolve data ->
      error = None /\
      exists b, body = Some b /\
        field (Js.split "010" b) 0 2 = Some (activeConnections data) /\
        field (Js.split "010" b) 2 1 = Some (accepted data) /\
        field (Js.split "010" b) 2 2 = Some (handled data) /\
        field (Js.split "010" b) 2 3 = Some (total data) /\
        field (Js.split "010" b) 3 1 = Some (reading data) /\
        field (Js.split "010" b) 3 3 = Some (writing data) /\
        field (Js.split "010" b) 3 5 = Some (waiting data)).
Proof.
  split; [reflexivity|]. split; [|split].
  - intros error body [[e ->]|[->| ->]]; unfold getInfo; simpl; [done| |].
    + by rewrite orb_true_r.
    + by rewrite orb_true_r.
  - intros body i j Hne Hpos Hnone. unfold getInfo.
    rewrite bool_decide_false by (intros [? ?]; done).
    destruct body as [|c b]; [done|]. simpl.
    destruct (parseStatus (String c b)) as [data|] eqn:Hp; [|done].
    apply parseStatus_fields in Hp as (H1 & H2 & H3 & H4 & H5 & H6 & H7).
    unfold statusPositions in Hpos.
    repeat (apply elem_of_cons in Hpos as [[= -> ->]|Hpos]; [congruence|]).
    by apply elem_of_nil in Hpos.
  - intros error body data H.
    apply getInfo_resolve_inv in H as (-> & b & -> & _ & Hp).
    split; [done|]. exists b. split; [done|]. by apply parseStatus_fields.
Qed.

(** A body that has the seven tokens is not rejected, whatever the tokens
    are: [Number] does not throw. *)
Lemma getInfo_resolves_with_all_tokens body :
  body <> "" ->
  Forall (fun pos => is_Some (field (Js.split "010" body) pos.1 pos.2)) statusPositions ->
  exists data, getInfo None (Some body) = Resolve data.
Proof.
  intros Hne Hall. unfold statusPositions in Hall.
  repeat (apply Forall_cons in Hall as ([? ?] & Hall)). simpl in *.
  unfold getInfo. rewrite bool_decide_false by (intros [? ?]; done).
  destruct body as [|c b]; [done|]. simpl.
  destruct (parseStatus (String c b)) as [data|] eqn:Hp; [eauto|].
  unfold parseStatus in Hp. cbv zeta in Hp.
  repeat match goal with
         | H : field _ _ _ = Some _ |- _ => rewrite H in Hp; clear H
         end.
  done.
Qed.

(** C3 fails as stated: on the body of the specification, whose third line
    is ["10 10 15"] with no space before it, the third counter is missing
    and [getInfo] rejects. *)
Lemma C3_spec_body_rejected :
  getInfo None (Some specBody) =
    Reject (createError STATUS_ERROR_GENERIC "Parser Failed. See internal logs...") /\
  Js.split " " "10 10 15" !! 3 = None.
Proof. split; reflexivity. Qed.

(** ** Paths *)

Lemma append_inv_head (base a b : string) : base +:+ a = base +:+ b -> a = b.
Proof. induction base as [|c base IH]; simpl; [done|]. intros [= H]. auto. Qed.

Lemma FUTURE_BACKUP base : FUTURE base <> BACKUP base.
Proof. intros H. by apply append_inv_head in H. Qed.

Lemma FUTURE_CONFIG base : FUTURE base <> CONFIG base.
Proof. intros H. by apply append_inv_head in H. Qed.

Lemma BACKUP_CONFIG base : BACKUP base <> CONFIG base.
Proof. intros H. by apply append_inv_head in H. Qed.

Lemma auth_CONFIG base s : pathOfAuthInHost base s <> CONFIG base.
Proof. intros H. by apply append_inv_head in H. Qed.

Lemma auth_BACKUP base s : pathOfAuthInHost base s <> BACKUP base.
Proof. intros H. by apply append_inv_head in H. Qed.

Lemma auth_FUTURE base s : pathOfAuthInHost base s <> FUTURE base.
Proof. intros H. by apply append_inv_head in H. Qed.

(** ** Running the operations *)

Lemma bind_ok {A B} (c : M A) (k : A -> M B) w b w' :
  bind c k w = (Ok b, w') <-> exists a w1, c w = (Ok a, w1) /\ k a w1 = (Ok b, w').
Proof.
  unfold bind. destruct (c w) as [[a|e] w1]; split.
  - intros H. eauto.
  - by intros (a' & w1' & [= -> ->] & H).
  - done.
  - by intros (a' & w1' & [=] & _).
Qed.

Lemma bind_err {A B} (c : M A) (k : A -> M B) w e w' :
  bind c k w = (Err e, w') <->
  c w = (Err e, w') \/ exists a w1, c w = (Ok a, w1) /\ k a w1 = (Err e, w').
Proof.
  unfold bind. destruct (c w) as [[a|e1] w1]; split.
  - intros H. right. eauto.
  - intros [[=]|(a' & w1' & [= -> ->] & H)]. done.
  - intros [= -> ->]. by left.
  - intros [[= -> ->]|(a' & w1' & [=] & _)]. done.
Qed.

(** A call to the file system either goes through, with its effect on the
    files and its entry in the log, or fails with its own error and leaves
    files and log as they were. *)
Lemma fs_perform_inv op update w r w' :
  fs.perform op update w = (r, w') ->
  services w' = services w /\ dockerLog w' = dockerLog w /\
  ((r = Ok tt /\ update (files w) = Some (files w') /\ fsLog w' = fsLog w ++ [op]) \/
   (r = Err (FileSystemError op) /\ files w' = files w /\ fsLog w' = fsLog w)).
Proof.
  unfold fs.perform, bind, refused, throw.
  destruct (faults w) as [|[] rest]; simpl.
  - destruct (update (files w)) as [m|] eqn:Hu; intros [= <- <-]; simpl; auto 10.
  - intros [= <- <-]; simpl; auto 10.
  - destruct (update (files w)) as [m|] eqn:Hu; intros [= <- <-]; simpl; auto 10.
Qed.

Lemma fs_perform_no_faults op update w :
  faults w = [] ->
  fs.perform op update w =
  match update (files w) with
  | Some m => (Ok tt, withFiles m op w)
  | None => (Err (FileSystemError op), w)
  end.
Proof. intros H. unfold fs.perform, bind, refused, throw. by rewrite H. Qed.

Lemma fs_perform_ok op update w u w' :
  fs.perform op update w = (Ok u, w') ->
  update (files w) = Some (files w') /\ fsLog w' = fsLog w ++ [op] /\
  services w' = services w /\ dockerLog w' = dockerLog w.
Proof.
  intros H. apply fs_perform_inv in H as (? & ? & [(_ & ? & ?)|([=] & _)]). auto.
Qed.

Lemma fs_perform_err op update w e w' :
  fs.perform op update w = (Err e, w') ->
  e = FileSystemError op /\ files w' = files w /\ fsLog w' = fsLog w /\
  services w' = services w /\ dockerLog w' = dockerLog w.
Proof.
  intros H. apply fs_perform_inv in H as (? & ? & [([=] & _)|([= ->] & ? & ?)]). auto.
Qed.

Lemma outputFile_ok path content w u w' :
  fs.outputFile path content w = (Ok u, w') ->
  files w' = <[path := content]> (files w) /\
  fsLog w' = fsLog w ++ [OutputFile path content] /\ sameServices w w'.
Proof. intros H. apply fs_perform_ok in H as ([= <-] & ? & ? & ?). by repeat split. Qed.

Lemma remove_ok path w u w' :
  fs.remove path w = (Ok u, w') ->
  files w' = delete path (files w) /\ fsLog w' = fsLog w ++ [Remove path] /\
  sameServices w w'.
Proof. intros H. apply fs_perform_ok in H as ([= <-] & ? & ? & ?). by repeat split. Qed.

Lemma ensureFile_ok path w u w' :
  fs.ensureFile path w = (Ok u, w') ->
  files w' = match files w !! path with
             | Some _ => files w
             | None => <[path := ""]> (files w)
             end /\
  fsLog w' = fsLog w ++ [EnsureFile path] /\ sameServices w w'.
Proof. intros H. apply fs_perform_ok in H as ([= <-] & ? & ? & ?). by repeat split. Qed.

Lemma renameSync_ok oldPath newPath w u w' :
  fs.renameSync oldPath newPath w = (Ok u, w') ->
  (exists content,
     files w !! oldPath = Some content /\
     files w' = <[newPath := content]> (delete oldPath (files w))) /\
  fsLog w' = fsLog w ++ [RenameSync oldPath newPath] /\ sameServices w w'.
Proof.
  intros H. apply fs_perform_ok in H as (Hu & ? & ? & ?). split; [|by repeat split].
  destruct (files w !! oldPath) as [content|]; [|done].
  injection Hu as <-. eauto.
Qed.

Lemma ensured_lookup (m : gmap string string) path :
  match m !! path with Some _ => m | None => <[path := ""]> m end !! path =
  Some (default "" (m !! path)).
Proof. destruct (m !! path) eqn:H; simpl; [done|]. by rewrite lookup_insert_eq. Qed.

Lemma ensured_lookup_ne (m : gmap string string) path other :
  path <> other ->
  match m !! path with Some _ => m | None => <[path := ""]> m end !! other = m !! other.
Proof. intros Hne. destruct (m !! path); [done|]. by rewrite lookup_insert_ne. Qed.

(** A swap that succeeds has made its five calls, in order, and leaves the
    new content at the target, the target's former content (empty if there
    was none) at the backup, no sidecar, and every other file as it was. *)
Lemma swapConfigFile_ok base content w u w' :
  swapConfigFile base content w = (Ok u, w') ->
  fsLog w' = fsLog w ++ swapSteps base content /\
  files w' !! CONFIG base = Some content /\
  files w' !! BACKUP base = Some (default "" (files w !! CONFIG base)) /\
  files w' !! FUTURE base = None /\
  (forall other, other <> CONFIG base -> other <> BACKUP base -> other <> FUTURE base ->
                 files w' !! other = files w !! other) /\
  services w' = services w /\ dockerLog w' = dockerLog w.
Proof.
  unfold swapConfigFile. intros H.
  apply bind_ok in H as (? & w1 & H1 & H). apply bind_ok in H as (? & w2 & H2 & H).
  apply bind_ok in H as (? & w3 & H3 & H). apply bind_ok in H as (? & w4 & H4 & H5).
  apply outputFile_ok in H1 as (F1 & L1 & S1 & D1).
  apply remove_ok in H2 as (F2 & L2 & S2 & D2).
  apply ensureFile_ok in H3 as (F3 & L3 & S3 & D3).
  apply renameSync_ok in H4 as ((c4 & Hc4 & F4) & L4 & S4 & D4).
  apply renameSync_ok in H5 as ((c5 & Hc5 & F5) & L5 & S5 & D5).
  pose proof (FUTURE_BACKUP base). pose proof (FUTURE_CONFIG base).
  pose proof (BACKUP_CONFIG base).
  assert (files w3 !! CONFIG base = Some (default "" (files w !! CONFIG base))) as Hconf.
  { rewrite F3, ensured_lookup, F2, lookup_delete_ne, F1, lookup_insert_ne by done. done. }
  assert (files w3 !! FUTURE base = Some content) as Hfut.
  { rewrite F3, ensured_lookup_ne, F2, lookup_delete_ne, F1, lookup_insert_eq by done. done. }
  rewrite Hconf in Hc4. injection Hc4 as <-.
  assert (c5 = content) as ->.
  { rewrite F4, lookup_insert_ne, lookup_delete_ne, Hfut in Hc5 by done. congruence. }
  split; [|split; [|split; [|split; [|split]]]].
  - rewrite L5, L4, L3, L2, L1. unfold swapSteps. by rewrite <- !app_assoc.
  - by rewrite F5, lookup_insert_eq.
  - by rewrite F5, lookup_insert_ne, lookup_delete_ne, F4, lookup_insert_eq.
  - by rewrite F5, lookup_insert_ne, lookup_delete_eq.
  - intros other ? ? ?.
    rewrite F5, lookup_insert_ne, lookup_delete_ne, F4, lookup_insert_ne,
      lookup_delete_ne, F3, ensured_lookup_ne, F2, lookup_delete_ne, F1,
      lookup_insert_ne by done. done.
  - split; congruence.
Qed.

(** With no call refused, the swap succeeds. *)
Lemma swapConfigFile_total base content w :
  faults w = [] -> exists w', swapConfigFile base content w = (Ok tt, w').
Proof.
  intros Hf. unfold swapConfigFile, bind, fs.outputFile, fs.remove, fs.ensureFile,
    fs.renameSync.
  pose proof (FUTURE_CONFIG base). pose proof (FUTURE_BACKUP base).
  pose proof (BACKUP_CONFIG base).
  rewrite fs_perform_no_faults by done.
  rewrite fs_perform_no_faults by done. simpl.
  rewrite fs_perform_no_faults by done. simpl.
  rewrite fs_perform_no_faults by done. simpl. rewrite ensured_lookup.
  rewrite fs_perform_no_faults by done. simpl.
  rewrite lookup_insert_ne, lookup_delete_ne, ensured_lookup_ne, lookup_delete_ne,
    lookup_insert_eq by congruence.
  eauto.
Qed.

(** ** The rendering phase *)

Lemma written_or_not (ops : list FsOp) (p : string) :
  (exists c, OutputFile p c ∈ ops) \/ (forall c, OutputFile p c ∉ ops).
Proof.
  induction ops as [|op ops [(c & Hc)|IH]].
  - right. intros c Hc. by apply elem_of_nil in Hc.
  - left. exists c. by right.
  - destruct op as [p' c'| | | | |];
      try (right; intros c [[=]|Hc]%elem_of_cons; by eapply IH).
    destruct (decide (p' = p)) as [->|Hne].
    + left. exists c'. by left.
    + right. intros c [[= ? ?]|Hc]%elem_of_cons; [done|by eapply IH].
Qed.

(** The writes of the credentials: the log grows by the writes that went
    through, each the write of a listed server's credentials; a path none of
    them names is as it was, and a path one of them names holds what one of
    them wrote. *)
Lemma writeAuthFiles_spec base ss w written w' :
  writeAuthFiles base ss w = (written, w') ->
  sameServices w w' /\
  exists ops,
    fsLog w' = fsLog w ++ ops /\
    Forall (fun op => exists s, s ∈ ss /\
                      op = OutputFile (pathOfAuthInHost base s) (httpBasicAuth s)) ops /\
    (forall p, (forall c, OutputFile p c ∉ ops) -> files w' !! p = files w !! p) /\
    (forall p c, OutputFile p c ∈ ops ->
                 exists c', OutputFile p c' ∈ ops /\ files w' !! p = Some c').
Proof.
  revert w written w'. induction ss as [|s ss IH]; intros w written w'; simpl.
  - intros [= <- <-]. split; [done|]. exists []. rewrite app_nil_r.
    split; [done|]. split; [apply Forall_nil_2|]. split; [done|].
    intros p c Hc. by apply elem_of_nil in Hc.
  - destruct (fs.outputFile (pathOfAuthInHost base s) (httpBasicAuth s) w)
      as [r w1] eqn:H1.
    destruct (writeAuthFiles base ss w1) as [others w2] eqn:H2.
    intros [= <- <-]. apply IH in H2 as ((S2 & D2) & ops & L2 & A2 & F2 & W2).
    assert (Forall (fun op => exists s', s' ∈ s :: ss /\
              op = OutputFile (pathOfAuthInHost base s') (httpBasicAuth s')) ops) as A2'.
    { eapply Forall_impl; [exact A2|]. intros op (s' & ? & ->). exists s'.
      split; [by right|done]. }
    destruct r as [u|e].
    + apply outputFile_ok in H1 as (F1 & L1 & S1 & D1).
      split; [split; congruence|].
      exists (OutputFile (pathOfAuthInHost base s) (httpBasicAuth s) :: ops).
      split; [by rewrite L2, L1, <- app_assoc|]. split; [|split].
      * constructor; [|done]. exists s. split; [by left|done].
      * intros p Hp. rewrite F2, F1.
        -- apply lookup_insert_ne. intros <-. eapply Hp. by left.
        -- intros c Hc. eapply Hp. right. exact Hc.
      * intros p c Hc.
        destruct (written_or_not ops p) as [(c1 & Hc1)|Hnot].
        -- destruct (W2 p c1 Hc1) as (c' & ? & ?). exists c'. split; [by right|done].
        -- apply elem_of_cons in Hc as [[= -> ->]|Hc]; [|by destruct (Hnot c)].
           exists (httpBasicAuth s). split; [by left|].
           by rewrite F2, F1, lookup_insert_eq.
    + apply fs_perform_err in H1 as (_ & F1 & L1 & S1 & D1).
      split; [split; congruence|].
      exists ops. split; [by rewrite L2, L1|]. split; [done|]. split.
      * intros p Hp. by rewrite F2, F1.
      * done.
Qed.

Lemma rendererInput_auth {E : Env} base s :
  pathOfAuthInHost base (rendererInput base s) = pathOfAuthInHost base s /\
  httpBasicAuth (rendererInput base s) = httpBasicAuth s.
Proof.
  unfold rendererInput, assignAuthPath.
  by destruct (hasBasicAuth (assignPaths s)).
Qed.

(** The rendering phase writes credentials files and nothing else. *)
Lemma renderServers_spec {E : Env} base servers w r w' :
  renderServers base servers w = (r, w') ->
  sameServices w w' /\
  exists ops,
    fsLog w' = fsLog w ++ ops /\
    Forall (fun op => exists s, s ∈ servers /\ httpBasicAuth s <> "" /\
                      op = OutputFile (pathOfAuthInHost base s) (httpBasicAuth s)) ops /\
    (forall p, (forall c, OutputFile p c ∉ ops) -> files w' !! p = files w !! p) /\
    (forall p c, OutputFile p c ∈ ops ->
                 exists c', OutputFile p c' ∈ ops /\ files w' !! p = Some c').
Proof.
  unfold renderServers.
  destruct (writeAuthFiles base
              (List.filter hasBasicAuth (map (rendererInput base) servers)) w)
    as [written w1] eqn:Hw.
  intros [= _ <-]. apply writeAuthFiles_spec in Hw as (? & ops & L & A & F & W).
  split; [done|]. exists ops. repeat split; try done.
  eapply Forall_impl; [exact A|]. intros op (s & Hs & ->).
  apply list_elem_of_In, filter_In in Hs as (Hs & Hauth).
  apply list_elem_of_In, list_elem_of_fmap in Hs as (s0 & -> & Hs0).
  destruct (rendererInput_auth base s0) as (-> & Heq). exists s0.
  split; [done|]. split; [|by rewrite Heq].
  unfold hasBasicAuth in Hauth. rewrite Heq in Hauth.
  intros Hempty. by rewrite Hempty in Hauth.
Qed.

Lemma renderServers_other {E : Env} base servers w r w' p :
  renderServers base servers w = (r, w') ->
  (forall s, pathOfAuthInHost base s <> p) ->
  files w' !! p = files w !! p.
Proof.
  intros H Hp. apply renderServers_spec in H as (_ & ops & _ & A & F & _).
  apply F. intros c Hc. rewrite Forall_forall in A.
  destruct (A _ Hc) as (s & _ & _ & [= Heq _]). by eapply Hp.
Qed.

Lemma render_ok {E : Env} template data w text w' :
  render template data w = (Ok text, w') ->
  ejs_render template data = Some text /\ w' = w.
Proof.
  unfold render, ret, throw. destruct (ejs_render template data); [|done].
  by intros [= -> ->].
Qed.

Lemma render_err {E : Env} template data w e w' :
  render template data w = (Err e, w') ->
  ejs_render template data = None /\ e = TemplateRenderError template /\ w' = w.
Proof.
  unfold render, ret, throw. destruct (ejs_render template data); [done|].
  by intros [= <- <-].
Qed.

(** ** The configuration swap *)

Lemma swapConfigFile_total_faults base content w :
  faults w = [] ->
  exists w', swapConfigFile base content w = (Ok tt, w') /\ faults w' = [].
Proof.
  intros Hf. unfold swapConfigFile, bind, fs.outputFile, fs.remove, fs.ensureFile,
    fs.renameSync.
  pose proof (FUTURE_CONFIG base). pose proof (FUTURE_BACKUP base).
  pose proof (BACKUP_CONFIG base).
  rewrite fs_perform_no_faults by done.
  rewrite fs_perform_no_faults by done. simpl.
  rewrite fs_perform_no_faults by done. simpl.
  rewrite fs_perform_no_faults by done. simpl. rewrite ensured_lookup.
  rewrite fs_perform_no_faults by done. simpl.
  rewrite lookup_insert_ne, lookup_delete_ne, ensured_lookup_ne, lookup_delete_ne,
    lookup_insert_eq by congruence.
  eexists. split; [reflexivity|done].
Qed.

(** What [createRootConfFile] has done when it succeeds, and when it
    fails. *)
Lemma createRootConfFile_ok {E : Env} ds w w' :
  createRootConfFile ds w = (Ok tt, w') ->
  exists content,
    ejs_render (rootNginxTemplate ds) (rootData ds) = Some content /\
    swapConfigFile (rootNginxConfigPath constants) content w = (Ok tt, w').
Proof.
  unfold createRootConfFile. intros H.
  apply bind_ok in H as (content & w1 & Hr & H). apply render_ok in Hr as (Hr & ->).
  by exists content.
Qed.

Lemma createRootConfFile_swap {E : Env} ds w content :
  ejs_render (rootNginxTemplate ds) (rootData ds) = Some content ->
  createRootConfFile ds w = swapConfigFile (rootNginxConfigPath constants) content w.
Proof.
  intros Hr. unfold createRootConfFile, bind, render. fold (rootNginxTemplate ds).
  by rewrite Hr.
Qed.

Lemma createRootConfFile_total {E : Env} ds w content :
  faults w = [] ->
  ejs_render (rootNginxTemplate ds) (rootData ds) = Some content ->
  exists w', createRootConfFile ds w = (Ok tt, w') /\ faults w' = [].
Proof.
  intros Hf Hr. rewrite (createRootConfFile_swap _ _ _ Hr).
  by apply swapConfigFile_total_faults.
Qed.

Lemma writeAuthFiles_total base ss :
  forall w,
    faults w = [] ->
    exists w', writeAuthFiles base ss w = (map (fun s => (s, Ok tt)) ss, w') /\
               faults w' = [].
Proof.
  induction ss as [|s ss IH]; intros w Hf; simpl; [eauto|].
  unfold fs.outputFile. rewrite fs_perform_no_faults by done.
  destruct (IH (withFiles (<[pathOfAuthInHost base s := httpBasicAuth s]> (files w))
                  (OutputFile (pathOfAuthInHost base s) (httpBasicAuth s)) w))
    as (w' & -> & Hf'); [done|].
  eauto.
Qed.

Lemma promiseAll_total chains :
  Forall (fun r => exists t, r = Ok t) chains ->
  forall acc, exists content, promiseAll chains acc = Ok content.
Proof.
  induction 1 as [|r chains (t & ->) _ IH]; intros acc; simpl; eauto.
Qed.

(** With no call refused and every template rendering, the rendering phase
    succeeds. *)
Lemma renderServers_total {E : Env} base servers w :
  faults w = [] ->
  (forall s, s ∈ servers ->
             is_Some (ejs_render (nginxConfigTemplate s) (DataServer (rendererInput base s)))) ->
  exists content w', renderServers base servers w = (Ok content, w') /\ faults w' = [].
Proof.
  intros Hf Hall. unfold renderServers.
  destruct (writeAuthFiles_total base
              (List.filter hasBasicAuth (map (rendererInput base) servers)) w Hf)
    as (w' & -> & Hf').
  assert (forall s', s' ∈ map (rendererInput base) servers ->
             exists t, renderServer s' (Ok tt) = Ok t) as Hrender.
  { intros s' (s & -> & Hs)%list_elem_of_fmap. unfold renderServer.
    assert (nginxConfigTemplate (rendererInput base s) = nginxConfigTemplate s) as ->.
    { unfold rendererInput, assignAuthPath. by destruct (hasBasicAuth (assignPaths s)). }
    destruct (Hall s Hs) as (t & ->). eauto. }
  edestruct (promiseAll_total
    (map (fun s => renderServer s (Ok tt))
       (List.filter (fun s => negb (hasBasicAuth s)) (map (rendererInput base) servers)) ++
     map (fun sw => renderServer sw.1 sw.2)
       (settleOrder (map (fun s => (s, Ok tt))
          (List.filter hasBasicAuth (map (rendererInput base) servers)))))) as (content & Hc).
  - apply Forall_app. split; apply Forall_forall.
    + intros r (s' & -> & Hs')%list_elem_of_fmap. apply Hrender.
      by apply list_elem_of_In, filter_In in Hs' as (Hs'%list_elem_of_In & _).
    + intros r ([s' u] & -> & Hs')%list_elem_of_fmap.
      rewrite settleOrder_perm in Hs'.
      apply list_elem_of_fmap in Hs' as (s'' & [= -> ->] & Hs''). simpl. apply Hrender.
      by apply list_elem_of_In, filter_In in Hs'' as (Hs''%list_elem_of_In & _).
  - exists content, w'. by rewrite Hc.
Qed.

(** C5: the swap of the root configuration and the swap of a namespace's
    configuration each make five calls, in this order: write the new content
    to the [.fut] file, delete the [.bak] file, make sure the [.conf] file
    exists (empty if it was missing), rename [.conf] to [.bak], rename
    [.fut] to [.conf]; when they succeed [.conf] holds the new content (for
    the root configuration, the text the root template renders to; for a
    namespace, the text the rendering phase gave) and [.bak] the content
    [.conf] had before. With no call refused the swap succeeds, and so do
    [createRootConfFile] when the root template renders and the whole
    reload when every template renders. *)
Theorem C5_swap_protocol {E : Env} (ds : DataStore) :
  (forall w w',
      createRootConfFile ds w = (Ok tt, w') ->
      exists content,
        ejs_render (rootNginxTemplate ds) (rootData ds) = Some content /\
        fsLog w' = fsLog w ++ swapSteps (rootNginxConfigPath constants) content /\
        files w' !! CONFIG (rootNginxConfigPath constants) = Some content /\
        files w' !! BACKUP (rootNginxConfigPath constants) =
          Some (default "" (files w !! CONFIG (rootNginxConfigPath constants)))) /\
  (forall w w',
      reloadChain ds w = (Ok tt, w') ->
      exists content w1 w2,
        (fs.remove (FUTURE (configFilePathBase ds)) ;;
         renderServers (configFilePathBase ds) (getServerList ds)) w = (Ok content, w1) /\
        swapConfigFile (configFilePathBase ds) content w1 = (Ok tt, w2) /\
        createRootConfFile ds w2 = (Ok tt, w') /\
        fsLog w2 = fsLog w1 ++ swapSteps (configFilePathBase ds) content /\
        files w2 !! CONFIG (configFilePathBase ds) = Some content /\
        files w2 !! BACKUP (configFilePathBase ds) =
          Some (default "" (files w !! CONFIG (configFilePathBase ds)))) /\
  (forall base content w,
      faults w = [] -> exists w', swapConfigFile base content w = (Ok tt, w')) /\
  (forall w content,
      faults w = [] ->
      ejs_render (rootNginxTemplate ds) (rootData ds) = Some content ->
      exists w', createRootConfFile ds w = (Ok tt, w')) /\
  (forall w,
      faults w = [] ->
      (forall s, s ∈ getServerList ds ->
         is_Some (ejs_render (nginxConfigTemplate s)
                    (DataServer (rendererInput (configFilePathBase ds) s)))) ->
      is_Some (ejs_render (rootNginxTemplate ds) (rootData ds)) ->
      exists w', reloadChain ds w = (Ok tt, w')).
Proof.
  split; [|split; [|split; [|split]]].
  - intros w w' H. apply createRootConfFile_ok in H as (content & Hr & H).
    apply swapConfigFile_ok in H as (L & C & B & _). eauto.
  - intros w w' H. unfold reloadChain in H.
    apply bind_ok in H as ([] & w0 & H0 & H).
    apply bind_ok in H as (content & w1 & H1 & H).
    apply bind_ok in H as ([] & w2 & H2 & H3).
    exists content, w1, w2. split; [|split; [done|split; [done|]]].
    + apply bind_ok. eauto.
    + pose proof (swapConfigFile_ok _ _ _ _ _ H2) as (L & C & B & _).
      split; [done|]. split; [done|]. rewrite B. do 2 f_equal.
      rewrite (renderServers_other _ _ _ _ _ _ H1) by (intros s; apply auth_CONFIG).
      apply remove_ok in H0 as (-> & _). apply lookup_delete_ne, FUTURE_CONFIG.
  - intros base content w. apply swapConfigFile_total.
  - intros w content Hf Hr.
    destruct (createRootConfFile_total ds w content Hf Hr) as (w' & H & _). eauto.
  - intros w Hf Hall (rootContent & Hroot). unfold reloadChain, bind at 1, fs.remove.
    rewrite fs_perform_no_faults by done. cbn beta iota.
    unfold bind at 1.
    match goal with |- context [renderServers _ _ ?w0] =>
      destruct (renderServers_total (configFilePathBase ds) (getServerList ds) w0)
        as (content & w1 & -> & Hf1); [done|done|] end.
    unfold bind at 1.
    destruct (swapConfigFile_total_faults (configFilePathBase ds) content w1 Hf1)
      as (w2 & -> & Hf2).
    destruct (createRootConfFile_total ds w2 rootContent Hf2 Hroot) as (w' & H & _). eauto.
Qed.

(** A reload of one application over an existing configuration: the new
    text is in [.conf], the former text in [.bak], and [.fut] is gone. *)
Example reload_swaps_configuration :
  let '(r, w) := reloadChain (E := sampleEnv) c2Store worldWithConfig in
  r = Ok tt /\
  files w !! "/captain/generated/nginx/conf.d/captain.conf" =
    Some "server foo.example.com;server foo.org;" /\
  files w !! "/captain/generated/nginx/conf.d/captain.bak" = Some "old" /\
  files w !! "/captain/generated/nginx/conf.d/captain.fut" = None.
Proof. vm_compute. done. Qed.

(** A reload of three blocks with credentials, their writes ending last
    issued first: the text follows the order the writes ended in. *)
Example text_in_settle_order :
  let '(r, w) := reloadChain (E := sampleEnv) shopStore emptyWorld in
  r = Ok tt /\
  map publicDomain (getServerList shopStore) =
    ["shop.example.com"; "shop.org"; "shop.net"] /\
  files w !! "/captain/generated/nginx/conf.d/captain.conf" =
    Some "server shop.net;server shop.org;server shop.example.com;".
Proof. vm_compute. done. Qed.

(** A swap that fails has made the calls before the failing one and no
    other; what is left at the backup and at the target depends on the call
    that failed. *)
Lemma swapConfigFile_err base content w e w' :
  swapConfigFile base content w = (Err e, w') ->
  exists n failed,
    swapSteps base content !! n = Some failed /\
    e = FileSystemError failed /\
    fsLog w' = fsLog w ++ take n (swapSteps base content) /\
    match n with
    | 0 | 1 => files w' !! BACKUP base = files w !! BACKUP base
    | 2 => files w' !! BACKUP base = None /\
           files w' !! CONFIG base = files w !! CONFIG base
    | 3 => files w' !! BACKUP base = None /\
           files w' !! CONFIG base = Some (default "" (files w !! CONFIG base))
    | _ => files w' !! BACKUP base = Some (default "" (files w !! CONFIG base)) /\
           files w' !! CONFIG base = None
    end.
Proof.
  unfold swapConfigFile. intros H.
  pose proof (FUTURE_BACKUP base) as Pfb. pose proof (FUTURE_CONFIG base) as Pfc.
  pose proof (BACKUP_CONFIG base) as Pbc.
  apply bind_err in H as [H1|(? & w1 & H1 & H)].
  { apply fs_perform_err in H1 as (-> & F & L & _).
    exists 0, (OutputFile (FUTURE base) content). simpl.
    rewrite app_nil_r, F. done. }
  apply outputFile_ok in H1 as (F1 & L1 & _).
  apply bind_err in H as [H2|(? & w2 & H2 & H)].
  { apply fs_perform_err in H2 as (-> & F & L & _).
    exists 1, (Remove (BACKUP base)). simpl.
    rewrite L, L1, F, F1, lookup_insert_ne by done. done. }
  apply remove_ok in H2 as (F2 & L2 & _).
  apply bind_err in H as [H3|(? & w3 & H3 & H)].
  { apply fs_perform_err in H3 as (-> & F & L & _).
    exists 2, (EnsureFile (CONFIG base)). simpl.
    rewrite L, L2, L1, F, F2, <- app_assoc, lookup_delete_eq, lookup_delete_ne, F1,
      lookup_insert_ne by done. done. }
  apply ensureFile_ok in H3 as (F3 & L3 & _).
  assert (files w3 !! CONFIG base = Some (default "" (files w !! CONFIG base))) as Hconf.
  { rewrite F3, ensured_lookup, F2, lookup_delete_ne, F1, lookup_insert_ne by done. done. }
  assert (files w3 !! BACKUP base = None) as Hbak.
  { rewrite F3, ensured_lookup_ne, F2, lookup_delete_eq by done. done. }
  apply bind_err in H as [H4|(? & w4 & H4 & H5)].
  { apply fs_perform_err in H4 as (-> & F & L & _).
    exists 3, (RenameSync (CONFIG base) (BACKUP base)). simpl.
    rewrite L, L3, L2, L1, F, <- !app_assoc. done. }
  apply renameSync_ok in H4 as ((c4 & Hc4 & F4) & L4 & _).
  rewrite Hconf in Hc4. injection Hc4 as <-.
  apply fs_perform_err in H5 as (-> & F & L & _).
  exists 4, (RenameSync (FUTURE base) (CONFIG base)). simpl.
  rewrite L, L4, L3, L2, L1, F, F4, <- !app_assoc, lookup_insert_eq,
    lookup_insert_ne, lookup_delete_eq by done. done.
Qed.

Lemma consume_fields self :
  world (consumeQueueIfAnyInNginxReloadQueue self) = world self /\
  settled (consumeQueueIfAnyInNginxReloadQueue self) = settled self /\
  promisesMade (consumeQueueIfAnyInNginxReloadQueue self) = promisesMade self /\
  captainPublicRandomKey (consumeQueueIfAnyInNginxReloadQueue self) =
    captainPublicRandomKey self.
Proof.
  unfold consumeQueueIfAnyInNginxReloadQueue.
  destruct (Js.pop (requestedReloadPromises self)) as [[q rest]|]; [|done].
  by destruct (reloadInProcess self).
Qed.

(** What the last handler does to the request whose chain failed. *)
Lemma settleChain_rejects {E : Env} self q others e w' :
  chains self = q :: others ->
  reloadChain (dataStore q) (world self) = (Err e, w') ->
  settled (settleChain self) = settled self ++ [(promise q, Rejected e)] /\
  world (settleChain self) = w'.
Proof.
  intros Hc Hr. unfold settleChain. rewrite Hc, Hr.
  by destruct (consume_fields
    {| reloadInProcess := false;
       requestedReloadPromises := requestedReloadPromises self;
       captainPublicRandomKey := captainPublicRandomKey self;
       ownDataStore := ownDataStore self;
       chains := others; started := started self;
       settled := settled self ++ [(promise q, Rejected e)];
       promisesMade := promisesMade self; world := w' |}) as (-> & -> & _).
Qed.

(** C4, as the code has it: a swap that fails with a file-system error,
    that of the namespace's configuration or that of the root
    configuration, stops at the failing call, and the request is rejected
    with that error with no call made again; the former [.bak] file is
    intact when the failing call is the write of [.fut] or the deletion of
    [.bak]; after that deletion it is gone: when making sure of [.conf] or
    the first rename fails there is no [.bak] and [.conf] holds its former
    content, and when the second rename fails [.bak] holds the former
    content of [.conf]. *)
Theorem C4_failed_swap {E : Env} :
  (forall base content w e w',
      swapConfigFile base content w = (Err e, w') ->
      exists n failed,
        swapSteps base content !! n = Some failed /\
        e = FileSystemError failed /\
        fsLog w' = fsLog w ++ take n (swapSteps base content) /\
        match n with
        | 0 | 1 => files w' !! BACKUP base = files w !! BACKUP base
        | 2 => files w' !! BACKUP base = None /\
               files w' !! CONFIG base = files w !! CONFIG base
        | 3 => files w' !! BACKUP base = None /\
               files w' !! CONFIG base = Some (default "" (files w !! CONFIG base))
        | _ => files w' !! BACKUP base = Some (default "" (files w !! CONFIG base)) /\
               files w' !! CONFIG base = None
        end) /\
  (forall ds content w0 w1 e w',
      (fs.remove (FUTURE (configFilePathBase ds)) ;;
       renderServers (configFilePathBase ds) (getServerList ds)) w0 = (Ok content, w1) ->
      swapConfigFile (configFilePathBase ds) content w1 = (Err e, w') ->
      reloadChain ds w0 = (Err e, w') /\
      forall self q others,
        chains self = q :: others -> dataStore q = ds -> world self = w0 ->
        settled (settleChain self) = settled self ++ [(promise q, Rejected e)] /\
        world (settleChain self) = w') /\
  (forall ds content w0 w1 w2 rootContent e w',
      (fs.remove (FUTURE (configFilePathBase ds)) ;;
       renderServers (configFilePathBase ds) (getServerList ds)) w0 = (Ok content, w1) ->
      swapConfigFile (configFilePathBase ds) content w1 = (Ok tt, w2) ->
      ejs_render (rootNginxTemplate ds) (rootData ds) = Some rootContent ->
      swapConfigFile (rootNginxConfigPath constants) rootContent w2 = (Err e, w') ->
      createRootConfFile ds w2 = (Err e, w') /\
      reloadChain ds w0 = (Err e, w') /\
      forall self q others,
        chains self = q :: others -> dataStore q = ds -> world self = w0 ->
        settled (settleChain self) = settled self ++ [(promise q, Rejected e)] /\
        world (settleChain self) = w').
Proof.
  split; [apply swapConfigFile_err|]. split.
  - intros ds content w0 w1 e w' Hpre Hswap.
    assert (reloadChain ds w0 = (Err e, w')) as Hchain.
    { unfold reloadChain. apply bind_ok in Hpre as ([] & wr & Hrem & Hrender).
      apply bind_err. right. exists tt, wr. split; [done|].
      apply bind_err. right. exists content, w1. split; [done|].
      apply bind_err. by left. }
    split; [done|]. intros self q others Hc <- <-. by eapply settleChain_rejects.
  - intros ds content w0 w1 w2 rootContent e w' Hpre Hswap Hroot Hrootswap.
    assert (createRootConfFile ds w2 = (Err e, w')) as Hcreate
      by (by rewrite (createRootConfFile_swap _ _ _ Hroot)).
    assert (reloadChain ds w0 = (Err e, w')) as Hchain.
    { unfold reloadChain. apply bind_ok in Hpre as ([] & wr & Hrem & Hrender).
      apply bind_err. right. exists tt, wr. split; [done|].
      apply bind_err. right. exists content, w1. split; [done|].
      apply bind_err. right. exists tt, w2. done. }
    split; [done|]. split; [done|].
    intros self q others Hc <- <-. by eapply settleChain_rejects.
Qed.

(** C4 fails as stated: when the call that makes sure of [.conf] is
    refused, the reload fails with a file-system error, the former [.bak]
    file is gone and nothing has replaced it. *)
Lemma C4_backup_lost :
  let '(r, w) := reloadChain (E := sampleEnv) (sampleStore []) (worldRefusing 3) in
  files (worldRefusing 3) !! "/captain/generated/nginx/conf.d/captain.bak" = Some "older" /\
  r = Err (FileSystemError (EnsureFile "/captain/generated/nginx/conf.d/captain.conf")) /\
  files w !! "/captain/generated/nginx/conf.d/captain.bak" = None /\
  files w !! "/captain/generated/nginx/conf.d/captain.conf" = Some "old".
Proof. vm_compute. done. Qed.

(** ** Credentials files and a failed rendering *)

Lemma promiseAll_ok chains acc content :
  promiseAll chains acc = Ok content -> Forall (fun r => exists t, r = Ok t) chains.
Proof.
  revert acc. induction chains as [|[t|e] chains IH]; intros acc; simpl.
  - constructor.
  - intros H. constructor; eauto.
  - done.
Qed.

Lemma writeAuthFiles_written base ss w written w' :
  writeAuthFiles base ss w = (written, w') ->
  map fst written = ss /\
  forall s u, (s, Ok u) ∈ written ->
              OutputFile (pathOfAuthInHost base s) (httpBasicAuth s) ∈ fsLog w'.
Proof.
  revert w written w'. induction ss as [|s ss IH]; intros w written w'; simpl.
  - intros [= <- <-]. split; [done|]. intros s u Hin. by apply elem_of_nil in Hin.
  - destruct (fs.outputFile (pathOfAuthInHost base s) (httpBasicAuth s) w)
      as [r w1] eqn:H1.
    destruct (writeAuthFiles base ss w1) as [others w2] eqn:H2.
    intros [= <- <-].
    pose proof (writeAuthFiles_spec _ _ _ _ _ H2) as (_ & ops & L2 & _).
    apply IH in H2 as (Hfst & Hlog). simpl. split; [by rewrite Hfst|].
    intros s' u [[= -> <-]|Hin]%elem_of_cons; [|by eapply Hlog].
    apply outputFile_ok in H1 as (_ & L1 & _).
    rewrite L2, L1. apply elem_of_app. left. apply elem_of_app. right.
    apply list_elem_of_here.
Qed.




(** ** [init] and the proxy's service *)

Lemma fsOnly_perform op update : fsOnly (fs.perform op update).
Proof.
  intros w r w' H. apply fs_perform_inv in H as (? & ? & _). by split.
Qed.

Lemma fsOnly_ret {A} (a : A) : fsOnly (ret a).
Proof. by intros w r w' [= _ <-]. Qed.

Lemma fsOnly_throw {A} e : fsOnly (throw (A := A) e).
Proof. by intros w r w' [= _ <-]. Qed.

Lemma fsOnly_bind {A B} (c : M A) (k : A -> M B) :
  fsOnly c -> (forall a, fsOnly (k a)) -> fsOnly (bind c k).
Proof.
  intros Hc Hk w r w'. unfold bind. destruct (c w) as [[a|e] w1] eqn:H1.
  - intros H2. destruct (Hc _ _ _ H1), (Hk _ _ _ _ H2). split; congruence.
  - intros [= _ <-]. eauto.
Qed.

Lemma fsOnly_render {E : Env} template data : fsOnly (render template data).
Proof.
  unfold render. destruct (ejs_render template data);
    [apply fsOnly_ret|apply fsOnly_throw].
Qed.

Lemma fsOnly_renderServers {E : Env} base servers : fsOnly (renderServers base servers).
Proof. intros w r w' H. by apply renderServers_spec in H as (? & _). Qed.

Ltac fs_only :=
  unfold fs.outputFile, fs.remove, fs.ensureFile, fs.renameSync, fs.ensureDir, fs.copy;
  repeat first
    [ apply fsOnly_perform
    | apply fsOnly_bind; [|intros ?]
    | apply fsOnly_render
    | apply fsOnly_renderServers
    | apply fsOnly_ret
    | apply fsOnly_throw ].

Lemma fsOnly_swapConfigFile base content : fsOnly (swapConfigFile base content).
Proof. unfold swapConfigFile. fs_only. Qed.

Lemma fsOnly_createRootConfFile {E : Env} ds : fsOnly (createRootConfFile ds).
Proof.
  unfold createRootConfFile. fs_only.
Qed.

Lemma fsOnly_reloadChain {E : Env} ds : fsOnly (reloadChain ds).
Proof.
  unfold reloadChain. fs_only.
Qed.

Lemma fsOnly_initFiles {E : Env} self : fsOnly (initFiles self).
Proof. unfold initFiles, ensureBaseNginxConf. fs_only. Qed.

Lemma settleChain_services {E : Env} self :
  sameServices (world self) (world (settleChain self)).
Proof.
  unfold settleChain. destruct (chains self) as [|q others]; [done|].
  destruct (reloadChain (dataStore q) (world self)) as [[u|e] w] eqn:H;
    apply fsOnly_reloadChain in H;
    match goal with |- context [consumeQueueIfAnyInNginxReloadQueue ?m] =>
      destruct (consume_fields m) as (-> & _) end; done.
Qed.

Lemma docker_perform_ok {A} op (act : gmap string string -> option (A * gmap string string))
    w a w' :
  dockerApi.perform op act w = (Ok a, w') ->
  act (services w) = Some (a, services w') /\ dockerLog w' = dockerLog w ++ [op].
Proof.
  unfold dockerApi.perform, bind, refused, throw.
  destruct (faults w) as [|[] rest]; simpl; try done;
    destruct (act (services w)) as [[a' m]|]; try done; by intros [= <- <-].
Qed.

Lemma ensureDir_ok path w u w' :
  fs.ensureDir path w = (Ok u, w') -> sameServices w w'.
Proof. intros H. by apply fsOnly_perform in H. Qed.

(** The scheduler calls of a successful [initService], by where the proxy
    ran before. *)
Lemma initService_ok {E : Env} myNodeId w w' :
  initService myNodeId w = (Ok tt, w') ->
  dockerLog w' =
    dockerLog w ++ reconcileCalls myNodeId (services w !! nginxServiceName constants) /\
  services w' !! nginxServiceName constants = Some myNodeId.
Proof.
  unfold initService, createNginxServiceOnNode. intros H.
  apply bind_ok in H as (? & w1 & H1 & H). apply ensureDir_ok in H1 as (S1 & D1).
  apply bind_ok in H as (? & w2 & H2 & H). apply ensureDir_ok in H2 as (S2 & D2).
  apply bind_ok in H as (isRunning & w3 & H3 & H).
  apply docker_perform_ok in H3 as ([= Hrun S3] & D3).
  apply bind_ok in H as (nodeId & w4 & H4 & H).
  apply bind_ok in H as ([] & w5 & H5 & H6).
  apply docker_perform_ok in H6 as (Hupd & D6).
  assert (services w3 = services w) as S30 by congruence.
  assert (dockerLog w3 = dockerLog w ++
            [IsServiceRunningByName (nginxServiceName constants)]) as D30 by congruence.
  unfold reconcileCalls.
  destruct (services w !! nginxServiceName constants) as [nodeA|] eqn:Hsvc.
  - rewrite bool_decide_true in Hrun by (rewrite S2, S1; eauto). subst isRunning.
    apply docker_perform_ok in H4 as (Hget & D4). rewrite S30, Hsvc in Hget.
    injection Hget as -> S4.
    destruct (String.eqb nodeId myNodeId) eqn:Heq; simpl in H5.
    + injection H5 as <-. apply String.eqb_eq in Heq as ->.
      rewrite <- S4, Hsvc in Hupd. injection Hupd as Hs.
      split; [|congruence].
      rewrite D6, D4, D30, <- !app_assoc. done.
    + apply bind_ok in H5 as ([] & w6 & H5 & H7).
      apply docker_perform_ok in H5 as (Hrm & D5).
      apply docker_perform_ok in H7 as (Hcr & D7).
      rewrite <- S4, Hsvc in Hrm. injection Hrm as Hs6.
      rewrite <- Hs6, lookup_delete_eq in Hcr. injection Hcr as Hs5.
      rewrite <- Hs5, lookup_insert_eq in Hupd. injection Hupd as Hs.
      split; [|by rewrite <- Hs, lookup_insert_eq].
      rewrite D6, D7, D5, D4, D30, <- !app_assoc. done.
  - rewrite bool_decide_false in Hrun
      by (rewrite S2, S1; intros [? ?]; congruence). subst isRunning.
    apply bind_ok in H4 as ([] & w6 & H4 & [= -> ->]).
    apply docker_perform_ok in H4 as (Hcr & D4).
    rewrite S30, Hsvc in Hcr. injection Hcr as Hs4.
    rewrite String.eqb_refl in H5. injection H5 as <-.
    rewrite <- Hs4, lookup_insert_eq in Hupd. injection Hupd as Hs.
    split; [|by rewrite <- Hs, lookup_insert_eq].
    rewrite D6, D4, D30, <- !app_assoc. done.
Qed.

Lemma docker_perform_no_faults {A} op
    (act : gmap string string -> option (A * gmap string string)) w :
  faults w = [] ->
  dockerApi.perform op act w =
  match act (services w) with
  | Some (a, m) => (Ok a, withServices m op w)
  | None => (Err (SchedulerClientError op), w)
  end.
Proof. intros H. unfold dockerApi.perform, bind, refused, throw. by rewrite H. Qed.

(** With no call refused, [initService] succeeds wherever the proxy ran. *)
Lemma initService_total {E : Env} myNodeId w :
  faults w = [] -> exists w', initService myNodeId w = (Ok tt, w').
Proof.
  intros Hf.
  unfold initService, createNginxServiceOnNode, bind, ret, fs.ensureDir,
    dockerApi.isServiceRunningByName, dockerApi.getNodeIdByServiceName,
    dockerApi.removeServiceByName, dockerApi.createServiceOnNodeId,
    dockerApi.updateService.
  rewrite fs_perform_no_faults by done. simpl.
  rewrite fs_perform_no_faults by done. simpl.
  rewrite docker_perform_no_faults by done. simpl.
  destruct (services w !! nginxServiceName constants) as [nodeA|] eqn:Hs.
  - rewrite bool_decide_true by eauto.
    rewrite docker_perform_no_faults by done. simpl. rewrite Hs.
    destruct (String.eqb nodeA myNodeId); simpl.
    + rewrite docker_perform_no_faults by done. simpl. rewrite Hs. eauto.
    + rewrite docker_perform_no_faults by done. simpl. rewrite Hs.
      rewrite docker_perform_no_faults by done. simpl. rewrite lookup_delete_eq.
      rewrite docker_perform_no_faults by done. simpl. rewrite lookup_insert_eq.
      eauto.
  - rewrite bool_decide_false by (intros [? ?]; done).
    rewrite docker_perform_no_faults by done. simpl. rewrite Hs.
    rewrite String.eqb_refl. simpl.
    rewrite docker_perform_no_faults by done. simpl. rewrite lookup_insert_eq.
    eauto.
Qed.

Lemma lift_run {A} (c : M A) self r self' :
  lift c self = (r, self') ->
  c (world self) = (r, world self') /\
  reloadInProcess self' = reloadInProcess self /\
  requestedReloadPromises self' = requestedReloadPromises self /\
  chains self' = chains self /\ settled self' = settled self /\
  promisesMade self' = promisesMade self.
Proof.
  unfold lift. destruct (c (world self)) as [r0 w]. by intros [= <- <-].
Qed.

Lemma rePopulate_world ds self :
  world (rePopulateNginxConfigFile ds self).2 = world self.
Proof.
  unfold rePopulateNginxConfigFile. simpl.
  match goal with |- context [consumeQueueIfAnyInNginxReloadQueue ?m] =>
    by destruct (consume_fields m) as (-> & _) end.
Qed.

(** C9: when [init] completes, its scheduler calls are: whether the service
    runs; if it does, the node it is on, and if that is not the expected
    node, the removal of the service and then its creation on the expected
    node; if it does not, its creation on the expected node; and in every
    case, last, [updateService] with the six mounts (static files, fake
    certificates, base configuration, configuration directory, certificate
    directory, shared directory). With no call refused, that part of
    [init] succeeds wherever the service ran, the update last. *)
Theorem C9_init_reconcile {E : Env} myNodeId ds self self' :
  init myNodeId ds self = (Fulfilled, self') ->
  dockerLog (world self') =
    dockerLog (world self) ++
    reconcileCalls myNodeId (services (world self) !! nginxServiceName constants) /\
  (forall nodeA,
      services (world self) !! nginxServiceName constants = Some nodeA ->
      nodeA <> myNodeId ->
      dockerLog (world self') =
        dockerLog (world self) ++
        [ IsServiceRunningByName (nginxServiceName constants);
          GetNodeIdByServiceName (nginxServiceName constants) 0;
          RemoveServiceByName (nginxServiceName constants);
          createCall myNodeId;
          updateCall ]) /\
  last (dockerLog (world self')) = Some updateCall /\
  services (world self') !! nginxServiceName constants = Some myNodeId /\
  (forall w,
      faults w = [] ->
      exists w', initService myNodeId w = (Ok tt, w') /\
                 last (dockerLog w') = Some updateCall).
Proof.
  unfold init. intros H.
  assert (forall w,
             faults w = [] ->
             exists w', initService myNodeId w = (Ok tt, w') /\
                        last (dockerLog w') = Some updateCall) as Htotal.
  { intros w Hf. destruct (initService_total myNodeId w Hf) as (w' & Hw').
    exists w'. split; [done|]. apply initService_ok in Hw' as (-> & _).
    unfold reconcileCalls. rewrite app_assoc. apply last_snoc. }
  destruct (lift (initFiles self) self)
    as [[[]|e] self1] eqn:H1; [|done].
  apply lift_run in H1 as (H1 & _). apply fsOnly_initFiles in H1 as (S1 & D1).
  pose proof (rePopulate_world ds self1) as W2.
  destruct (rePopulateNginxConfigFile ds self1) as [p self2]. simpl in W2.
  pose proof (settleChain_services self2) as (S3 & D3).
  destruct (outcomeOf p (settleChain self2)) as [[|e]|]; try done.
  destruct (lift (initService myNodeId) (settleChain self2))
    as [[[]|e] self4] eqn:H4; [|done].
  injection H as <-. apply lift_run in H4 as (H4 & _).
  apply initService_ok in H4 as (D4 & S4).
  assert (services (world (settleChain self2)) = services (world self)) as Hs
    by congruence.
  assert (dockerLog (world (settleChain self2)) = dockerLog (world self)) as Hd
    by congruence.
  rewrite Hs, Hd in D4. split; [done|]. split; [|split; [|done]].
  - intros nodeA HA Hne. rewrite D4, HA. unfold reconcileCalls.
    apply String.eqb_neq in Hne. by rewrite Hne.
  - rewrite D4. unfold reconcileCalls. rewrite app_assoc. apply last_snoc.
Qed.

(** The theorem at a proxy found on [nodeA] when [nodeB] is expected. *)
Lemma C9_init_reconcile_witness :
  dockerLog (world (init (E := sampleEnv) "nodeB" (sampleStore [])
                      (newManager (sampleStore []) "key" worldOnNodeA)).2) =
  dockerLog (world (newManager (sampleStore []) "key" worldOnNodeA)) ++
  [ IsServiceRunningByName "captain-nginx";
    GetNodeIdByServiceName "captain-nginx" 0;
    RemoveServiceByName "captain-nginx";
    createCall (E := sampleEnv) "nodeB";
    updateCall (E := sampleEnv) ].
Proof.
  refine (proj1 (proj2 (C9_init_reconcile (E := sampleEnv) "nodeB" (sampleStore [])
           (newManager (sampleStore []) "key" worldOnNodeA)
           (init (E := sampleEnv) "nodeB" (sampleStore [])
              (newManager (sampleStore []) "key" worldOnNodeA)).2 _)) "nodeA" _ _).
  - vm_compute. reflexivity.
  - vm_compute. reflexivity.
  - discriminate.
Defined.

(** ** The reload requests *)

Lemma pop_snoc {A} (l : list A) (x : A) : Js.pop (l ++ [x]) = Some (x, l).
Proof. induction l as [|y l IH]; simpl; [done|]. by rewrite IH. Qed.

Lemma consume_empty self :
  requestedReloadPromises self = [] -> consumeQueueIfAnyInNginxReloadQueue self = self.
Proof. intros H. unfold consumeQueueIfAnyInNginxReloadQueue. by rewrite H. Qed.

Lemma consume_snoc self p q :
  requestedReloadPromises self = p ++ [q] ->
  consumeQueueIfAnyInNginxReloadQueue self =
  if reloadInProcess self then
    {| reloadInProcess := reloadInProcess self; requestedReloadPromises := p;
       captainPublicRandomKey := captainPublicRandomKey self;
       ownDataStore := ownDataStore self;
       chains := chains self; started := started self; settled := settled self;
       promisesMade := promisesMade self; world := world self |}
  else
    {| reloadInProcess := true; requestedReloadPromises := p;
       captainPublicRandomKey := captainPublicRandomKey self;
       ownDataStore := ownDataStore self;
       chains := chains self ++ [q]; started := started self ++ [promise q];
       settled := settled self;
       promisesMade := promisesMade self; world := world self |}.
Proof.
  intros H. unfold consumeQueueIfAnyInNginxReloadQueue. by rewrite H, pop_snoc.
Qed.

Lemma settleChain_step {E : Env} self q others :
  chains self = q :: others ->
  settleChain self =
  consumeQueueIfAnyInNginxReloadQueue
    {| reloadInProcess := false;
       requestedReloadPromises := requestedReloadPromises self;
       captainPublicRandomKey := captainPublicRandomKey self;
       ownDataStore := ownDataStore self;
       chains := others; started := started self;
       settled := settled self ++ [(promise q, chainOutcome q (world self))];
       promisesMade := promisesMade self;
       world := (reloadChain (dataStore q) (world self)).2 |}.
Proof.
  intros H. unfold settleChain, chainOutcome. rewrite H.
  by destruct (reloadChain (dataStore q) (world self)) as [[u|e] w].
Qed.

(** The last handler with something pending: the chain's request is
    settled, and the most recent pending request has its chain started. *)
Lemma settleChain_next {E : Env} self q p q' :
  chains self = [q] -> requestedReloadPromises self = p ++ [q'] ->
  settled (settleChain self) =
    settled self ++ [(promise q, chainOutcome q (world self))] /\
  started (settleChain self) = started self ++ [promise q'] /\
  chains (settleChain self) = [q'] /\
  requestedReloadPromises (settleChain self) = p /\
  reloadInProcess (settleChain self) = true.
Proof.
  intros Hc Hq. rewrite (settleChain_step _ _ _ Hc).
  by rewrite (consume_snoc _ p q') by done.
Qed.

(** The last handler with nothing pending: the manager is idle. *)
Lemma settleChain_last {E : Env} self q :
  chains self = [q] -> requestedReloadPromises self = [] ->
  settled (settleChain self) =
    settled self ++ [(promise q, chainOutcome q (world self))] /\
  started (settleChain self) = started self /\
  chains (settleChain self) = [] /\
  requestedReloadPromises (settleChain self) = [] /\
  reloadInProcess (settleChain self) = false.
Proof.
  intros Hc Hq. rewrite (settleChain_step _ _ _ Hc).
  by rewrite consume_empty by done.
Qed.

Lemma drain_loop {E : Env} p :
  forall self q,
    chains self = [q] -> requestedReloadPromises self = p ->
    let final := run (replicate (S (length p)) Settle) self in
    map fst (settled final) =
      map fst (settled self) ++ promise q :: map promise (rev p) /\
    started final = started self ++ map promise (rev p) /\
    requestedReloadPromises final = [] /\ chains final = [] /\
    reloadInProcess final = false.
Proof.
  induction p as [|q' p IH] using rev_ind; intros self q Hc Hq; simpl.
  - destruct (settleChain_last self q Hc Hq) as (-> & -> & -> & -> & ->).
    rewrite map_app, app_nil_r. done.
  - rewrite length_app, Nat.add_1_r. simpl.
    destruct (settleChain_next self q p q' Hc Hq) as (S1 & T1 & C1 & Q1 & _).
    destruct (IH (settleChain self) q' C1 Q1) as (S2 & T2 & Q2 & C2 & R2).
    simpl in S2, T2, Q2, C2, R2. unfold run in *. simpl in *.
    rewrite S2, T2, S1, T1, rev_unit, map_app, <- !app_assoc. done.
Qed.

(** C6: each attempt takes exactly one request from the array, the one
    pushed last; when a chain reaches its last handler its request is
    settled, resolved or rejected as the chain ended, and the most recent
    pending request is taken at once; so from a chain under way the pending
    requests are all served, most recent first, and the manager is idle
    only once the array is empty. *)
Theorem C6_drain_order {E : Env} :
  (forall self p q,
      requestedReloadPromises self = p ++ [q] ->
      requestedReloadPromises (consumeQueueIfAnyInNginxReloadQueue self) = p /\
      (reloadInProcess self = false ->
       chains (consumeQueueIfAnyInNginxReloadQueue self) = chains self ++ [q])) /\
  (forall self q p q',
      chains self = [q] -> requestedReloadPromises self = p ++ [q'] ->
      settled (settleChain self) =
        settled self ++ [(promise q, chainOutcome q (world self))] /\
      chains (settleChain self) = [q'] /\
      requestedReloadPromises (settleChain self) = p /\
      reloadInProcess (settleChain self) = true) /\
  (forall self q k,
      chains self = [q] -> reloadInProcess self = true ->
      k <= length (requestedReloadPromises self) ->
      reloadInProcess (run (replicate k Settle) self) = true) /\
  (forall self q,
      chains self = [q] ->
      let final :=
        run (replicate (S (length (requestedReloadPromises self))) Settle) self in
      map fst (settled final) =
        map fst (settled self) ++
        promise q :: map promise (rev (requestedReloadPromises self)) /\
      started final = started self ++ map promise (rev (requestedReloadPromises self)) /\
      requestedReloadPromises final = [] /\ chains final = [] /\
      reloadInProcess final = false).
Proof.
  split; [|split; [|split]].
  - intros self p q Hq. rewrite (consume_snoc _ _ _ Hq).
    by destruct (reloadInProcess self).
  - intros self q p q' Hc Hq.
    by destruct (settleChain_next self q p q' Hc Hq) as (? & ? & ? & ? & ?).
  - intros self q k. revert self q.
    induction k as [|k IH]; intros self q Hc Hr Hk; [done|].
    destruct (requestedReloadPromises self) as [|q' p _] eqn:Hq using rev_ind;
      [simpl in Hk; lia|].
    rewrite length_app, Nat.add_1_r in Hk.
    destruct (settleChain_next self q p q' Hc Hq) as (_ & _ & C1 & Q1 & R1).
    simpl. apply (IH (settleChain self) q'); [done|done|]. rewrite Q1. lia.
  - intros self q Hc. by apply drain_loop.
Qed.

(** Three pending requests are served in the order 2, 1, 0; request 1 is
    rejected and request 0 is served all the same. *)
Example drain_three_pending :
  let final :=
    run (E := sampleEnv) (replicate 3 Settle)
      (consumeQueueIfAnyInNginxReloadQueue threePending) in
  settled final =
    [(2, Resolved); (1, Rejected (TemplateRenderError "<%")); (0, Resolved)] /\
  reloadInProcess final = false.
Proof. vm_compute. done. Qed.

(** From a new manager the array is empty after every event: a request is
    pushed and popped by the same call. *)
Lemma array_always_empty {E : Env} own key w evs :
  requestedReloadPromises (run evs (newManager own key w)) = [].
Proof.
  unfold run.
  assert (forall self, requestedReloadPromises self = [] ->
            requestedReloadPromises (fold_left step evs self) = []) as H; [|by apply H].
  induction evs as [|ev evs IH]; intros self Hq; [done|]. simpl. apply IH.
  destruct ev as [ds|]; simpl.
  - unfold rePopulateNginxConfigFile. simpl.
    rewrite (consume_snoc _ [] {| dataStore := ds; promise := promisesMade self |})
      by (simpl; by rewrite Hq).
    by destruct (reloadInProcess self).
  - unfold settleChain. destruct (chains self) as [|q others]; [done|].
    destruct (reloadChain (dataStore q) (world self)) as [[u|e] w'];
      by rewrite consume_empty.
Qed.

(** From a new manager at most one chain is under way at any time, and
    [reloadInProcess] is true exactly while one is. *)
Lemma single_flight {E : Env} own key w evs :
  let self := run evs (newManager own key w) in
  (reloadInProcess self = true /\ exists q, chains self = [q]) \/
  (reloadInProcess self = false /\ chains self = []).
Proof.
  cbv zeta. unfold run.
  assert (forall self,
            requestedReloadPromises self = [] ->
            (reloadInProcess self = true /\ exists q, chains self = [q]) \/
            (reloadInProcess self = false /\ chains self = []) ->
            (reloadInProcess (fold_left step evs self) = true /\
             exists q, chains (fold_left step evs self) = [q]) \/
            (reloadInProcess (fold_left step evs self) = false /\
             chains (fold_left step evs self) = [])) as H.
  { induction evs as [|ev evs IH]; intros self Hq Hinv; [done|]. simpl.
    assert (requestedReloadPromises (step self ev) = []) as Hq'.
    { destruct ev as [ds|]; simpl.
      - unfold rePopulateNginxConfigFile. simpl.
        rewrite (consume_snoc _ [] {| dataStore := ds; promise := promisesMade self |})
          by (simpl; by rewrite Hq).
        by destruct (reloadInProcess self).
      - unfold settleChain. destruct (chains self) as [|q others]; [done|].
        destruct (reloadChain (dataStore q) (world self)) as [[u|e] w'];
          by rewrite consume_empty. }
    apply IH; [done|]. clear IH Hq'.
    destruct ev as [ds|]; simpl.
    - unfold rePopulateNginxConfigFile. simpl.
      rewrite (consume_snoc _ [] {| dataStore := ds; promise := promisesMade self |})
        by (simpl; by rewrite Hq).
      simpl. destruct Hinv as [(-> & q & ->)|(-> & ->)]; left; eauto.
    - destruct Hinv as [(Hr & q & Hc)|(Hr & Hc)].
      + destruct (settleChain_last self q Hc Hq) as (_ & _ & -> & _ & ->). by right.
      + unfold settleChain. rewrite Hc. by right. }
  apply H; [done|]. by right.
Qed.

Lemma onlyIds_step {E : Env} P self ev :
  onlyIds P self ->
  onlyIds P (step self ev) /\
  exists newStarted newSettled,
    started (step self ev) = started self ++ newStarted /\
    settled (step self ev) = settled self ++ newSettled /\
    Forall P newStarted /\ Forall (fun entry => P entry.1) newSettled.
Proof.
  intros (Hnew & Hq & Hc).
  assert (forall m : Manager,
            onlyIds P m ->
            onlyIds P (consumeQueueIfAnyInNginxReloadQueue m) /\
            exists newStarted,
              started (consumeQueueIfAnyInNginxReloadQueue m) = started m ++ newStarted /\
              settled (consumeQueueIfAnyInNginxReloadQueue m) = settled m /\
              Forall P newStarted) as Hconsume.
  { intros m (Hn & Hmq & Hmc).
    destruct (requestedReloadPromises m) as [|q p _] eqn:Hp using rev_ind.
    - rewrite consume_empty by done. split; [by repeat split; rewrite ?Hp|].
      exists []. by rewrite app_nil_r.
    - rewrite (consume_snoc _ _ _ Hp). apply Forall_app in Hmq as (Hmp & Hmq).
      apply Forall_cons in Hmq as (Hpq & _).
      destruct (reloadInProcess m).
      + split; [by repeat split|]. exists []. by rewrite app_nil_r.
      + split.
        * repeat split; simpl; [done|done|]. apply Forall_app. split; [done|].
          by apply Forall_singleton.
        * exists [promise q]. repeat split. by apply Forall_singleton. }
  destruct ev as [ds|]; simpl.
  - unfold rePopulateNginxConfigFile. simpl.
    match goal with |- context [consumeQueueIfAnyInNginxReloadQueue ?m] =>
      destruct (Hconsume m) as (Inv & newStarted & -> & -> & HP) end.
    + repeat split; simpl.
      * intros k Hk. apply Hnew. lia.
      * apply Forall_app. split; [done|]. apply Forall_singleton. simpl. by apply Hnew.
      * done.
    + split; [done|]. exists newStarted, []. by rewrite app_nil_r.
  - unfold settleChain. destruct (chains self) as [|q others] eqn:Hch.
    + split; [by repeat split; rewrite ?Hch|]. exists [], []. by rewrite !app_nil_r.
    + apply Forall_cons in Hc as (HPq & Hothers).
      destruct (reloadChain (dataStore q) (world self)) as [[u|e] w'];
        match goal with |- context [consumeQueueIfAnyInNginxReloadQueue ?m] =>
          destruct (Hconsume m) as (Inv & newStarted & -> & -> & HP);
            [by repeat split|] end;
        (split; [done|]); simpl; eexists newStarted, [_];
        repeat split; try done; by apply Forall_singleton.
Qed.

Lemma onlyIds_run {E : Env} P evs :
  forall self,
    onlyIds P self ->
    exists newStarted newSettled,
      started (run evs self) = started self ++ newStarted /\
      settled (run evs self) = settled self ++ newSettled /\
      Forall P newStarted /\ Forall (fun entry => P entry.1) newSettled.
Proof.
  induction evs as [|ev evs IH]; intros self Inv.
  - exists [], []. by rewrite !app_nil_r.
  - destruct (onlyIds_step P self ev Inv) as (Inv1 & s1 & t1 & Hs1 & Ht1 & Ps1 & Pt1).
    destruct (IH _ Inv1) as (s2 & t2 & Hs2 & Ht2 & Ps2 & Pt2).
    exists (s1 ++ s2), (t1 ++ t2). unfold run in *. simpl.
    rewrite Hs2, Ht2, Hs1, Ht1, <- !app_assoc.
    repeat split; by apply Forall_app.
Qed.

(** The manager after a burst of calls on a new manager: the chain of the
    first call is under way, and nothing is left of the other calls. *)
Lemma burst_state {E : Env} own key w ds0 dss :
  run (map Call (ds0 :: dss)) (newManager own key w) =
  {| reloadInProcess := true; requestedReloadPromises := [];
     captainPublicRandomKey := key; ownDataStore := own;
     chains := [ {| dataStore := ds0; promise := 0 |} ];
     started := [0]; settled := []; promisesMade := S (length dss); world := w |}.
Proof.
  induction dss as [|ds dss IH] using rev_ind; [done|].
  change (ds0 :: dss ++ [ds]) with ((ds0 :: dss) ++ [ds]).
  unfold run in *. rewrite map_app, fold_left_app, IH. simpl.
  unfold rePopulateNginxConfigFile, consumeQueueIfAnyInNginxReloadQueue. simpl.
  by rewrite length_app, Nat.add_1_r.
Qed.

(** C1 fails on the code: of the calls made in a burst on an idle manager,
    only the first has its chain run. Each later call pushes its request,
    pops it at once and, a reload being in process, returns: the request is
    in the array no more, and its promise is never started and never
    settled, whatever happens afterwards. *)
Theorem C1_burst_runs_one_chain {E : Env} own key w ds0 dss :
  let burst := run (map Call (ds0 :: dss)) (newManager own key w) in
  promisesMade burst = S (length dss) /\
  started burst = [0] /\
  requestedReloadPromises burst = [] /\
  forall evs p,
    1 <= p <= length dss ->
    (p ∉ started (run evs burst)) /\ (p ∉ map fst (settled (run evs burst))).
Proof.
  cbv zeta. rewrite burst_state. simpl.
  split; [done|]. split; [done|]. split; [done|]. intros evs p Hp.
  destruct (onlyIds_run (fun k => k = 0 \/ S (length dss) <= k) evs
    {| reloadInProcess := true; requestedReloadPromises := [];
       captainPublicRandomKey := key; ownDataStore := own;
       chains := [ {| dataStore := ds0; promise := 0 |} ];
       started := [0]; settled := []; promisesMade := S (length dss); world := w |})
    as (s & t & Hs & Ht & Ps & Pt).
  { repeat split; simpl.
    - intros k Hk. by right.
    - constructor.
    - apply Forall_singleton. by left. }
  rewrite Hs, Ht. simpl. split.
  - intros [Hin|Hin]%elem_of_cons; [lia|].
    rewrite Forall_forall in Ps. destruct (Ps _ Hin); lia.
  - intros ([p' o] & -> & Hin)%list_elem_of_fmap.
    rewrite Forall_forall in Pt. destruct (Pt _ Hin); simpl in *; lia.
Qed.

(** Two calls in a row on an idle manager: one chain runs, one promise is
    settled, the manager is idle again, and the second promise is pending
    for ever. *)
Example two_calls_one_chain :
  let final :=
    run (E := sampleEnv)
      [Call (sampleStore []); Call (sampleStore []); Settle; Settle]
      (newManager (sampleStore []) "key" emptyWorld) in
  promisesMade final = 2 /\ started final = [0] /\ settled final = [(0, Resolved)] /\
  reloadInProcess final = false /\ requestedReloadPromises final = [] /\
  chains final = [].
Proof. vm_compute. done. Qed.

(** * Further properties *)

(** ** The server list *)

(** X1: the public domains of the server blocks come in the order of the
    applications, and for each application that is exposed its own
    subdomain [appName.rootDomain] first, then its custom domains in the
    order they are stored. *)
Theorem X1_public_domains_in_order ds dflt ssl root :
  map publicDomain (getAppsServerConfig ds dflt ssl root) =
  mjoin
    (map (fun entry : string * App.IAppDef =>
            if App.notExposeAsWebApp entry.2 then []
            else (entry.1 +:+ "." +:+ root) ::
                 map App.publicDomain (default [] (App.customDomain entry.2)))
         (getAppDefinitions ds)).
Proof.
  rewrite getAppsServerConfig_concat.
  induction (getAppDefinitions ds) as [|entry apps IH]; simpl; [done|].
  rewrite map_app, IH. f_equal. unfold serversOfApp.
  destruct (App.notExposeAsWebApp entry.2); simpl; [done|].
  f_equal. by rewrite <- list_fmap_compose.
Qed.

(** X2: no server block has port 0 (an unset or zero port becomes 80), and
    when the default template is not empty no server block has an empty
    template (an unset or empty custom template gives way to the default). *)
Theorem X2_port_and_template ds dflt ssl root s :
  s ∈ getAppsServerConfig ds dflt ssl root ->
  containerHttpPort s <> 0%Z /\ (dflt <> "" -> nginxConfigTemplate s <> "").
Proof.
  intros Hs. apply elem_of_getAppsServerConfig in Hs as (appName & webApp & _ & _ & Hs).
  assert (containerHttpPort s = portOr80 (App.containerHttpPort webApp) /\
          nginxConfigTemplate s = Js.or_else (App.customNginxConfig webApp) dflt)
    as (-> & ->).
  { by destruct Hs as [->|(d & _ & ->)]. }
  split.
  - unfold portOr80. destruct (App.containerHttpPort webApp) as [p|]; [|done].
    destruct (Z.eqb p 0) eqn:Hp; [done|]. by apply Z.eqb_neq.
  - intros Hd. unfold Js.or_else.
    by destruct (App.customNginxConfig webApp) as [[|c t]|].
Qed.

(** The theorem at the block of a custom domain. *)
Lemma X2_port_and_template_witness :
  (80 <> 0)%Z /\ ("server " <> "" -> "server " <> "").
Proof.
  apply (X2_port_and_template shopStore "server " true "example.com"
           (customDomainServer shopStore "server " "shop"
              (sampleApp (Some {| App.user := Some "admin";
                                  App.passwordHashed := Some "$1$abc" |})
                 None
                 [ {| App.publicDomain := "shop.org"; App.hasSsl := true |};
                   {| App.publicDomain := "shop.net"; App.hasSsl := false |} ])
              {| App.publicDomain := "shop.org"; App.hasSsl := true |})).
  vm_compute. apply list_elem_of_further, list_elem_of_here.
Defined.

(** X3: when the root domain has no SSL, the only server blocks with SSL
    are those of custom domains that have it themselves: no application's
    own subdomain is served with SSL, whatever its flag. *)
Theorem X3_no_root_ssl ds dflt root s :
  s ∈ getAppsServerConfig ds dflt false root ->
  hasSsl s = true ->
  exists appName webApp d,
    (appName, webApp) ∈ getAppDefinitions ds /\
    d ∈ default [] (App.customDomain webApp) /\
    App.hasSsl d = true /\ publicDomain s = App.publicDomain d.
Proof.
  intros Hs Hssl.
  apply elem_of_getAppsServerConfig in Hs as (appName & webApp & Hin & _ & Hs).
  destruct Hs as [->|(d & Hd & ->)]; [done|].
  exists appName, webApp, d. auto.
Qed.

(** The theorem at the custom domain [shop.org]. *)
Lemma X3_no_root_ssl_witness :
  exists appName webApp d,
    (appName, webApp) ∈ getAppDefinitions shopStore /\
    d ∈ default [] (App.customDomain webApp) /\
    App.hasSsl d = true /\ "shop.org" = App.publicDomain d.
Proof.
  apply (X3_no_root_ssl shopStore "server " "example.com"
           (customDomainServer shopStore "server " "shop"
              (sampleApp (Some {| App.user := Some "admin";
                                  App.passwordHashed := Some "$1$abc" |})
                 None
                 [ {| App.publicDomain := "shop.org"; App.hasSsl := true |};
                   {| App.publicDomain := "shop.net"; App.hasSsl := false |} ])
              {| App.publicDomain := "shop.org"; App.hasSsl := true |})).
  - vm_compute. apply list_elem_of_further, list_elem_of_here.
  - reflexivity.
Defined.

(** X4: a server block of the list reaches the renderer with a
    certificate path and a key path exactly when it has SSL, both under
    [letsEncryptEtcPathOnNginx] and for its own public domain, and with a
    path to a credentials file exactly when it has credentials. *)
Theorem X4_paths_follow_flags {E : Env} ds base s :
  s ∈ getServerList ds ->
  crtPath (rendererInput base s) =
    (if hasSsl s then Some (getSslCertPath (publicDomain s)) else None) /\
  keyPath (rendererInput base s) =
    (if hasSsl s then Some (getSslKeyPath (publicDomain s)) else None) /\
  (is_Some (httpBasicAuthPath (rendererInput base s)) <-> httpBasicAuth s <> "").
Proof.
  intros Hs. unfold getServerList in Hs.
  apply elem_of_getAppsServerConfig in Hs as (appName & webApp & _ & _ & Hs).
  assert (crtPath s = None /\ keyPath s = None /\ httpBasicAuthPath s = None)
    as (Hc & Hk & Ha).
  { by destruct Hs as [->|(d & _ & ->)]. }
  unfold rendererInput, assignAuthPath.
  assert (hasBasicAuth (assignPaths s) = negb (String.eqb (httpBasicAuth s) "")) as Hb
    by done.
  destruct (String.eqb (httpBasicAuth s) "") eqn:Heq; rewrite Hb; simpl.
  - apply String.eqb_eq in Heq. rewrite Hc, Hk, Ha, Heq. repeat split.
    + by intros [? ?].
    + done.
  - apply String.eqb_neq in Heq. rewrite Hc, Hk. repeat split; eauto.
Qed.

(** The theorem at the block of [shop.org], which has SSL and credentials. *)
Lemma X4_paths_follow_flags_witness :
  crtPath
    (rendererInput (E := sampleEnv) "/captain/generated/nginx/conf.d/captain"
       (customDomainServer shopStore "server " "shop"
          (sampleApp (Some {| App.user := Some "admin";
                              App.passwordHashed := Some "$1$abc" |})
             None
             [ {| App.publicDomain := "shop.org"; App.hasSsl := true |};
               {| App.publicDomain := "shop.net"; App.hasSsl := false |} ])
          {| App.publicDomain := "shop.org"; App.hasSsl := true |})) =
  Some "/letencrypt/etc/live/shop.org/fullchain.pem".
Proof.
  refine (proj1 (X4_paths_follow_flags (E := sampleEnv) shopStore
            "/captain/generated/nginx/conf.d/captain" _ _)).
  vm_compute. apply list_elem_of_further, list_elem_of_here.
Defined.

(** ** Splitting strings *)

Lemma split_not_nil sep s : Js.split sep s <> [].
Proof.
  destruct s as [|c s]; simpl; [done|].
  destruct (Ascii.eqb c sep); [done|]. by destruct (Js.split sep s).
Qed.

(** [(a + sep + b).split(sep)] is [a.split(sep).concat(b.split(sep))]. *)
Lemma split_app sep a b :
  Js.split sep (a +:+ String sep b) = Js.split sep a ++ Js.split sep b.
Proof.
  induction a as [|c a IH]; simpl.
  - by rewrite Ascii.eqb_refl.
  - destruct (Ascii.eqb c sep); [by rewrite IH|]. rewrite IH.
    pose proof (split_not_nil sep a). by destruct (Js.split sep a).
Qed.

Lemma split_none sep s : includes sep s = false -> Js.split sep s = [s].
Proof.
  induction s as [|c s IH]; simpl; [done|].
  intros [Hc Hs]%orb_false_iff. by rewrite Hc, IH.
Qed.

Lemma includes_app c a b : includes c (a +:+ b) = includes c a || includes c b.
Proof. induction a as [|c' a IH]; simpl; [done|]. by rewrite IH, orb_assoc. Qed.

Lemma string_app_assoc (a b c : string) : (a +:+ b) +:+ c = a +:+ b +:+ c.
Proof.
  induction a as [|x a IH]; [done|].
  change (String x ((a +:+ b) +:+ c) = String x (a +:+ b +:+ c)). by f_equal.
Qed.

Lemma basename_of_file dir name :
  includes "/" name = false -> name <> "" ->
  path.basename (dir +:+ "/" +:+ name) = name.
Proof.
  intros Hn Hne. unfold path.basename.
  change (dir +:+ "/" +:+ name) with (dir +:+ String "/" name).
  rewrite split_app, List.filter_app, (split_none _ _ Hn). simpl.
  destruct name as [|c name]; [done|]. simpl. apply List.last_last.
Qed.

(** ** The credentials file, on the host and in the container *)

(** X5: for a namespace and a public domain without a slash, the
    credentials of a server block are written on the host to the file
    [<namespace>-<publicDomain>.auth] of the directory
    [perAppNginxConfigPathBase], and the block names to the template the
    file of that name in [/etc/nginx/conf.d], the directory [init] mounts
    [perAppNginxConfigPathBase] at. *)
Theorem X5_credentials_file_name {E : Env} ds s :
  includes "/" (getNameSpace ds) = false ->
  includes "/" (publicDomain s) = false ->
  httpBasicAuth s <> "" ->
  pathOfAuthInHost (configFilePathBase ds) s =
    perAppNginxConfigPathBase constants +:+ "/" +:+
    (getNameSpace ds +:+ "-" +:+ publicDomain s +:+ ".auth") /\
  httpBasicAuthPath (rendererInput (configFilePathBase ds) s) =
    Some ("/etc/nginx/conf.d" +:+ "/" +:+
          (getNameSpace ds +:+ "-" +:+ publicDomain s +:+ ".auth")) /\
  {| containerPath := "/etc/nginx/conf.d";
     hostPath := perAppNginxConfigPathBase constants |} ∈ nginxMounts.
Proof.
  intros Hns Hdom Hauth.
  assert (pathOfAuthInHost (configFilePathBase ds) s =
          perAppNginxConfigPathBase constants +:+ "/" +:+
          (getNameSpace ds +:+ "-" +:+ publicDomain s +:+ ".auth")) as Hpath.
  { unfold pathOfAuthInHost, configFilePathBase.
    by rewrite !string_app_assoc. }
  split; [done|]. split.
  - unfold rendererInput, assignAuthPath.
    assert (hasBasicAuth (assignPaths s) = true) as ->.
    { unfold hasBasicAuth. simpl. apply negb_true_iff. by apply String.eqb_neq. }
    simpl. unfold path.join, CONTAINER_PATH_OF_CONFIG. do 3 f_equal.
    change (pathOfAuthInHost (configFilePathBase ds) (assignPaths s))
      with (pathOfAuthInHost (configFilePathBase ds) s).
    rewrite Hpath. apply basename_of_file.
    + rewrite !includes_app, Hns, Hdom. done.
    + by destruct (getNameSpace ds).
  - unfold nginxMounts. do 3 apply list_elem_of_further. apply list_elem_of_here.
Qed.

(** The theorem at the application [shop] in the namespace [captain]. *)
Lemma X5_credentials_file_name_witness :
  httpBasicAuthPath
    (rendererInput (E := sampleEnv) (configFilePathBase (E := sampleEnv) shopStore)
       (serverWithSubDomain shopStore "server " true "example.com" "shop"
          (sampleApp (Some {| App.user := Some "admin";
                              App.passwordHashed := Some "$1$abc" |})
             None
             [ {| App.publicDomain := "shop.org"; App.hasSsl := true |};
               {| App.publicDomain := "shop.net"; App.hasSsl := false |} ]))) =
  Some ("/etc/nginx/conf.d" +:+ "/" +:+
        ("captain" +:+ "-" +:+ "shop.example.com" +:+ ".auth")).
Proof.
  refine (proj1 (proj2 (X5_credentials_file_name (E := sampleEnv) shopStore
            (serverWithSubDomain shopStore "server " true "example.com" "shop"
               (sampleApp (Some {| App.user := Some "admin";
                                   App.passwordHashed := Some "$1$abc" |})
                  None
                  [ {| App.publicDomain := "shop.org"; App.hasSsl := true |};
                    {| App.publicDomain := "shop.net"; App.hasSsl := false |} ]))
            _ _ _))).
  - reflexivity.
  - reflexivity.
  - discriminate.
Defined.

(** ** The status page *)

Lemma split_piece sep a b :
  includes sep a = false ->
  Js.split sep (a +:+ String sep b) = a :: Js.split sep b.
Proof. intros Ha. by rewrite split_app, (split_none _ _ Ha). Qed.

Lemma split_connectionsLine t :
  includes " " t = false ->
  Js.split " " (connectionsLine t) = ["Active"; "connections:"; t; ""].
Proof.
  intros Ht.
  change (connectionsLine t)
    with ("Active" +:+ String " " ("connections:" +:+ String " " (t +:+ String " " ""))).
  by rewrite !split_piece.
Qed.

Lemma split_countersLine a h r :
  includes " " a = false -> includes " " h = false -> includes " " r = false ->
  Js.split " " (countersLine a h r) = [""; a; h; r; ""].
Proof.
  intros Ha Hh Hr.
  change (countersLine a h r)
    with ("" +:+ String " " (a +:+ String " " (h +:+ String " " (r +:+ String " " "")))).
  by rewrite !split_piece.
Qed.

Lemma split_stateLine r w t :
  includes " " r = false -> includes " " w = false -> includes " " t = false ->
  Js.split " " (stateLine r w t) =
  ["Reading:"; r; "Writing:"; w; "Waiting:"; t; ""].
Proof.
  intros Hr Hw Ht.
  change (stateLine r w t)
    with ("Reading:" +:+ String " " (r +:+ String " "
            ("Writing:" +:+ String " " (w +:+ String " "
               ("Waiting:" +:+ String " " (t +:+ String " " "")))))).
  by rewrite !split_piece.
Qed.

Lemma split_statusPage t1 t2 t3 t4 t5 t6 t7 :
  Forall (fun t => includes "010" t = false) [t1; t2; t3; t4; t5; t6; t7] ->
  Js.split "010" (statusPage t1 t2 t3 t4 t5 t6 t7) =
  [ connectionsLine t1; "server accepts handled requests"; countersLine t2 t3 t4;
    stateLine t5 t6 t7; "" ].
Proof.
  intros H. repeat (apply Forall_cons in H as (? & H)).
  change (statusPage t1 t2 t3 t4 t5 t6 t7)
    with (connectionsLine t1 +:+ String "010"
            ("server accepts handled requests" +:+ String "010"
               (countersLine t2 t3 t4 +:+ String "010"
                  (stateLine t5 t6 t7 +:+ String "010" "")))).
  rewrite !split_piece; try done.
  - unfold stateLine. rewrite !includes_app.
    repeat match goal with Hx : includes _ _ = false |- _ => rewrite Hx; clear Hx end.
    done.
  - unfold countersLine. rewrite !includes_app.
    repeat match goal with Hx : includes _ _ = false |- _ => rewrite Hx; clear Hx end.
    done.
  - unfold connectionsLine. rewrite !includes_app.
    repeat match goal with Hx : includes _ _ = false |- _ => rewrite Hx; clear Hx end.
    done.
Qed.

(** X6: on a page laid out as nginx's stub_status module prints it, with
    any seven tokens free of spaces and line feeds in the places of the
    counters, [getInfo] resolves, and each field is [Number] of the token
    in its place: active connections from the first line; accepted,
    handled and total from the third; reading, writing and waiting from
    the fourth. *)
Theorem X6_getInfo_reads_status_page t1 t2 t3 t4 t5 t6 t7 :
  Forall (fun t => includes " " t = false /\ includes "010" t = false)
         [t1; t2; t3; t4; t5; t6; t7] ->
  getInfo None (Some (statusPage t1 t2 t3 t4 t5 t6 t7)) =
  Resolve {| activeConnections := Js.Number (Js.trim t1);
             accepted := Js.Number (Js.trim t2);
             handled := Js.Number (Js.trim t3);
             total := Js.Number (Js.trim t4);
             reading := Js.Number (Js.trim t5);
             writing := Js.Number (Js.trim t6);
             waiting := Js.Number (Js.trim t7) |}.
Proof.
  intros H.
  assert (Forall (fun t => includes "010" t = false) [t1; t2; t3; t4; t5; t6; t7]) as Hnl.
  { eapply Forall_impl; [exact H|]. by intros t (_ & ?). }
  repeat (apply Forall_cons in H as (Hx & H); simpl in Hx; destruct Hx as (? & _)).
  unfold getInfo. simpl. unfold parseStatus, field.
  rewrite (split_statusPage _ _ _ _ _ _ _ Hnl).
  pose proof (split_connectionsLine t1) as L1.
  pose proof (split_countersLine t2 t3 t4) as L3.
  pose proof (split_stateLine t5 t6 t7) as L4.
  generalize dependent (connectionsLine t1). intros line1 L1.
  generalize dependent (countersLine t2 t3 t4). intros line3 L3.
  generalize dependent (stateLine t5 t6 t7). intros line4 L4.
  simpl. rewrite L1, L3, L4 by done. done.
Qed.

(** The theorem at counters in decimal digits: the fields are their
    values. *)
Lemma X6_getInfo_reads_status_page_witness :
  getInfo None (Some (statusPage "291" "16630948" "16630948" "31070465" "6" "179" "106")) =
  Resolve {| activeConnections := Js.JsInt 291;
             accepted := Js.JsInt 16630948;
             handled := Js.JsInt 16630948;
             total := Js.JsInt 31070465;
             reading := Js.JsInt 6;
             writing := Js.JsInt 179;
             waiting := Js.JsInt 106 |}.
Proof.
  apply (X6_getInfo_reads_status_page "291" "16630948" "16630948" "31070465" "6" "179" "106").
  repeat (apply Forall_cons; split; [by split|]). apply Forall_nil_2.
Defined.

(** ** The files a reload changes *)

Lemma touchesOnly_perform (paths : string -> Prop) op update :
  (forall m m' p, update m = Some m' -> ~ paths p -> m' !! p = m !! p) ->
  touchesOnly paths (fs.perform op update).
Proof.
  intros Hu w r w' p H Hp.
  apply fs_perform_inv in H as (_ & _ & [(_ & Hm & _)|(_ & -> & _)]); [|done].
  by eapply Hu.
Qed.

Lemma touchesOnly_bind {A B} paths (c : M A) (k : A -> M B) :
  touchesOnly paths c -> (forall a, touchesOnly paths (k a)) ->
  touchesOnly paths (bind c k).
Proof.
  intros Hc Hk w r w' p. unfold bind. destruct (c w) as [[a|e] w1] eqn:H1.
  - intros H2 Hp. rewrite (Hk _ _ _ _ _ H2 Hp). by eapply Hc.
  - intros [= _ <-] Hp. by eapply Hc.
Qed.

Lemma touchesOnly_pure {A} paths (c : M A) :
  (forall w r w', c w = (r, w') -> w' = w) -> touchesOnly paths c.
Proof. intros Hc w r w' p H _. by rewrite (Hc _ _ _ H). Qed.

Lemma touchesOnly_render {E : Env} paths template data :
  touchesOnly paths (render template data).
Proof.
  apply touchesOnly_pure. intros w r w'. unfold render, ret, throw.
  destruct (ejs_render template data); by intros [= _ <-].
Qed.

Lemma touchesOnly_outputFile (paths : string -> Prop) path content :
  paths path -> touchesOnly paths (fs.outputFile path content).
Proof.
  intros Hin. apply touchesOnly_perform. intros m m' p [= <-] Hp.
  apply lookup_insert_ne. by intros <-.
Qed.

Lemma touchesOnly_remove (paths : string -> Prop) path :
  paths path -> touchesOnly paths (fs.remove path).
Proof.
  intros Hin. apply touchesOnly_perform. intros m m' p [= <-] Hp.
  apply lookup_delete_ne. by intros <-.
Qed.

Lemma touchesOnly_ensureFile (paths : string -> Prop) path :
  paths path -> touchesOnly paths (fs.ensureFile path).
Proof.
  intros Hin. apply touchesOnly_perform. intros m m' p [= <-] Hp.
  apply ensured_lookup_ne. by intros <-.
Qed.

Lemma touchesOnly_renameSync (paths : string -> Prop) oldPath newPath :
  paths oldPath -> paths newPath -> touchesOnly paths (fs.renameSync oldPath newPath).
Proof.
  intros Ho Hn. apply touchesOnly_perform. intros m m' p Hu Hp.
  destruct (m !! oldPath) as [content|]; [|done]. injection Hu as <-.
  rewrite lookup_insert_ne, lookup_delete_ne; [done|by intros <-|by intros <-].
Qed.

Lemma touchesOnly_swapConfigFile (paths : string -> Prop) base content :
  paths (FUTURE base) -> paths (BACKUP base) -> paths (CONFIG base) ->
  touchesOnly paths (swapConfigFile base content).
Proof.
  intros Hf Hb Hc. unfold swapConfigFile.
  apply touchesOnly_bind; [by apply touchesOnly_outputFile|intros ?].
  apply touchesOnly_bind; [by apply touchesOnly_remove|intros ?].
  apply touchesOnly_bind; [by apply touchesOnly_ensureFile|intros ?].
  apply touchesOnly_bind; [by apply touchesOnly_renameSync|intros ?].
  by apply touchesOnly_renameSync.
Qed.

Lemma touchesOnly_reloadChain {E : Env} ds : touchesOnly (reloadPaths ds) (reloadChain ds).
Proof.
  unfold reloadChain.
  apply touchesOnly_bind; [|intros ?].
  { apply touchesOnly_remove. left. apply list_elem_of_here. }
  apply touchesOnly_bind; [|intros content].
  { intros w r w' p H Hp.
    apply renderServers_spec in H as (_ & ops & _ & A & F & _).
    apply F. intros c Hc. rewrite Forall_forall in A.
    destruct (A _ Hc) as (s & Hs & Hauth & [= -> _]).
    apply Hp. right. eauto. }
  apply touchesOnly_bind; [|intros ?].
  { apply touchesOnly_swapConfigFile; left.
    - apply list_elem_of_here.
    - apply list_elem_of_further, list_elem_of_here.
    - do 2 apply list_elem_of_further. apply list_elem_of_here. }
  unfold createRootConfFile.
  apply touchesOnly_bind; [apply touchesOnly_render|intros rootContent].
  apply touchesOnly_swapConfigFile; left.
  - do 3 apply list_elem_of_further. apply list_elem_of_here.
  - do 4 apply list_elem_of_further. apply list_elem_of_here.
  - do 5 apply list_elem_of_further. apply list_elem_of_here.
Qed.

Lemma reloadPaths_in_directory {E : Env} ds q :
  includes "/" (getNameSpace ds) = false ->
  Forall (fun s => includes "/" (publicDomain s) = false) (getServerList ds) ->
  reloadPaths ds q ->
  q ∈ [ FUTURE (rootNginxConfigPath constants); BACKUP (rootNginxConfigPath constants);
        CONFIG (rootNginxConfigPath constants) ] \/
  exists name, includes "/" name = false /\
               q = perAppNginxConfigPathBase constants +:+ "/" +:+ name.
Proof.
  intros Hns Hdom [Hq|(s & Hs & _ & ->)].
  - repeat (apply elem_of_cons in Hq as [->|Hq]);
      try (left; repeat (first [apply list_elem_of_here | apply list_elem_of_further]);
           fail);
      try (by apply elem_of_nil in Hq); right.
    + exists (getNameSpace ds +:+ ".fut"). rewrite includes_app, Hns. split; [done|].
      unfold FUTURE, configFilePathBase. by rewrite !string_app_assoc.
    + exists (getNameSpace ds +:+ ".bak"). rewrite includes_app, Hns. split; [done|].
      unfold BACKUP, configFilePathBase. by rewrite !string_app_assoc.
    + exists (getNameSpace ds +:+ ".conf"). rewrite includes_app, Hns. split; [done|].
      unfold CONFIG, configFilePathBase. by rewrite !string_app_assoc.
  - right. rewrite Forall_forall in Hdom.
    exists (getNameSpace ds +:+ "-" +:+ publicDomain s +:+ ".auth").
    rewrite !includes_app, Hns, (Hdom s Hs). split; [done|].
    unfold pathOfAuthInHost, configFilePathBase. by rewrite !string_app_assoc.
Qed.

(** X7: for a namespace and public domains without a slash, a reload,
    whether it succeeds or fails, changes no file but the [.fut], [.bak]
    and [.conf] files of its namespace and of the root configuration and
    the credentials files of the server blocks that have credentials; and
    those of the namespace and the credentials files are files of the
    directory [perAppNginxConfigPathBase] itself. *)
Theorem X7_reload_changes_only_its_files {E : Env} ds w r w' p :
  includes "/" (getNameSpace ds) = false ->
  Forall (fun s => includes "/" (publicDomain s) = false) (getServerList ds) ->
  reloadChain ds w = (r, w') ->
  ~ reloadPaths ds p ->
  files w' !! p = files w !! p /\
  (forall q,
      reloadPaths ds q ->
      q ∈ [ FUTURE (rootNginxConfigPath constants); BACKUP (rootNginxConfigPath constants);
            CONFIG (rootNginxConfigPath constants) ] \/
      exists name, includes "/" name = false /\
                   q = perAppNginxConfigPathBase constants +:+ "/" +:+ name).
Proof.
  intros Hns Hdom H Hp. split; [by eapply touchesOnly_reloadChain|].
  intros q. by apply reloadPaths_in_directory.
Qed.

(** The theorem at the base configuration file, which a reload of [shop]
    leaves alone. *)
Lemma X7_reload_changes_only_its_files_witness :
  files (reloadChain (E := sampleEnv) shopStore worldWithBaseConf).2
    !! "/captain/generated/nginx/nginx.conf" =
  files worldWithBaseConf !! "/captain/generated/nginx/nginx.conf".
Proof.
  refine (proj1 (X7_reload_changes_only_its_files (E := sampleEnv) shopStore
                   worldWithBaseConf
                   (reloadChain (E := sampleEnv) shopStore worldWithBaseConf).1
                   (reloadChain (E := sampleEnv) shopStore worldWithBaseConf).2
                   "/captain/generated/nginx/nginx.conf" _ _ _ _)).
  - reflexivity.
  - vm_compute. repeat (apply Forall_cons; split; [reflexivity|]). apply Forall_nil_2.
  - by destruct (reloadChain (E := sampleEnv) shopStore worldWithBaseConf).
  - intros [Hin|(s & Hs & _ & Heq)].
    + vm_compute in Hin.
      repeat (apply elem_of_cons in Hin as [Hin|Hin]; [discriminate Hin|]).
      by apply elem_of_nil in Hin.
    + vm_compute in Hs.
      repeat (apply elem_of_cons in Hs as [->|Hs]; [discriminate Heq|]).
      by apply elem_of_nil in Hs.
Defined.

(** ** Reloads and the scheduler *)

Lemma step_services {E : Env} self ev :
  sameServices (world self) (world (step self ev)).
Proof.
  destruct ev as [ds|]; cbn [step].
  - by rewrite (rePopulate_world ds self).
  - apply settleChain_services.
Qed.

(** X8: asking for reloads and running their chains never calls the
    scheduler: whatever the calls and however the chains end, the services
    are as they were and no call is logged; in particular no reload signal
    is sent to the proxy. *)
Theorem X8_reloads_never_call_scheduler {E : Env} evs self :
  services (world (run evs self)) = services (world self) /\
  dockerLog (world (run evs self)) = dockerLog (world self).
Proof.
  revert self. induction evs as [|ev evs IH]; intros self; [done|].
  unfold run in *. simpl. destruct (IH (step self ev)) as (-> & ->).
  apply step_services.
Qed.

(** ** The three files of two configurations *)

Lemma lastChar_app a s : s <> "" -> lastChar (a +:+ s) = lastChar s.
Proof.
  intros Hs. induction a as [|c a IH]; [done|].
  change (lastChar (String c (a +:+ s)) = lastChar s). simpl.
  destruct (a +:+ s) eqn:Has; [|done].
  destruct a; [|done]. simpl in Has. done.
Qed.

Lemma string_length_app a b :
  String.length (a +:+ b) = String.length a + String.length b.
Proof. induction a as [|c a IH]; [done|]. simpl. by rewrite IH. Qed.

Lemma append_inv_tail a b s : a +:+ s = b +:+ s -> a = b.
Proof.
  revert b. induction a as [|c a IH]; intros [|c' b] H.
  - done.
  - apply (f_equal String.length) in H. rewrite !string_length_app in H.
    simpl in H. lia.
  - apply (f_equal String.length) in H. rewrite !string_length_app in H.
    simpl in H. lia.
  - injection H as -> H. f_equal. by apply IH.
Qed.

Lemma FUTURE_BACKUP_any a b : FUTURE a <> BACKUP b.
Proof.
  intros H. apply (f_equal lastChar) in H. unfold FUTURE, BACKUP in H.
  by rewrite !lastChar_app in H.
Qed.

Lemma FUTURE_CONFIG_any a b : FUTURE a <> CONFIG b.
Proof.
  intros H. apply (f_equal lastChar) in H. unfold FUTURE, CONFIG in H.
  by rewrite !lastChar_app in H.
Qed.

Lemma BACKUP_CONFIG_any a b : BACKUP a <> CONFIG b.
Proof.
  intros H. apply (f_equal lastChar) in H. unfold BACKUP, CONFIG in H.
  by rewrite !lastChar_app in H.
Qed.

Lemma CONFIG_inj a b : CONFIG a = CONFIG b -> a = b.
Proof. apply append_inv_tail. Qed.

Lemma BACKUP_inj a b : BACKUP a = BACKUP b -> a = b.
Proof. apply append_inv_tail. Qed.

Lemma FUTURE_inj a b : FUTURE a = FUTURE b -> a = b.
Proof. apply append_inv_tail. Qed.

(** Two of the six names are equal only if they have the same ending and
    the same base. *)
Ltac path_ne :=
  let Heq := fresh "Heq" in
  intros Heq;
  first
    [ by apply FUTURE_BACKUP_any in Heq
    | by apply FUTURE_CONFIG_any in Heq
    | by apply BACKUP_CONFIG_any in Heq
    | by (symmetry in Heq; apply FUTURE_BACKUP_any in Heq)
    | by (symmetry in Heq; apply FUTURE_CONFIG_any in Heq)
    | by (symmetry in Heq; apply BACKUP_CONFIG_any in Heq)
    | (apply CONFIG_inj in Heq; congruence)
    | (apply BACKUP_inj in Heq; congruence)
    | (apply FUTURE_inj in Heq; congruence) ].

(** The files after a successful reload. *)
Lemma reloadChain_ok_files {E : Env} ds w w' :
  reloadChain ds w = (Ok tt, w') ->
  exists content w0 w1,
    fs.remove (FUTURE (configFilePathBase ds)) w = (Ok tt, w0) /\
    renderServers (configFilePathBase ds) (getServerList ds) w0 = (Ok content, w1) /\
    files w' !! FUTURE (configFilePathBase ds) = None /\
    files w' !! FUTURE (rootNginxConfigPath constants) = None /\
    is_Some (files w' !! CONFIG (rootNginxConfigPath constants)) /\
    (rootNginxConfigPath constants <> configFilePathBase ds ->
     files w' !! CONFIG (configFilePathBase ds) = Some content /\
     files w' !! BACKUP (configFilePathBase ds) =
       Some (default "" (files w !! CONFIG (configFilePathBase ds)))).
Proof.
  unfold reloadChain. intros H.
  apply bind_ok in H as ([] & w0 & H0 & H).
  apply bind_ok in H as (content & w1 & H1 & H).
  apply bind_ok in H as ([] & w2 & H2 & H3).
  exists content, w0, w1. split; [done|]. split; [done|].
  unfold createRootConfFile in H3.
  apply bind_ok in H3 as (rootContent & w3 & Hr & H3). apply render_ok in Hr as (_ & ->).
  apply swapConfigFile_ok in H2 as (_ & C2 & B2 & F2 & _).
  apply swapConfigFile_ok in H3 as (_ & C3 & B3 & F3 & O3 & _).
  split; [|split; [done|split; [eauto|]]].
  - destruct (decide (rootNginxConfigPath constants = configFilePathBase ds)) as [<-|Hne].
    + done.
    + rewrite O3; [done|path_ne..].
  - intros Hne. split.
    + rewrite O3; [done|path_ne..].
    + rewrite O3; [|path_ne..].
      rewrite B2. do 2 f_equal.
      rewrite (renderServers_other _ _ _ _ _ _ H1) by (intros s; apply auth_CONFIG).
      apply remove_ok in H0 as (-> & _). apply lookup_delete_ne, FUTURE_CONFIG.
Qed.

(** X10: of two successful reloads of the same namespace, the second
    leaves in [.bak] the configuration the first had put in [.conf], the
    root configuration being kept under another name than the
    namespace's. *)
Theorem X10_backup_is_previous_generation {E : Env} ds1 ds2 w w1 w2 :
  rootNginxConfigPath constants <> configFilePathBase ds1 ->
  getNameSpace ds2 = getNameSpace ds1 ->
  reloadChain ds1 w = (Ok tt, w1) ->
  reloadChain ds2 w1 = (Ok tt, w2) ->
  is_Some (files w1 !! CONFIG (configFilePathBase ds1)) /\
  files w2 !! BACKUP (configFilePathBase ds1) =
    files w1 !! CONFIG (configFilePathBase ds1).
Proof.
  intros Hne Hns H1 H2.
  assert (configFilePathBase ds2 = configFilePathBase ds1) as Hbase.
  { unfold configFilePathBase. by rewrite Hns. }
  apply reloadChain_ok_files in H1 as (c1 & ? & ? & _ & _ & _ & _ & _ & Hc1).
  destruct (Hc1 Hne) as (Hconf & _).
  apply reloadChain_ok_files in H2 as (c2 & ? & ? & _ & _ & _ & _ & _ & Hc2).
  rewrite Hbase in Hc2. destruct (Hc2 Hne) as (_ & Hb2).
  rewrite Hb2, Hconf. eauto.
Qed.

(** The theorem at a reload of [foo] followed by a reload of [shop]. *)
Lemma X10_backup_is_previous_generation_witness :
  files (reloadChain (E := sampleEnv) shopStore
           (reloadChain (E := sampleEnv) c2Store emptyWorld).2).2
    !! BACKUP (configFilePathBase (E := sampleEnv) c2Store) =
  files (reloadChain (E := sampleEnv) c2Store emptyWorld).2
    !! CONFIG (configFilePathBase (E := sampleEnv) c2Store).
Proof.
  refine (proj2 (X10_backup_is_previous_generation (E := sampleEnv) c2Store shopStore
            emptyWorld _ _ _ _ _ _)).
  - vm_compute. discriminate.
  - reflexivity.
  - vm_compute. reflexivity.
  - vm_compute. reflexivity.
Defined.

(** X11: a successful reload leaves no [.fut] file, of the namespace or of
    the root configuration, whatever was there before. *)
Theorem X11_no_sidecar_left {E : Env} ds w w' :
  reloadChain ds w = (Ok tt, w') ->
  files w' !! FUTURE (configFilePathBase ds) = None /\
  files w' !! FUTURE (rootNginxConfigPath constants) = None.
Proof.
  intros H. by apply reloadChain_ok_files in H as (? & ? & ? & _ & _ & ? & ? & _).
Qed.

(** The theorem at a reload of [shop] in an empty world. *)
Lemma X11_no_sidecar_left_witness :
  files (reloadChain (E := sampleEnv) shopStore emptyWorld).2
    !! FUTURE (configFilePathBase (E := sampleEnv) shopStore) = None /\
  files (reloadChain (E := sampleEnv) shopStore emptyWorld).2
    !! FUTURE (rootNginxConfigPath (constants (Env := sampleEnv))) = None.
Proof.
  apply (X11_no_sidecar_left (E := sampleEnv) shopStore emptyWorld).
  vm_compute. reflexivity.
Defined.

(** ** The configuration text *)

Lemma string_app_nil_r (a : string) : a +:+ "" = a.
Proof.
  induction a as [|c a IH]; [done|].
  change (String c (a +:+ "") = String c a). by f_equal.
Qed.

Lemma rendererInput_template {E : Env} base s :
  nginxConfigTemplate (rendererInput base s) = nginxConfigTemplate s.
Proof.
  unfold rendererInput, assignAuthPath. by destruct (hasBasicAuth (assignPaths s)).
Qed.

(** With no credentials anywhere, the rendering phase is the rendering of
    the blocks in the order of the list, and writes nothing. *)
Lemma renderServers_no_credentials {E : Env} base servers w :
  (forall s, s ∈ servers -> httpBasicAuth s = "") ->
  renderServers base servers w =
  (promiseAll (map (fun s => renderServer (rendererInput base s) (Ok tt)) servers) "", w).
Proof.
  intros Hnone. unfold renderServers.
  assert (List.filter hasBasicAuth (map (rendererInput base) servers) = [] /\
          List.filter (fun s => negb (hasBasicAuth s)) (map (rendererInput base) servers) =
          map (rendererInput base) servers) as (-> & ->).
  { induction servers as [|s servers IH]; [done|]. simpl.
    assert (hasBasicAuth (rendererInput base s) = false) as ->.
    { unfold hasBasicAuth. destruct (rendererInput_auth base s) as (_ & ->).
      rewrite Hnone by apply list_elem_of_here. done. }
    simpl. destruct IH as (-> & ->); [|done].
    intros s' Hs'. apply Hnone. by right. }
  simpl. rewrite (proj1 (Permutation_nil_r _) (settleOrder_perm [])). simpl.
  by rewrite app_nil_r, <- list_fmap_compose.
Qed.

Lemma promiseAll_renders {E : Env} base servers :
  forall acc,
    match promiseAll (map (fun s => renderServer (rendererInput base s) (Ok tt)) servers)
            acc with
    | Ok content =>
        exists texts,
          Forall2 (fun s text =>
                     ejs_render (nginxConfigTemplate s)
                       (DataServer (rendererInput base s)) = Some text) servers texts /\
          content = acc +:+ foldr String.append "" texts
    | Err e =>
        exists before s after,
          servers = before ++ s :: after /\
          Forall (fun s' => is_Some (ejs_render (nginxConfigTemplate s')
                                       (DataServer (rendererInput base s')))) before /\
          ejs_render (nginxConfigTemplate s) (DataServer (rendererInput base s)) = None /\
          e = TemplateRenderError (nginxConfigTemplate s)
    end.
Proof.
  induction servers as [|s servers IH]; intros acc; simpl.
  - exists []. split; [constructor|]. by rewrite string_app_nil_r.
  - rewrite rendererInput_template.
    destruct (ejs_render (nginxConfigTemplate s) (DataServer (rendererInput base s)))
      as [text|] eqn:Hr.
    + specialize (IH (acc +:+ text)).
      destruct (promiseAll _ (acc +:+ text)) as [content|e].
      * destruct IH as (texts & Hall & ->). exists (text :: texts).
        split; [by constructor|]. simpl. by rewrite string_app_assoc.
      * destruct IH as (before & s' & after & -> & Hb & Hs' & ->).
        exists (s :: before), s', after. repeat split; try done.
        constructor; [by rewrite Hr|done].
    + exists [], s, servers. repeat split; try done.
Qed.

(** X9: when no server block has credentials, a successful reload puts in
    [.conf] the texts the blocks render to, joined in the order of the
    server list (the root configuration being kept under another name),
    and a rendering that fails writes nothing and fails with the error of
    the first block of the list whose template does not render. *)
Theorem X9_text_in_list_order {E : Env} ds :
  (forall s, s ∈ getServerList ds -> httpBasicAuth s = "") ->
  (forall w w',
      rootNginxConfigPath constants <> configFilePathBase ds ->
      reloadChain ds w = (Ok tt, w') ->
      exists texts,
        Forall2 (fun s text =>
                   ejs_render (nginxConfigTemplate s)
                     (DataServer (rendererInput (configFilePathBase ds) s)) = Some text)
                (getServerList ds) texts /\
        files w' !! CONFIG (configFilePathBase ds) =
          Some (foldr String.append "" texts)) /\
  (forall w e w',
      renderServers (configFilePathBase ds) (getServerList ds) w = (Err e, w') ->
      w' = w /\
      exists before s after,
        getServerList ds = before ++ s :: after /\
        Forall (fun s' => is_Some (ejs_render (nginxConfigTemplate s')
                  (DataServer (rendererInput (configFilePathBase ds) s')))) before /\
        ejs_render (nginxConfigTemplate s)
          (DataServer (rendererInput (configFilePathBase ds) s)) = None /\
        e = TemplateRenderError (nginxConfigTemplate s)).
Proof.
  intros Hnone. split.
  - intros w w' Hne H.
    apply reloadChain_ok_files in H as (content & w0 & w1 & _ & Hr & _ & _ & _ & Hc).
    destruct (Hc Hne) as (-> & _).
    rewrite renderServers_no_credentials in Hr by done.
    apply (f_equal fst) in Hr. cbn [fst] in Hr.
    pose proof (promiseAll_renders (configFilePathBase ds) (getServerList ds) "") as Hp.
    rewrite Hr in Hp. destruct Hp as (texts & Hall & ->). eauto.
  - intros w e w' Hr.
    rewrite renderServers_no_credentials in Hr by done.
    pose proof (f_equal snd Hr) as Hw. cbn [snd] in Hw. subst w'.
    apply (f_equal fst) in Hr. cbn [fst] in Hr.
    split; [done|].
    pose proof (promiseAll_renders (configFilePathBase ds) (getServerList ds) "") as Hp.
    by rewrite Hr in Hp.
Qed.

(** The theorem at the application [foo] and its custom domain, neither
    with credentials. *)
Lemma X9_text_in_list_order_witness :
  exists texts,
    Forall2 (fun s text =>
               ejs_render (Env := sampleEnv) (nginxConfigTemplate s)
                 (DataServer (rendererInput (E := sampleEnv)
                                (configFilePathBase (E := sampleEnv) c2Store) s)) =
               Some text)
            (getServerList c2Store) texts /\
    files (reloadChain (E := sampleEnv) c2Store emptyWorld).2
      !! CONFIG (configFilePathBase (E := sampleEnv) c2Store) =
    Some (foldr String.append "" texts).
Proof.
  refine (proj1 (X9_text_in_list_order (E := sampleEnv) c2Store _) emptyWorld _ _ _).
  - intros s Hs. vm_compute in Hs.
    repeat (apply elem_of_cons in Hs as [->|Hs]; [reflexivity|]).
    by apply elem_of_nil in Hs.
  - vm_compute. discriminate.
  - vm_compute. reflexivity.
Defined.

(** ** Requests and their promises *)

Lemma settleChain_world {E : Env} self q others :
  chains self = q :: others ->
  world (settleChain self) = (reloadChain (dataStore q) (world self)).2.
Proof.
  intros Hc. rewrite (settleChain_step _ _ _ Hc).
  match goal with |- context [consumeQueueIfAnyInNginxReloadQueue ?m] =>
    by destruct (consume_fields m) as (-> & _) end.
Qed.

Lemma rePopulate_idle ds self :
  reloadInProcess self = false ->
  requestedReloadPromises self = [] ->
  chains self = [] ->
  rePopulateNginxConfigFile ds self =
  (promisesMade self,
   {| reloadInProcess := true; requestedReloadPromises := [];
      captainPublicRandomKey := captainPublicRandomKey self;
      ownDataStore := ownDataStore self;
      chains := [ {| dataStore := ds; promise := promisesMade self |} ];
      started := started self ++ [promisesMade self]; settled := settled self;
      promisesMade := S (promisesMade self); world := world self |}).
Proof.
  intros Hidle Hq Hc. unfold rePopulateNginxConfigFile.
  rewrite (consume_snoc _ [] {| dataStore := ds; promise := promisesMade self |})
    by (cbn; by rewrite Hq).
  cbn. by rewrite Hidle, Hc.
Qed.

(** X12: a call on a manager that is idle, with nothing pending, starts
    the chain of its own request at once; when that chain reaches its last
    handler the promise the call returned is settled, resolved or rejected
    as the chain ended, the files are as the chain left them, and the
    manager is idle again. *)
Theorem X12_idle_call_is_served {E : Env} ds self :
  reloadInProcess self = false ->
  requestedReloadPromises self = [] ->
  chains self = [] ->
  let p := (rePopulateNginxConfigFile ds self).1 in
  let called := (rePopulateNginxConfigFile ds self).2 in
  let q := {| dataStore := ds; promise := p |} in
  p = promisesMade self /\
  reloadInProcess called = true /\ chains called = [q] /\
  settled (settleChain called) = settled self ++ [(p, chainOutcome q (world self))] /\
  world (settleChain called) = (reloadChain ds (world self)).2 /\
  reloadInProcess (settleChain called) = false /\
  chains (settleChain called) = [] /\
  requestedReloadPromises (settleChain called) = [].
Proof.
  intros Hidle Hq Hc. cbv zeta. rewrite (rePopulate_idle ds self Hidle Hq Hc).
  cbn [fst snd]. split; [done|]. split; [done|]. split; [done|].
  match goal with |- context [settleChain ?m] =>
    destruct (settleChain_last m {| dataStore := ds; promise := promisesMade self |}
                eq_refl eq_refl) as (-> & _ & -> & -> & ->);
    rewrite (settleChain_world m {| dataStore := ds; promise := promisesMade self |}
               [] eq_refl)
  end.
  done.
Qed.

(** The theorem at a first call on a new manager. *)
Lemma X12_idle_call_is_served_witness :
  settled (settleChain (E := sampleEnv)
             (rePopulateNginxConfigFile shopStore (newManager (sampleStore []) "key" emptyWorld)).2) =
  settled (newManager (sampleStore []) "key" emptyWorld) ++
  [((rePopulateNginxConfigFile shopStore (newManager (sampleStore []) "key" emptyWorld)).1,
    chainOutcome (E := sampleEnv)
      {| dataStore := shopStore;
         promise := (rePopulateNginxConfigFile shopStore (newManager (sampleStore []) "key" emptyWorld)).1 |}
      (world (newManager (sampleStore []) "key" emptyWorld)))].
Proof.
  refine (proj1 (proj2 (proj2 (proj2
    (X12_idle_call_is_served (E := sampleEnv) shopStore (newManager (sampleStore []) "key" emptyWorld)
       _ _ _))))); reflexivity.
Defined.

(** The bookkeeping of a manager: nothing pending, at most one chain under
    way, and the promises settled followed by the one under way are the
    promises started, each started once and made before. *)
Lemma bookkeeping {E : Env} evs :
  forall self,
    requestedReloadPromises self = [] ->
    ((reloadInProcess self = true /\ exists q, chains self = [q]) \/
     (reloadInProcess self = false /\ chains self = [])) ->
    map fst (settled self) ++ map promise (chains self) = started self ->
    NoDup (started self) ->
    Forall (fun p => p < promisesMade self) (started self) ->
    map fst (settled (run evs self)) ++ map promise (chains (run evs self)) =
      started (run evs self) /\
    NoDup (started (run evs self)) /\
    Forall (fun p => p < promisesMade (run evs self)) (started (run evs self)).
Proof.
  induction evs as [|ev evs IH]; intros self Hq Hflight Heq Hnd Hlt; [done|].
  unfold run in *. cbn [fold_left]. destruct ev as [ds|]; cbn [step].
  - unfold rePopulateNginxConfigFile. cbn [snd].
    rewrite (consume_snoc _ [] {| dataStore := ds; promise := promisesMade self |})
      by (cbn; by rewrite Hq).
    cbn. destruct Hflight as [(Hr & q & Hc)|(Hr & Hc)]; rewrite Hr.
    + apply IH; cbn; try done.
      * left. eauto.
      * eapply Forall_impl; [exact Hlt|]. cbn. lia.
    + apply IH; cbn.
      * done.
      * left. rewrite Hc. eauto.
      * rewrite Hc in *. cbn in *. rewrite app_nil_r in Heq. by rewrite Heq.
      * apply NoDup_app. split; [done|]. split; [|apply NoDup_singleton].
        intros p Hp ->%list_elem_of_singleton. rewrite Forall_forall in Hlt.
        specialize (Hlt _ Hp). lia.
      * apply Forall_app. split.
        -- eapply Forall_impl; [exact Hlt|]. cbn. lia.
        -- apply Forall_singleton. lia.
  - destruct Hflight as [(Hr & q & Hc)|(Hr & Hc)].
    + destruct (settleChain_last self q Hc Hq) as (S1 & T1 & C1 & Q1 & R1).
      assert (promisesMade (settleChain self) = promisesMade self) as P1.
      { rewrite (settleChain_step _ _ _ Hc), consume_empty by done. done. }
      apply IH; try done.
      * by right.
      * rewrite S1, T1, C1, map_app, app_nil_r. rewrite Hc in Heq. done.
      * by rewrite T1.
      * by rewrite T1, P1.
    + assert (settleChain self = self) as -> by (unfold settleChain; by rewrite Hc).
      apply IH; try done. by right.
Qed.

(** X13: from a new manager, whatever the calls and completions, no
    promise is settled twice, every settled promise is one whose chain was
    started, and every started promise is either settled or the one whose
    chain is under way. *)
Theorem X13_promises_settle_once {E : Env} own key w evs :
  let self := run evs (newManager own key w) in
  map fst (settled self) ++ map promise (chains self) = started self /\
  NoDup (map fst (settled self)) /\
  (forall p, p ∈ map fst (settled self) -> p ∈ started self /\ p < promisesMade self).
Proof.
  cbv zeta.
  destruct (bookkeeping evs (newManager own key w)) as (Heq & Hnd & Hlt).
  { done. }
  { by right. }
  { done. }
  { constructor. }
  { constructor. }
  split; [done|]. rewrite <- Heq in Hnd. apply NoDup_app in Hnd as (Hnd & _).
  split; [done|]. intros p Hp.
  assert (p ∈ started (run evs (newManager own key w))) as Hs.
  { rewrite <- Heq. apply elem_of_app. by left. }
  split; [done|]. rewrite Forall_forall in Hlt. by apply Hlt.
Qed.

(** ** The proxy's service, again *)

(** X14: a second run of the service part of [init] after a successful
    one makes three scheduler calls only, asking whether the service runs,
    asking for its node and updating it: the service is neither removed
    nor created again, and stays on the expected node. *)
Theorem X14_reconcile_twice {E : Env} myNodeId w w1 w2 :
  initService myNodeId w = (Ok tt, w1) ->
  initService myNodeId w1 = (Ok tt, w2) ->
  dockerLog w2 =
    dockerLog w1 ++
    [ IsServiceRunningByName (nginxServiceName constants);
      GetNodeIdByServiceName (nginxServiceName constants) 0;
      updateCall ] /\
  services w2 !! nginxServiceName constants = Some myNodeId.
Proof.
  intros H1 H2. apply initService_ok in H1 as (_ & S1).
  apply initService_ok in H2 as (D2 & S2). split; [|done].
  rewrite D2, S1. unfold reconcileCalls. by rewrite String.eqb_refl.
Qed.

(** The theorem at a proxy first found on [nodeA] and moved to [nodeB]. *)
Lemma X14_reconcile_twice_witness :
  services
    (initService (E := sampleEnv) "nodeB"
       (initService (E := sampleEnv) "nodeB" worldOnNodeA).2).2
    !! "captain-nginx" = Some "nodeB".
Proof.
  refine (proj2 (X14_reconcile_twice (E := sampleEnv) "nodeB" worldOnNodeA _ _ _ _)).
  - vm_compute. reflexivity.
  - vm_compute. reflexivity.
Defined.

(** ** A root template that does not render *)

(** X15: when the root template does not render, a reload whose own
    configuration was rendered and swapped is rejected with the template's
    error all the same, after the swap: the namespace's [.conf] holds the
    new text although the request failed. *)
Theorem X15_rejected_after_swap {E : Env} ds w content w1 w2 :
  ejs_render (rootNginxTemplate ds) (rootData ds) = None ->
  (fs.remove (FUTURE (configFilePathBase ds)) ;;
   renderServers (configFilePathBase ds) (getServerList ds)) w = (Ok content, w1) ->
  swapConfigFile (configFilePathBase ds) content w1 = (Ok tt, w2) ->
  reloadChain ds w = (Err (TemplateRenderError (rootNginxTemplate ds)), w2) /\
  files w2 !! CONFIG (configFilePathBase ds) = Some content /\
  fsLog w2 = fsLog w1 ++ swapSteps (configFilePathBase ds) content.
Proof.
  intros Hroot Hpre Hswap. split.
  - unfold reloadChain. apply bind_ok in Hpre as ([] & w0 & Hrem & Hrender).
    apply bind_err. right. exists tt, w0. split; [done|].
    apply bind_err. right. exists content, w1. split; [done|].
    apply bind_err. right. exists tt, w2. split; [done|].
    unfold createRootConfFile. fold (rootNginxTemplate ds).
    apply bind_err. left. unfold render. by rewrite Hroot.
  - by apply swapConfigFile_ok in Hswap as (? & ? & _).
Qed.

(** The theorem at a store whose root template is refused. *)
Lemma X15_rejected_after_swap_witness :
  reloadChain (E := sampleEnv) badRootStore emptyWorld =
  (Err (TemplateRenderError (rootNginxTemplate badRootStore)),
   (swapConfigFile (configFilePathBase (E := sampleEnv) badRootStore) ""
      ((fs.remove (FUTURE (configFilePathBase (E := sampleEnv) badRootStore)) ;;
        renderServers (E := sampleEnv) (configFilePathBase (E := sampleEnv) badRootStore)
          (getServerList badRootStore)) emptyWorld).2).2).
Proof.
  refine (proj1 (X15_rejected_after_swap (E := sampleEnv) badRootStore emptyWorld ""
            ((fs.remove (FUTURE (configFilePathBase (E := sampleEnv) badRootStore)) ;;
              renderServers (E := sampleEnv)
                (configFilePathBase (E := sampleEnv) badRootStore)
                (getServerList badRootStore)) emptyWorld).2 _ _ _ _)).
  - reflexivity.
  - vm_compute. reflexivity.
  - vm_compute. reflexivity.
Defined.

(** ** [init] that fails *)

Lemma docker_perform_err {A} op
    (act : gmap string string -> option (A * gmap string string)) w e w' :
  dockerApi.perform op act w = (Err e, w') -> e = SchedulerClientError op.
Proof.
  unfold dockerApi.perform, bind, refused, throw.
  destruct (faults w) as [|[] rest]; simpl; try (by intros [= <- _]);
    destruct (act (services w)) as [[a m]|]; by intros [= <- _].
Qed.

(** A failure of the service part of [init] is the scheduler's, or comes
    before any scheduler call. *)
Lemma initService_err {E : Env} myNodeId w e w' :
  initService myNodeId w = (Err e, w') ->
  (exists op, e = SchedulerClientError op) \/ sameServices w w'.
Proof.
  unfold initService, createNginxServiceOnNode. intros H.
  apply bind_err in H as [H|(? & w1 & H1 & H)].
  { right. by apply fsOnly_perform in H. }
  apply fsOnly_perform in H1 as (S1 & D1).
  apply bind_err in H as [H|(? & w2 & H2 & H)].
  { right. apply fsOnly_perform in H as (? & ?). split; congruence. }
  left.
  apply bind_err in H as [H|(isRunning & w3 & _ & H)].
  { apply docker_perform_err in H. eauto. }
  apply bind_err in H as [H|(nodeId & w4 & _ & H)].
  { destruct isRunning.
    - apply docker_perform_err in H. eauto.
    - apply bind_err in H as [H|(? & ? & _ & [=])].
      apply docker_perform_err in H. eauto. }
  apply bind_err in H as [H|(? & w5 & _ & H)].
  - destruct (negb (String.eqb nodeId myNodeId)); [|done].
    apply bind_err in H as [H|(? & ? & _ & H)];
      apply docker_perform_err in H; eauto.
  - apply docker_perform_err in H. eauto.
Qed.

(** X16: when [init] fails with an error that is not the scheduler's (a
    file operation, a template, the reload it asked for), it has made no
    scheduler call: the proxy's service is as it was. *)
Theorem X16_failed_init_leaves_service {E : Env} myNodeId ds self e self' :
  init myNodeId ds self = (Failed e, self') ->
  (forall op, e <> SchedulerClientError op) ->
  services (world self') = services (world self) /\
  dockerLog (world self') = dockerLog (world self).
Proof.
  unfold init. intros H Hne.
  destruct (lift (initFiles self) self)
    as [[[]|e1] self1] eqn:H1.
  - apply lift_run in H1 as (H1 & _). apply fsOnly_initFiles in H1 as (S1 & D1).
    pose proof (rePopulate_world ds self1) as W2.
    destruct (rePopulateNginxConfigFile ds self1) as [p self2]. simpl in W2.
    pose proof (settleChain_services self2) as (S3 & D3).
    destruct (outcomeOf p (settleChain self2)) as [[|e2]|]; try done.
    + destruct (lift (initService myNodeId) (settleChain self2))
        as [[[]|e4] self4] eqn:H4; [done|].
      injection H as <- <-. apply lift_run in H4 as (H4 & _).
      apply initService_err in H4 as [(op & ->)|(S4 & D4)]; [by destruct (Hne op)|].
      split; congruence.
    + injection H as <- <-. split; congruence.
  - injection H as <- <-. apply lift_run in H1 as (H1 & _).
    by apply fsOnly_initFiles in H1 as (S1 & D1).
Qed.

(** The theorem at an [init] whose reload is rejected for its root
    template, the proxy being on [nodeA]. *)
Lemma X16_failed_init_leaves_service_witness :
  services (world (init (E := sampleEnv) "nodeB" badRootStore
                     (newManager (sampleStore []) "key" worldOnNodeA)).2) =
  services (world (newManager (sampleStore []) "key" worldOnNodeA)).
Proof.
  refine (proj1 (X16_failed_init_leaves_service (E := sampleEnv) "nodeB" badRootStore
            (newManager (sampleStore []) "key" worldOnNodeA) (TemplateRenderError "<%") _ _ _)).
  - vm_compute. reflexivity.
  - discriminate.
Defined.

(** ** The files [init] writes *)




(** ** The credentials files after a reload *)

Lemma auth_path_inj base s s' :
  pathOfAuthInHost base s = pathOfAuthInHost base s' -> publicDomain s = publicDomain s'.
Proof.
  unfold pathOfAuthInHost. intros H.
  apply append_inv_head in H. apply (append_inv_head "-") in H.
  by apply append_inv_tail in H.
Qed.

Lemma auth_lastChar base s : lastChar (pathOfAuthInHost base s) = Some "h"%char.
Proof.
  unfold pathOfAuthInHost. rewrite <- !string_app_assoc. by rewrite lastChar_app.
Qed.

Lemma auth_not_swapped base s other :
  pathOfAuthInHost base s <> FUTURE other /\
  pathOfAuthInHost base s <> BACKUP other /\
  pathOfAuthInHost base s <> CONFIG other.
Proof.
  repeat split; intros H; apply (f_equal lastChar) in H;
    rewrite auth_lastChar in H; unfold FUTURE, BACKUP, CONFIG in H;
    by rewrite lastChar_app in H.
Qed.

Lemma writeAuthFiles_holds base ss :
  forall w written w',
    writeAuthFiles base ss w = (written, w') ->
    NoDup (map publicDomain ss) ->
    forall s u, (s, Ok u) ∈ written ->
                files w' !! pathOfAuthInHost base s = Some (httpBasicAuth s).
Proof.
  induction ss as [|s0 ss IH]; intros w written w'; simpl.
  - intros [= <- <-] _ s u Hin. by apply elem_of_nil in Hin.
  - destruct (fs.outputFile (pathOfAuthInHost base s0) (httpBasicAuth s0) w)
      as [r w1] eqn:H1.
    destruct (writeAuthFiles base ss w1) as [others w2] eqn:H2.
    intros [= <- <-] [Hfresh Hnd]%NoDup_cons s u [[= -> <-]|Hin]%elem_of_cons.
    + apply outputFile_ok in H1 as (F1 & _).
      apply writeAuthFiles_spec in H2 as (_ & ops & _ & A & F & _).
      rewrite F, F1, lookup_insert_eq; [done|].
      intros c Hc. rewrite Forall_forall in A.
      destruct (A _ Hc) as (s' & Hs' & [= Heq _]). apply Hfresh.
      apply auth_path_inj in Heq. rewrite Heq. apply list_elem_of_fmap. eauto.
    + by eapply IH.
Qed.

Lemma NoDup_filtered_domains {E : Env} base (P : IServerBlockDetails -> bool) servers :
  NoDup (map publicDomain servers) ->
  NoDup (map publicDomain (List.filter P (map (rendererInput base) servers))).
Proof.
  assert (forall l d,
            d ∈ map publicDomain (List.filter P (map (rendererInput base) l)) ->
            d ∈ map publicDomain l) as Hsub.
  { intros l d (s & Hd & Hs)%list_elem_of_fmap.
    apply list_elem_of_In, filter_In in Hs as (Hs & _).
    apply list_elem_of_In, list_elem_of_fmap in Hs as (s0 & -> & Hs0).
    apply list_elem_of_fmap. exists s0. split; [|done]. subst d.
    unfold rendererInput, assignAuthPath. by destruct (hasBasicAuth (assignPaths s0)). }
  induction servers as [|s servers IH]; [done|]. simpl.
  intros [Hfresh Hnd]%NoDup_cons. destruct (P (rendererInput base s)); [|by apply IH].
  simpl. apply NoDup_cons. split; [|by apply IH].
  intros Hin. apply Hfresh. apply Hsub.
  replace (publicDomain s) with (publicDomain (rendererInput base s)); [done|].
  unfold rendererInput, assignAuthPath. by destruct (hasBasicAuth (assignPaths s)).
Qed.

(** The credentials files after a successful rendering phase. *)
Lemma renderServers_credentials {E : Env} base servers w content w' :
  renderServers base servers w = (Ok content, w') ->
  NoDup (map publicDomain servers) ->
  forall s, s ∈ servers -> httpBasicAuth s <> "" ->
            files w' !! pathOfAuthInHost base s = Some (httpBasicAuth s).
Proof.
  unfold renderServers.
  destruct (writeAuthFiles base
              (List.filter hasBasicAuth (map (rendererInput base) servers)) w)
    as [written w1] eqn:Hw.
  intros Hr Hnd s Hs Hauth.
  pose proof (f_equal snd Hr) as Hw'. cbn [snd] in Hw'. subst w1.
  apply (f_equal fst) in Hr. cbn [fst] in Hr.
  pose proof (writeAuthFiles_written _ _ _ _ _ Hw) as (Hfst & _).
  apply promiseAll_ok, Forall_app in Hr as (_ & Hall). rewrite Forall_forall in Hall.
  destruct (rendererInput_auth base s) as (Hpath & Hcred).
  assert (rendererInput base s ∈ map fst written) as Hin.
  { rewrite Hfst. apply list_elem_of_In, filter_In. split.
    - apply list_elem_of_In, list_elem_of_fmap. eauto.
    - unfold hasBasicAuth. rewrite Hcred. apply negb_true_iff.
      by apply String.eqb_neq. }
  apply list_elem_of_fmap in Hin as ([s' r] & Heq & Hin). simpl in Heq. subst s'.
  destruct (Hall (renderServer (rendererInput base s) r)) as (t & Ht).
  { apply list_elem_of_fmap. exists (rendererInput base s, r).
    split; [done|]. by rewrite settleOrder_perm. }
  destruct r as [u|e]; [|done].
  rewrite <- Hpath, <- Hcred.
  eapply writeAuthFiles_holds; [exact Hw| |exact Hin].
  by apply NoDup_filtered_domains.
Qed.

(** The credentials file of a block, seen from the host and from the
    proxy's container. *)
Lemma auth_file_in_directory {E : Env} ds s :
  includes "/" (getNameSpace ds) = false ->
  includes "/" (publicDomain s) = false ->
  httpBasicAuth s <> "" ->
  includes "/" (getNameSpace ds +:+ "-" +:+ publicDomain s +:+ ".auth") = false /\
  pathOfAuthInHost (configFilePathBase ds) s =
    perAppNginxConfigPathBase constants +:+ "/" +:+
    (getNameSpace ds +:+ "-" +:+ publicDomain s +:+ ".auth") /\
  httpBasicAuthPath (rendererInput (configFilePathBase ds) s) =
    Some ("/etc/nginx/conf.d" +:+ "/" +:+
          (getNameSpace ds +:+ "-" +:+ publicDomain s +:+ ".auth")).
Proof.
  intros Hns Hdom Hauth.
  assert (pathOfAuthInHost (configFilePathBase ds) s =
          perAppNginxConfigPathBase constants +:+ "/" +:+
          (getNameSpace ds +:+ "-" +:+ publicDomain s +:+ ".auth")) as Hpath.
  { unfold pathOfAuthInHost, configFilePathBase.
    by rewrite !string_app_assoc. }
  assert (includes "/" (getNameSpace ds +:+ "-" +:+ publicDomain s +:+ ".auth") = false)
    as Hname by (rewrite !includes_app, Hns, Hdom; done).
  split; [done|]. split; [done|].
  unfold rendererInput, assignAuthPath.
  assert (hasBasicAuth (assignPaths s) = true) as ->.
  { unfold hasBasicAuth. simpl. apply negb_true_iff. by apply String.eqb_neq. }
  simpl. unfold path.join, CONTAINER_PATH_OF_CONFIG. do 3 f_equal.
  change (pathOfAuthInHost (configFilePathBase ds) (assignPaths s))
    with (pathOfAuthInHost (configFilePathBase ds) s).
  rewrite Hpath. apply basename_of_file; [done|].
  by destruct (getNameSpace ds).
Qed.

(** X18: for a namespace and public domains without a slash, after a
    successful reload of server blocks with distinct public domains every
    block that has credentials has its credentials file, a file of the
    directory [perAppNginxConfigPathBase] holding [user:passwordHashed] as
    the block carries it, and the template of the block was given that
    file's name in [/etc/nginx/conf.d], where [init] mounts the
    directory. *)
Theorem X18_credentials_on_disk {E : Env} ds w w' s :
  includes "/" (getNameSpace ds) = false ->
  Forall (fun s => includes "/" (publicDomain s) = false) (getServerList ds) ->
  NoDup (map publicDomain (getServerList ds)) ->
  reloadChain ds w = (Ok tt, w') ->
  s ∈ getServerList ds ->
  httpBasicAuth s <> "" ->
  files w' !! pathOfAuthInHost (configFilePathBase ds) s = Some (httpBasicAuth s) /\
  exists name,
    includes "/" name = false /\
    pathOfAuthInHost (configFilePathBase ds) s =
      perAppNginxConfigPathBase constants +:+ "/" +:+ name /\
    httpBasicAuthPath (rendererInput (configFilePathBase ds) s) =
      Some ("/etc/nginx/conf.d" +:+ "/" +:+ name) /\
    {| containerPath := "/etc/nginx/conf.d";
       hostPath := perAppNginxConfigPathBase constants |} ∈ nginxMounts.
Proof.
  intros Hns Hdom Hnd H Hs Hauth. split.
  - unfold reloadChain in H.
    apply bind_ok in H as ([] & w0 & _ & H).
    apply bind_ok in H as (content & w1 & H1 & H).
    apply bind_ok in H as ([] & w2 & H2 & H3).
    unfold createRootConfFile in H3.
    apply bind_ok in H3 as (rootContent & ? & [_ ->]%render_ok & H3).
    destruct (auth_not_swapped (configFilePathBase ds) s (configFilePathBase ds))
      as (? & ? & ?).
    destruct (auth_not_swapped (configFilePathBase ds) s (rootNginxConfigPath constants))
      as (? & ? & ?).
    apply swapConfigFile_ok in H2 as (_ & _ & _ & _ & O2 & _).
    apply swapConfigFile_ok in H3 as (_ & _ & _ & _ & O3 & _).
    rewrite O3, O2 by done. by eapply renderServers_credentials.
  - rewrite Forall_forall in Hdom.
    destruct (auth_file_in_directory ds s Hns (Hdom s Hs) Hauth) as (Hname & Hpath & Hin).
    eexists. split; [exact Hname|]. split; [exact Hpath|]. split; [exact Hin|].
    unfold nginxMounts. do 3 apply list_elem_of_further. apply list_elem_of_here.
Qed.

(** The theorem at the block of [shop.org]. *)
Lemma X18_credentials_on_disk_witness :
  files (reloadChain (E := sampleEnv) shopStore emptyWorld).2
    !! pathOfAuthInHost (configFilePathBase (E := sampleEnv) shopStore)
         (customDomainServer shopStore "server " "shop"
            (sampleApp (Some {| App.user := Some "admin";
                                App.passwordHashed := Some "$1$abc" |})
               None
               [ {| App.publicDomain := "shop.org"; App.hasSsl := true |};
                 {| App.publicDomain := "shop.net"; App.hasSsl := false |} ])
            {| App.publicDomain := "shop.org"; App.hasSsl := true |}) =
  Some "admin:$1$abc".
Proof.
  refine (proj1 (X18_credentials_on_disk (E := sampleEnv) shopStore emptyWorld _ _
                   _ _ _ _ _ _)).
  - reflexivity.
  - vm_compute. repeat (apply Forall_cons; split; [reflexivity|]). apply Forall_nil_2.
  - vm_compute. repeat (apply NoDup_cons; split; [|]); try apply NoDup_nil_2;
      intros Hin;
      repeat (apply elem_of_cons in Hin as [Hin|Hin]; [discriminate Hin|]);
      by apply elem_of_nil in Hin.
  - vm_compute. reflexivity.
  - vm_compute. apply list_elem_of_further, list_elem_of_here.
  - discriminate.
Defined.
